(** * Telco churn pipeline: a shallow embedding of the orchestration core

    The Python sources under [src/] are embedded as Rocq functions:
    - exceptions become values of [result];
    - Python dictionaries become insertion-ordered association lists;
    - pandas frames become ordered lists of named columns;
    - objects that are mutated in place (frames, the components' fields)
      live in explicit states that are threaded through the calls.

    The first half of the file holds the definitions, the second half the
    lemmas and theorems about them. *)

From Stdlib Require Import String Ascii ZArith NArith QArith Qround Qabs DecimalString Bool Arith Lia List.
Import ListNotations.

Set Implicit Arguments.

Open Scope string_scope.
Open Scope list_scope.
Open Scope nat_scope.

(* ================================================================== *)
(** * Part I: definitions                                             *)
(* ================================================================== *)

(** ** Exceptions and results *)

(** The subclasses of Python's [Exception] that the code raises or that the
    library calls it makes raise.  The spec's [InvalidInputError] and
    [DataError] are both [ValueError] in the sources. *)
Inductive exn : Type :=
| KeyError (key : string)
| ValueError (msg : string)
| TypeError (msg : string)
| IndexError (msg : string)
| AttributeError (msg : string).

(** [str(e)], as stored in the training record. *)
Definition str_of_exn (e : exn) : string :=
  match e with
  | KeyError k => ("'" ++ k ++ "'")%string
  | ValueError m => m
  | TypeError m => m
  | IndexError m => m
  | AttributeError m => m
  end.

Inductive result (A : Type) : Type :=
| OK (a : A)
| Raise (e : exn).
Arguments OK {A} a.
Arguments Raise {A} e.

Definition bind {A B : Type} (r : result A) (f : A -> result B) : result B :=
  match r with
  | OK a => f a
  | Raise e => Raise e
  end.

Declare Scope result_scope.
Delimit Scope result_scope with result.
Notation "'do' x <- c1 ; c2" := (bind c1 (fun x => c2))
  (at level 10, x pattern, c1 at level 100, c2 at level 200) : result_scope.
Open Scope result_scope.

Definition is_ok {A : Type} (r : result A) : bool :=
  match r with OK _ => true | Raise _ => false end.

(** Left-to-right loop whose body may raise: the first exception leaves the
    loop. *)
Fixpoint foldM {A B : Type} (f : A -> B -> result A) (l : list B) (a : A)
  : result A :=
  match l with
  | [] => OK a
  | b :: l' => do a' <- f a b; foldM f l' a'
  end.

(** ** Python dictionaries

    A [dict] keeps its keys in insertion order; assigning to a key that is
    already present keeps the key's position. *)
Section PyDict.
Variable V : Type.

Definition dict : Type := list (string * V).

Fixpoint dict_get (k : string) (d : dict) : option V :=
    match d with
    | [] => None
    | (k', v) :: d' => if String.eqb k k' then Some v else dict_get k d'
    end.

Fixpoint dict_set (k : string) (v : V) (d : dict) : dict :=
    match d with
    | [] => [(k, v)]
    | (k', v') :: d' =>
        if String.eqb k k' then (k, v) :: d' else (k', v') :: dict_set k v d'
    end.

Definition dict_keys (d : dict) : list string := map fst d.

Definition dict_mem (k : string) (d : dict) : bool :=
    match dict_get k d with Some _ => true | None => false end.
End PyDict.

Arguments dict_get {V} k d.
Arguments dict_set {V} k v d.
Arguments dict_keys {V} d.
Arguments dict_mem {V} k d.

(** ** pandas: cells, columns and frames *)

(** A cell: a number (a float or an int, as the rational it denotes), a
    string, or the missing value [NaN]/[None]. *)
Inductive value : Type :=
| VNum (q : Q)
| VStr (s : string)
| VNaN.

Inductive dtype : Type := Int64 | Float64 | Object.

Record Series : Type := mkSeries {
  dtype_of : dtype;
  cells : list value
}.

(** A frame is its columns in order; [data[col] = s] is [dict_set]. *)
Definition DataFrame : Type := dict Series.

(** [len(data)] *)
Definition n_rows (data : DataFrame) : nat :=
  match data with
  | [] => 0
  | (_, s) :: _ => length (cells s)
  end.

(** [data.shape] *)
Definition shape (data : DataFrame) : nat * nat := (n_rows data, length data).

(** [data.empty]: some axis has length 0. *)
Definition empty (data : DataFrame) : bool :=
  (n_rows data =? 0)%nat || (length data =? 0)%nat.

Definition is_null (v : value) : bool :=
  match v with VNaN => true | _ => false end.

(** [data.isnull().sum().sum()] *)
Definition missing_count (data : DataFrame) : nat :=
  list_sum (map (fun c => length (filter is_null (cells (snd c)))) data).

(** Equality of two cells as [duplicated] and [mode] see it: missing values
    are equal to each other, a number is never equal to a string. *)
Definition value_eqb (a b : value) : bool :=
  match a, b with
  | VNum x, VNum y => Qeq_bool x y
  | VStr x, VStr y => String.eqb x y
  | VNaN, VNaN => true
  | _, _ => false
  end.

(** The order in which [mode] and [LabelEncoder] sort: numbers by value,
    strings by code point; numbers are put before strings. *)
Definition value_leb (a b : value) : bool :=
  match a, b with
  | VNum x, VNum y => Qle_bool x y
  | VStr x, VStr y => String.leb x y
  | VNum _, _ => true
  | VStr _, VNum _ => false
  | VStr _, VNaN => true
  | VNaN, VNaN => true
  | VNaN, _ => false
  end.

(** [s.fillna(v)] *)
Definition fillna (v : value) (s : Series) : Series :=
  mkSeries (dtype_of s) (map (fun c => if is_null c then v else c) (cells s)).

(** [s.isnull().any()] *)
Definition isnull_any (s : Series) : bool := existsb is_null (cells s).

Fixpoint insert_sorted (x : Q) (l : list Q) : list Q :=
  match l with
  | [] => [x]
  | y :: l' => if Qle_bool x y then x :: l else y :: insert_sorted x l'
  end.

Definition sort_Q (l : list Q) : list Q := fold_right insert_sorted [] l.

(** The non-missing cells of a column as numbers; a string among them makes
    a numeric reduction raise. *)
Fixpoint numbers_of (cs : list value) : result (list Q) :=
  match cs with
  | [] => OK []
  | VNum q :: cs' => do qs <- numbers_of cs'; OK (q :: qs)
  | VNaN :: cs' => numbers_of cs'
  | VStr s :: cs' => Raise (TypeError ("could not convert string to float: " ++ s))
  end.

(** [s.median()]: missing values are skipped; the median of nothing is
    missing. *)
Definition median (s : Series) : result value :=
  do xs <- numbers_of (cells s);
  let sorted := sort_Q xs in
  let n := length sorted in
  if (n =? 0)%nat then OK VNaN
  else if Nat.odd n then OK (VNum (nth (n / 2) sorted 0%Q))
  else OK (VNum ((nth (n / 2 - 1) sorted 0%Q + nth (n / 2) sorted 0%Q) / 2)%Q).

Definition count_value (v : value) (l : list value) : nat :=
  length (filter (value_eqb v) l).

(** [s.mode()[0]]: the most frequent non-missing value, the least one when
    several are as frequent; a column with no value has an empty mode and
    indexing it raises. *)
Definition mode_first (s : Series) : result value :=
  let present := filter (fun c => negb (is_null c)) (cells s) in
  match present with
  | [] => Raise (KeyError "0")
  | v0 :: rest =>
      OK (fold_left
            (fun best v =>
               let cb := count_value best present in
               let cv := count_value v present in
               if (cb <? cv)%nat then v
               else if (cv =? cb)%nat && negb (value_leb best v) then v
               else best)
            rest v0)
  end.

(** Python's [str.isspace] on ASCII characters. *)
Definition is_space (c : ascii) : bool :=
  let n := nat_of_ascii c in
  ((9 <=? n)%nat && (n <=? 13)%nat) || ((28 <=? n)%nat && (n <=? 32)%nat).

Fixpoint lstrip (s : string) : string :=
  match s with
  | EmptyString => EmptyString
  | String c s' => if is_space c then lstrip s' else s
  end.

Fixpoint rstrip (s : string) : string :=
  match s with
  | EmptyString => EmptyString
  | String c s' =>
      match rstrip s' with
      | EmptyString => if is_space c then EmptyString else String c EmptyString
      | r => String c r
      end
  end.

(** [str.strip()] *)
Definition strip (s : string) : string := rstrip (lstrip s).

(** The conversions between text and numbers that pandas and Python
    provide: how a number prints under [astype(str)], which strings
    [pd.to_numeric] parses (and to what), and which strings [int] accepts.
    Nothing below depends on their details. *)
Class TextConversions : Type := {
  str_of_number : dtype -> Q -> string;
  to_numeric_str : string -> option Q;
  int_of_str : string -> option Z
}.

(** Rows taken by position, [s.iloc[idx]]. *)
Definition take (idx : list nat) (s : Series) : Series :=
  mkSeries (dtype_of s) (map (fun i => nth i (cells s) VNaN) idx).

Definition take_rows (idx : list nat) (data : DataFrame) : DataFrame :=
  map (fun c => (fst c, take idx (snd c))) data.

(** Rows [i] and [j] agree on every column. *)
Definition row_eqb (data : DataFrame) (i j : nat) : bool :=
  forallb (fun c => value_eqb (nth i (cells (snd c)) VNaN)
                              (nth j (cells (snd c)) VNaN)) data.

(** [data.duplicated()]: a row is a duplicate when an earlier row equals
    it. *)
Definition duplicated (data : DataFrame) (i : nat) : bool :=
  existsb (fun j => row_eqb data j i) (seq 0 i).

(** The data model's invariant: every column has one cell per row. *)
Definition rectangular (data : DataFrame) : Prop :=
  Forall (fun c => length (cells (snd c)) = n_rows data) data.

(** The names of the columns with their lengths. *)
Definition layout (data : DataFrame) : list (string * nat) :=
  map (fun c => (fst c, length (cells (snd c)))) data.

(** A list of positions in increasing order. *)
Definition increasing (idx : list nat) : Prop :=
  forall j i, j < i -> i < length idx -> nth j idx 0 < nth i idx 0.

(** No row repeats an earlier one. *)
Definition no_duplicates (data : DataFrame) : Prop :=
  forall i, i < n_rows data -> duplicated data i = false.

(** [data.drop_duplicates()] *)
Definition drop_duplicates (data : DataFrame) : DataFrame :=
  take_rows (filter (fun i => negb (duplicated data i)) (seq 0 (n_rows data)))
            data.

(** ** The object store

    Frames are Python objects: a method that receives a frame receives a
    reference, and [fillna(inplace=True)], [data[col] = ...] and
    [drop_duplicates(inplace=True)] change the object behind it.  The store
    lists the frame objects alive, a reference is a position in it.  A
    computation may raise after it has changed the store. *)
Definition ref : Type := nat.
Definition heap : Type := list DataFrame.
Definition H (A : Type) : Type := heap -> result A * heap.

Definition retH {A : Type} (a : A) : H A := fun h => (OK a, h).

Definition liftH {A : Type} (r : result A) : H A := fun h => (r, h).

Definition bindH {A B : Type} (m : H A) (f : A -> H B) : H B :=
  fun h =>
    match m h with
    | (OK a, h') => f a h'
    | (Raise e, h') => (Raise e, h')
    end.

Notation "'let!' x := c1 'in' c2" := (bindH c1 (fun x => c2))
  (at level 10, x pattern, c1 at level 100, c2 at level 200) : result_scope.

Fixpoint replace_nth {A : Type} (n : nat) (a : A) (l : list A) : list A :=
  match l, n with
  | [], _ => []
  | _ :: l', O => a :: l'
  | x :: l', S n' => x :: replace_nth n' a l'
  end.

(** The frame behind a reference. *)
Definition deref (l : ref) : H DataFrame := fun h => (OK (nth l h []), h).

(** Overwrite the object behind a reference. *)
Definition store (l : ref) (data : DataFrame) : H unit :=
  fun h => (OK tt, replace_nth l data h).

(** A new object. *)
Definition new_frame (data : DataFrame) : H ref :=
  fun h => (OK (length h), h ++ [data]).

(** [data.copy()] *)
Definition copy (l : ref) : H ref :=
  let! data := deref l in new_frame data.

(** A method that changes the frame it is given and returns it: [f] is what
    it does to the frame's value.  When [f] raises, the changes made so far
    are not kept; by then the object is out of reach. *)
Definition mutate (f : DataFrame -> result DataFrame) (l : ref) : H ref :=
  let! data := deref l in
  let! data' := liftH (f data) in
  let! _ := store l data' in
  retH l.

(** The objects of [h] are still there, unchanged, in [h']. *)
Definition preserved (h h' : heap) : Prop :=
  forall l, l < length h -> nth l h' [] = nth l h [].

(** [out] is an object of [h'] that did not exist in [h]. *)
Definition fresh (h h' : heap) (out : ref) : Prop :=
  length h <= out /\ out < length h'.

Fixpoint mapM {A B : Type} (f : A -> result B) (l : list A) : result (list B) :=
  match l with
  | [] => OK []
  | a :: l' => do b <- f a; do bs <- mapM f l'; OK (b :: bs)
  end.

(** ** TelcoDataCleaner (data_cleaner.py) *)

Module Cleaner.

Record CleaningReport : Type := mkReport {
    initial_shape : nat * nat;
    final_shape : nat * nat;
    initial_missing : nat;
    final_missing : nat;
    rows_removed : Z;
    columns_removed : Z
  }.

(** The cleaner's only field; [None] is the [{}] of [__init__]. *)
Record t : Type := mk { cleaning_report : option CleaningReport }.

Definition init : t := mk None.

(** [get_cleaning_report]: the report of the last call of [clean_data]. *)
Definition get_cleaning_report (self : t) : option CleaningReport :=
    cleaning_report self.

Definition numeric_columns : list string :=
    ["tenure"; "MonthlyCharges"; "TotalCharges"].

Definition categorical_columns : list string :=
    ["gender"; "Partner"; "Dependents"; "PhoneService";
     "MultipleLines"; "InternetService"; "OnlineSecurity";
     "OnlineBackup"; "DeviceProtection"; "TechSupport";
     "StreamingTV"; "StreamingMovies"; "Contract";
     "PaperlessBilling"; "PaymentMethod"].

Definition service_columns : list string :=
    ["OnlineSecurity"; "OnlineBackup"; "DeviceProtection";
     "TechSupport"; "StreamingTV"; "StreamingMovies"].

(** One turn of the first loop of [_handle_missing_values]. *)
Definition fill_median (data : DataFrame) (col : string) : result DataFrame :=
    match dict_get col data with
    | Some s =>
        if isnull_any s then
          do median_val <- median s;
          OK (dict_set col (fillna median_val s) data)
        else OK data
    | None => OK data
    end.

(** One turn of its second loop. *)
Definition fill_mode (data : DataFrame) (col : string) : result DataFrame :=
    match dict_get col data with
    | Some s =>
        if isnull_any s then
          do mode_val <- mode_first s;
          OK (dict_set col (fillna mode_val s) data)
        else OK data
    | None => OK data
    end.

Definition _handle_missing_values (data : DataFrame) : result DataFrame :=
    do data <- foldM fill_median numeric_columns data;
    foldM fill_mode categorical_columns data.

Section WithText.
Context {text : TextConversions}.

(** [s.astype(str)]; a missing value prints as [nan]. *)
Definition astype_str (s : Series) : Series :=
      mkSeries Object
        (map (fun c => match c with
                       | VStr x => VStr x
                       | VNum q => VStr (str_of_number (dtype_of s) q)
                       | VNaN => VStr "nan"
                       end) (cells s)).

(** [s.str.strip()]; the accessor gives a missing value for a cell that
        is not a string. *)
Definition str_strip (s : Series) : Series :=
      mkSeries (dtype_of s)
        (map (fun c => match c with
                       | VStr x => VStr (strip x)
                       | _ => VNaN
                       end) (cells s)).

(** [s.replace(olds, new)] *)
Definition replace_values (olds : list string) (new : string) (s : Series)
      : Series :=
      mkSeries (dtype_of s)
        (map (fun c => match c with
                       | VStr x => if existsb (String.eqb x) olds
                                   then VStr new else c
                       | _ => c
                       end) (cells s)).

Definition strip_column (data : DataFrame) (col : string) : DataFrame :=
      match dict_get col data with
      | Some s => dict_set col (str_strip (astype_str s)) data
      | None => data
      end.

Definition collapse_no_service (data : DataFrame) (col : string)
      : DataFrame :=
      match dict_get col data with
      | Some s =>
          dict_set col
            (replace_values ["No internet service"; "No phone service"] "No" s)
            data
      | None => data
      end.

Definition _handle_inconsistent_values (data : DataFrame) : DataFrame :=
      let data := fold_left strip_column (categorical_columns ++ ["Churn"]) data in
      fold_left collapse_no_service service_columns data.

Definition is_integral (v : value) : bool :=
      match v with
      | VNum q => Qeq_bool q (inject_Z (Qfloor q))
      | _ => false
      end.

(** [pd.to_numeric(s, errors='coerce')]: a string that does not parse
        becomes missing.  A column that was not numeric becomes [int64] when
        every cell is a whole number and [float64] otherwise (pandas also
        looks at how the number was written; the code never tells the two
        apart). *)
Definition to_numeric_coerce (s : Series) : Series :=
      let cs := map (fun c => match c with
                              | VStr x => match to_numeric_str x with
                                          | Some q => VNum q
                                          | None => VNaN
                                          end
                              | _ => c
                              end) (cells s) in
      mkSeries (match dtype_of s with
                | Object => if forallb is_integral cs then Int64 else Float64
                | d => d
                end) cs.

(** [int(x)] on a number: truncation towards zero. *)
Definition truncate (q : Q) : Z := Z.quot (Qnum q) (Zpos (Qden q)).

(** [s.astype(int)] *)
Definition astype_int (s : Series) : result Series :=
      do cs <- mapM (fun c =>
                       match c with
                       | VNum q => OK (VNum (inject_Z (truncate q)))
                       | VStr x =>
                           match int_of_str x with
                           | Some z => OK (VNum (inject_Z z))
                           | None => Raise (ValueError
                               ("invalid literal for int() with base 10: " ++ x))
                           end
                       | VNaN => Raise (ValueError
                                   "cannot convert float NaN to integer")
                       end) (cells s);
      OK (mkSeries Int64 cs).

Definition _convert_data_types (data : DataFrame) : result DataFrame :=
      let data :=
        match dict_get "TotalCharges" data with
        | Some s =>
            dict_set "TotalCharges"
              (fillna (VNum 0) (to_numeric_coerce s)) data
        | None => data
        end in
      match dict_get "SeniorCitizen" data with
      | Some s =>
          do s' <- astype_int s;
          OK (dict_set "SeniorCitizen" s' data)
      | None => OK data
      end.

Definition _remove_duplicates (data : DataFrame) : DataFrame :=
      drop_duplicates data.

(** What the four steps of [clean_data] do, in order, to the value of
        the frame they are applied to. *)
Definition clean_steps (data : DataFrame) : result DataFrame :=
      do d1 <- _handle_missing_values data;
      do d3 <- _convert_data_types (_handle_inconsistent_values d1);
      OK (_remove_duplicates d3).

(** [clean_data]: the steps run on a copy of the argument. *)
Definition clean_data (self : t) (data : ref) : H (t * ref) :=
      let! cleaned_data := copy data in
      let! before := deref cleaned_data in
      let initial_shape := shape before in
      let initial_missing := missing_count before in
      let! cleaned_data := mutate _handle_missing_values cleaned_data in
      let! cleaned_data :=
        mutate (fun d => OK (_handle_inconsistent_values d)) cleaned_data in
      let! cleaned_data := mutate _convert_data_types cleaned_data in
      let! cleaned_data :=
        mutate (fun d => OK (_remove_duplicates d)) cleaned_data in
      let! after := deref cleaned_data in
      let final_shape := shape after in
      let final_missing := missing_count after in
      let report :=
        mkReport initial_shape final_shape initial_missing final_missing
          (Z.of_nat (fst initial_shape) - Z.of_nat (fst final_shape))
          (Z.of_nat (snd initial_shape) - Z.of_nat (snd final_shape)) in
      retH (mk (Some report), cleaned_data).


(** *** The steps, column by column

    Every step before the removal of duplicates rewrites some columns, each
    from its own cells.  The definitions below say so; they are used to
    reason about the steps. *)

(** Rewrite column [col], when present, by [g]. *)
Definition update_column (g : Series -> result Series) (data : DataFrame)
    (col : string) : result DataFrame :=
  match dict_get col data with
  | Some s => do s' <- g s; OK (dict_set col s' data)
  | None => OK data
  end.

Definition mem (c : string) (cols : list string) : bool :=
  existsb (String.eqb c) cols.

Definition impute_median (s : Series) : result Series :=
  if isnull_any s then do m <- median s; OK (fillna m s) else OK s.

Definition impute_mode (s : Series) : result Series :=
  if isnull_any s then do m <- mode_first s; OK (fillna m s) else OK s.

Definition collapse (s : Series) : Series :=
  replace_values ["No internet service"; "No phone service"] "No" s.

Definition strip_text (s : Series) : result Series :=
  OK (str_strip (astype_str s)).

Definition collapse_text (s : Series) : result Series := OK (collapse s).

Definition coerce_total (s : Series) : result Series :=
  OK (fillna (VNum 0) (to_numeric_coerce s)).

(** What the first three steps do to the column named [c]. *)
Definition clean_column (c : string) (s : Series) : result Series :=
  do s <- (if mem c numeric_columns then impute_median s else OK s);
  do s <- (if mem c categorical_columns then impute_mode s else OK s);
  let s := if mem c (categorical_columns ++ ["Churn"])
           then str_strip (astype_str s) else s in
  let s := if mem c service_columns then collapse s else s in
  let s := if mem c ["TotalCharges"]
           then fillna (VNum 0) (to_numeric_coerce s) else s in
  if mem c ["SeniorCitizen"] then astype_int s else OK s.

(** The first three steps. *)
Definition before_duplicates (data : DataFrame) : result DataFrame :=
  do d1 <- _handle_missing_values data;
  _convert_data_types (_handle_inconsistent_values d1).

(** Properties of a column. *)
Definition no_null (s : Series) : Prop :=
  Forall (fun c => c <> VNaN) (cells s).

Definition all_null (s : Series) : Prop :=
  Forall (fun c => c = VNaN) (cells s).

Definition stripped_text (s : Series) : Prop :=
  dtype_of s = Object /\
  Forall (fun c => exists x, c = VStr x /\ strip x = x) (cells s).

Definition not_collapsible (s : Series) : Prop :=
  Forall (fun c => c <> VStr "No internet service" /\
                   c <> VStr "No phone service") (cells s).

Definition numbers (s : Series) : Prop :=
  dtype_of s <> Object /\ Forall (fun c => exists q, c = VNum q) (cells s).

Definition whole_numbers (s : Series) : Prop :=
  dtype_of s = Int64 /\
  Forall (fun c => exists z, c = VNum (inject_Z z)) (cells s).

(** What holds of the columns of a frame once it has been cleaned. *)
Definition cleaned_column (c : string) (s : Series) : Prop :=
  (mem c numeric_columns = true -> no_null s \/ all_null s) /\
  (mem c (categorical_columns ++ ["Churn"]) = true -> stripped_text s) /\
  (mem c service_columns = true -> not_collapsible s) /\
  (mem c ["TotalCharges"] = true -> numbers s) /\
  (mem c ["SeniorCitizen"] = true -> whole_numbers s).

Definition cleaned (data : DataFrame) : Prop :=
  forall c s, dict_get c data = Some s -> cleaned_column c s.

End WithText.

End Cleaner.

(** ** TelcoFeatureEngineer (feature_engineer.py) *)

(** scikit-learn's [StandardScaler]: [fit_transform] takes the columns to
    scale and returns the fitted statistics with the scaled columns, or
    raises (no row, an infinite value, a cell that is not a number).  Its
    arithmetic is floating point and involves a square root; it is a
    parameter here. *)
Class StandardScaler : Type := {
  scaler_stats : Type;
  unfitted : scaler_stats;
  fit_transform : list (list value) -> result (scaler_stats * list (list value))
}.

Module Engineer.

(** A fitted [LabelEncoder]: its sorted classes. *)
Record LabelEncoder : Type := mkEncoder { classes_ : list value }.

Definition is_text (c : value) : bool :=
  match c with VNum _ => false | _ => true end.

Definition is_numeric (c : value) : bool :=
  match c with VStr _ => false | _ => true end.

(** The encoder takes strings or numbers, not both. *)
Definition uniform (cs : list value) : bool :=
  forallb is_text cs || forallb is_numeric cs.

Fixpoint insert_unique (v : value) (l : list value) : list value :=
  match l with
  | [] => [v]
  | w :: l' =>
      if value_eqb v w then l
      else if value_leb v w then v :: l
      else w :: insert_unique v l'
  end.

(** [np.unique]: the distinct values in ascending order, a missing value
    last. *)
Definition unique (cs : list value) : list value :=
  fold_right insert_unique [] cs.

Fixpoint index_of (v : value) (l : list value) : nat :=
  match l with
  | [] => 0
  | w :: l' => if value_eqb v w then 0 else S (index_of v l')
  end.

(** [le.transform(s)] *)
Definition transform (le : LabelEncoder) (s : Series) : Series :=
  mkSeries Int64
    (map (fun c => VNum (inject_Z (Z.of_nat (index_of c (classes_ le)))))
         (cells s)).

(** [LabelEncoder().fit_transform(s)]: the encoder is fitted on the column
    it is given. *)
Definition fit_transform_labels (s : Series) : result (LabelEncoder * Series) :=
  if uniform (cells s) then
    let le := mkEncoder (unique (cells s)) in
    OK (le, transform le s)
  else Raise (TypeError
    "Encoders require their input argument must be uniformly strings or numbers.").

Record FeatureInfo : Type := mkInfo {
  total_features : nat;
  categorical_features : nat;
  numeric_features : nat;
  derived_features : nat;
  feature_names : list string
}.

Definition categorical_columns : list string :=
  ["gender"; "Partner"; "Dependents"; "PhoneService"; "MultipleLines";
   "InternetService"; "OnlineSecurity"; "OnlineBackup"; "DeviceProtection";
   "TechSupport"; "StreamingTV"; "StreamingMovies"; "Contract";
   "PaperlessBilling"; "PaymentMethod"].

Definition numeric_columns : list string :=
  ["tenure"; "MonthlyCharges"; "TotalCharges"].

Definition service_columns : list string :=
  ["PhoneService"; "InternetService"; "OnlineSecurity";
   "OnlineBackup"; "DeviceProtection"; "TechSupport";
   "StreamingTV"; "StreamingMovies"].

(** [data[col]]: [KeyError] when the column is absent. *)
Definition getitem (data : DataFrame) (col : string) : result Series :=
  match dict_get col data with
  | Some s => OK s
  | None => Raise (KeyError col)
  end.

(** [(b).astype(int)] on a column of booleans. *)
Definition int_of_bools (bs : list bool) : Series :=
  mkSeries Int64
    (map (fun b : bool => VNum (if b then 1 else 0)%Q) bs).

(** [s == x] and [s != x] against a string. *)
Definition eq_text (s : Series) (x : string) : list bool :=
  map (fun c => value_eqb c (VStr x)) (cells s).

Definition ne_text (s : Series) (x : string) : list bool :=
  map (fun c => negb (value_eqb c (VStr x))) (cells s).

(** [a | b] *)
Definition or_bools (a b : list bool) : list bool :=
  map (fun p => orb (fst p) (snd p)) (combine a b).

(** The dtype of the result of an arithmetic operation. *)
Definition join_dtype (a b : dtype) : dtype :=
  match a, b with
  | Object, _ | _, Object => Object
  | Int64, Int64 => Int64
  | _, _ => Float64
  end.

(** One cell of an arithmetic operation: a missing operand gives a missing
    result, a string is a [TypeError]. *)
Definition arith_cell (op : Q -> Q -> value) (a b : value) : result value :=
  match a, b with
  | VStr _, _ | _, VStr _ =>
      Raise (TypeError "unsupported operand type(s): 'str' and 'int'")
  | VNum x, VNum y => OK (op x y)
  | _, _ => OK VNaN
  end.

Definition arith (op : Q -> Q -> value) (dt : dtype) (a b : Series)
  : result Series :=
  do cs <- mapM (fun p => arith_cell op (fst p) (snd p))
                (combine (cells a) (cells b));
  OK (mkSeries dt cs).

(** *** Numbers as numpy computes with them

    An operation on two [int64] columns is carried out on 64-bit integers
    and wraps around.  Every other operation, and every division, is
    carried out on binary64 numbers: the operands are converted, and the
    exact result is rounded to the nearest binary64 number, to the even one
    of two that are as near.  Where IEEE arithmetic gives an infinity the
    cell holds a number of magnitude [2 ^ 1024], which no binary64 number
    reaches; where it gives its NaN the cell is missing.  The numbers of an
    [object] column are taken as binary64 numbers, and a zero as the
    positive zero. *)

Definition wrap_int64 (z : Z) : Z :=
  ((z + 2 ^ 63) mod 2 ^ 64 - 2 ^ 63)%Z.

(** The integer nearest to [q], the even one of two that are as near. *)
Definition round_half_even (q : Q) : Z :=
  let f := Qfloor q in
  match Qcompare (q - inject_Z f) (1 # 2) with
  | Lt => f
  | Gt => (f + 1)%Z
  | Eq => if Z.even f then f else (f + 1)%Z
  end.

(** [2 ^ k] for an integer [k] *)
Definition pow2 (k : Z) : Q :=
  if (0 <=? k)%Z then inject_Z (2 ^ k) else 1 # Z.to_pos (2 ^ (- k)).

(** The exponent of a number that is not 0: the [e] with
    [2 ^ e <= |q| < 2 ^ (e + 1)]. *)
Definition exponent (q : Q) : Z :=
  let e := (Z.log2 (Z.abs (Qnum q)) - Z.log2 (Zpos (Qden q)))%Z in
  if Qle_bool (pow2 e) (Qabs q) then e else (e - 1)%Z.

Definition infinity : Q := inject_Z (2 ^ 1024).

Definition is_infinite (x : Q) : bool := Qle_bool infinity (Qabs x).

(** Rounding to binary64: 53 significant bits, exponents from -1022 (below
    which the spacing stays [2 ^ -1074]) to 1023 (above which the result is
    an infinity). *)
Definition round64 (q : Q) : Q :=
  if Qeq_bool q 0 then 0
  else
    let e := Z.max (exponent q) (-1022) in
    if (1024 <=? e)%Z then (if Qle_bool 0 q then infinity else - infinity)
    else Qred (inject_Z (round_half_even (q / pow2 (e - 52))) * pow2 (e - 52)).

(** The sum of two binary64 numbers; two infinities of opposite signs have
    none. *)
Definition float_add (x y : Q) : value :=
  let x := round64 x in
  let y := round64 y in
  if is_infinite x then
    if is_infinite y && negb (Qeq_bool x y) then VNaN else VNum x
  else if is_infinite y then VNum y
  else VNum (round64 (x + y)).

Definition float_sub (x y : Q) : value := float_add x (- y).

(** The quotient of two binary64 numbers: a number that is not 0 divided
    by 0 is an infinity of its sign; 0 divided by 0 and an infinity divided
    by an infinity have none. *)
Definition float_div (x y : Q) : value :=
  let x := round64 x in
  let y := round64 y in
  if is_infinite x then
    if is_infinite y then VNaN
    else VNum (if Qle_bool 0 y then x else - x)
  else if is_infinite y then VNum 0
  else if Qeq_bool y 0 then
    if Qeq_bool x 0 then VNaN
    else VNum (if Qle_bool 0 x then infinity else - infinity)
  else VNum (round64 (x / y)).

(** A 64-bit integer as a cell. *)
Definition int_cell (z : Z) : value := VNum (inject_Z (wrap_int64 z)).

(** One cell of [a + b] and of [a - b] for columns of types [da] and
    [db]. *)
Definition add_cell (da db : dtype) (x y : Q) : value :=
  match da, db with
  | Int64, Int64 => int_cell (Qfloor x + Qfloor y)
  | _, _ => float_add x y
  end.

Definition sub_cell (da db : dtype) (x y : Q) : value :=
  match da, db with
  | Int64, Int64 => int_cell (Qfloor x - Qfloor y)
  | _, _ => float_sub x y
  end.

Definition add (a b : Series) : result Series :=
  arith (add_cell (dtype_of a) (dtype_of b))
        (join_dtype (dtype_of a) (dtype_of b)) a b.

Definition sub (a b : Series) : result Series :=
  arith (sub_cell (dtype_of a) (dtype_of b))
        (join_dtype (dtype_of a) (dtype_of b)) a b.

(** True division: the result is a column of floats, whatever number types
    the operands have. *)
Definition div (a b : Series) : result Series :=
  arith float_div
        (match join_dtype (dtype_of a) (dtype_of b) with
         | Object => Object
         | _ => Float64
         end) a b.

(** [s + 1] *)
Definition add_one (s : Series) : result Series :=
  add s (mkSeries Int64 (map (fun _ => VNum 1) (cells s))).

(** One cell of [a / (tenure + 1)], where the cell of [a] holds the number
    [x] and the cell of a tenure column of type [dt] the number [t]. *)
Definition ratio_cell (dt : dtype) (x t : Q) : value :=
  match add_cell dt Int64 t 1 with
  | VNum t1 => float_div x t1
  | _ => VNaN
  end.

(** One turn of the loop over the service columns:
    [data['feature_total_services'] += (data[col] != 'No').astype(int)]. *)
Definition count_service (data : DataFrame) (col : string) : result DataFrame :=
  match dict_get col data with
  | Some s =>
      do total <- getitem data "feature_total_services";
      do total' <- add total (int_of_bools (ne_text s "No"));
      OK (dict_set "feature_total_services" total' data)
  | None => OK data
  end.

(** The statements of [_create_derived_features], one by one. *)

Definition set_total_services (data : DataFrame) : result DataFrame :=
  let data :=
    dict_set "feature_total_services"
      (mkSeries Int64 (repeat (VNum 0) (n_rows data))) data in
  foldM count_service service_columns data.

Definition set_has_family (data : DataFrame) : result DataFrame :=
  do partner <- getitem data "Partner";
  do dependents <- getitem data "Dependents";
  OK (dict_set "feature_has_family"
        (int_of_bools (or_bools (eq_text partner "Yes")
                                (eq_text dependents "Yes"))) data).

Definition set_is_senior (data : DataFrame) : result DataFrame :=
  match dict_get "SeniorCitizen" data with
  | Some s => OK (dict_set "feature_is_senior" s data)
  | None => OK data
  end.

Definition set_long_contract (data : DataFrame) : result DataFrame :=
  do contract <- getitem data "Contract";
  OK (dict_set "feature_long_contract"
        (int_of_bools (ne_text contract "Month-to-month")) data).

Definition set_multiple_lines (data : DataFrame) : result DataFrame :=
  do lines <- getitem data "MultipleLines";
  OK (dict_set "feature_multiple_lines"
        (int_of_bools (eq_text lines "Yes")) data).

Definition set_monthly_per_tenure (data : DataFrame) : result DataFrame :=
  do monthly <- getitem data "MonthlyCharges";
  do tenure <- getitem data "tenure";
  do tenure1 <- add_one tenure;
  do ratio <- div monthly tenure1;
  OK (dict_set "feature_monthly_per_tenure" ratio data).

Definition set_total_per_tenure (data : DataFrame) : result DataFrame :=
  do total <- getitem data "TotalCharges";
  do tenure <- getitem data "tenure";
  do tenure1 <- add_one tenure;
  do ratio <- div total tenure1;
  OK (dict_set "feature_total_per_tenure" ratio data).

Definition set_charges_difference (data : DataFrame) : result DataFrame :=
  do total <- getitem data "TotalCharges";
  do monthly <- getitem data "MonthlyCharges";
  do difference <- sub total monthly;
  OK (dict_set "feature_charges_difference" difference data).

Definition _create_derived_features (data : DataFrame) : result DataFrame :=
  do data <- set_total_services data;
  do data <- set_has_family data;
  do data <- set_is_senior data;
  do data <- set_long_contract data;
  do data <- set_multiple_lines data;
  do data <- set_monthly_per_tenure data;
  do data <- set_total_per_tenure data;
  set_charges_difference data.

(** The columns that [_create_derived_features] reads without asking
    whether they are there. *)
Definition required_columns : list string :=
  ["Partner"; "Dependents"; "Contract"; "MultipleLines";
   "MonthlyCharges"; "tenure"; "TotalCharges"].


(** Column [c] is there; column [c] is there and holds no string. *)
Definition present (c : string) (d : DataFrame) : Prop :=
  exists s, dict_get c d = Some s.

Definition numeric_at (c : string) (d : DataFrame) : Prop :=
  exists s, dict_get c d = Some s /\ forallb is_numeric (cells s) = true.


(** The columns of [d] that are not derived features are those of [d']. *)
Definition same_inputs (d d' : DataFrame) : Prop :=
  forall c, String.prefix "feature_" c = false ->
            dict_get c d' = dict_get c d.

(** The names of the columns that [_create_derived_features] assigns. *)
Definition derived_names : list string :=
  ["feature_total_services"; "feature_has_family"; "feature_is_senior";
   "feature_long_contract"; "feature_multiple_lines";
   "feature_monthly_per_tenure"; "feature_total_per_tenure";
   "feature_charges_difference"].

(** Whether column [col] of [data] counts as a service in row [i]: it is
    there and its cell is not the string [No]. *)
Definition counted (data : DataFrame) (i : nat) (col : string) : bool :=
  match dict_get col data with
  | Some s => negb (value_eqb (nth i (cells s) VNaN) (VStr "No"))
  | None => false
  end.

(** The number of the service columns of [data] that count as a service
    in row [i]. *)
Definition services_in_row (data : DataFrame) (i : nat) : nat :=
  length (filter (counted data i) service_columns).

(** A count as a cell. *)
Definition num (k : nat) : value := VNum (inject_Z (Z.of_nat k)).

(** [data['feature_is_senior'] = data['SeniorCitizen']], when there is such
    a column. *)
Definition with_senior (data : DataFrame) : DataFrame :=
  match dict_get "SeniorCitizen" data with
  | Some s => dict_set "feature_is_senior" s data
  | None => data
  end.

(** One turn of the loop of [_encode_categorical_features]: a new encoder
    is fitted on the column and stored under its name. *)
Definition encode_column (acc : dict LabelEncoder * DataFrame) (col : string)
  : result (dict LabelEncoder * DataFrame) :=
  let '(label_encoders, data) := acc in
  match dict_get col data with
  | Some s =>
      do r <- fit_transform_labels s;
      OK (dict_set col (fst r) label_encoders,
          dict_set (col ++ "_encoded") (snd r) data)
  | None => OK acc
  end.

Definition _encode_categorical_features (label_encoders : dict LabelEncoder)
    (data : DataFrame) : result (dict LabelEncoder * DataFrame) :=
  foldM encode_column categorical_columns (label_encoders, data).

Definition is_number_dtype (d : dtype) : bool :=
  match d with Object => false | _ => true end.

(** The columns that [_normalize_numeric_features] scales. *)
Definition columns_to_scale (data : DataFrame) : list string :=
  filter (fun col => dict_mem col data) numeric_columns
  ++ map fst
       (filter (fun c => String.prefix "feature_" (fst c)
                         && is_number_dtype (dtype_of (snd c))) data).

(** [data[names]] as a matrix; [KeyError] for a name that is absent. *)
Definition select_cells (data : DataFrame) (names : list string)
  : result (list (list value)) :=
  mapM (fun col => do s <- getitem data col; OK (cells s)) names.

(** [data[names] = matrix] *)
Fixpoint assign_columns (data : DataFrame) (names : list string)
    (matrix : list (list value)) : DataFrame :=
  match names, matrix with
  | col :: names', cs :: matrix' =>
      assign_columns (dict_set col (mkSeries Float64 cs) data) names' matrix'
  | _, _ => data
  end.

(** [s.endswith(suffix)] *)
Definition endswith (s suffix : string) : bool :=
  let n := String.length s in
  let m := String.length suffix in
  (m <=? n) && String.eqb (substring (n - m) m s) suffix.

Section WithScaler.
Context {lib : StandardScaler}.

(** The fields of the engineer: the encoders and the scaler's statistics
    of the last fit, and the description of the last matrix. *)
Record t : Type := mk {
  label_encoders : dict LabelEncoder;
  scaler : scaler_stats;
  feature_info : option FeatureInfo
}.

Definition init : t := mk [] unfitted None.

Definition _normalize_numeric_features (stats : scaler_stats)
    (data : DataFrame) : result (scaler_stats * DataFrame) :=
  let names := columns_to_scale data in
  match names with
  | [] => OK (stats, data)
  | _ =>
      do matrix <- select_cells data names;
      do fitted <- fit_transform matrix;
      if (length (snd fitted) =? length names)%nat then
        OK (fst fitted, assign_columns data names (snd fitted))
      else Raise (ValueError "Columns must be same length as key")
  end.

(** [data.drop(columns=cols, errors='ignore')] *)
Definition drop_columns (cols : list string) (data : DataFrame) : DataFrame :=
  filter (fun c => negb (existsb (String.eqb (fst c)) cols)) data.

(** The list [columns_to_drop] of [_select_final_features]. *)
Definition columns_to_drop (data : DataFrame) : list string :=
  let cols := filter (fun col => dict_mem col data) categorical_columns in
  let cols := if dict_mem "customerID" data then cols ++ ["customerID"] else cols in
  let cols := if dict_mem "Churn" data then cols ++ ["Churn"] else cols in
  filter (fun col => negb (String.eqb col "PaymentMethod")) cols.

(** The columns kept by the last filter: those of a number dtype. *)
Definition keep_numeric (data : DataFrame) : DataFrame :=
  filter (fun c => is_number_dtype (dtype_of (snd c))) data.

Definition describe (data : DataFrame) : FeatureInfo :=
  let names := dict_keys data in
  mkInfo (length names)
    (length (filter (fun col => existsb (String.eqb col) categorical_columns) names))
    (length (filter (fun col => existsb (String.eqb col) numeric_columns) names))
    (length (filter (String.prefix "feature_") names))
    names.

(** A step that changes the frame it is given and a field of [self]. *)
Definition mutate_with {A : Type} (f : DataFrame -> result (A * DataFrame))
    (l : ref) : H (A * ref) :=
  let! data := deref l in
  let! r := liftH (f data) in
  let! _ := store l (snd r) in
  retH (fst r, l).

(** [_select_final_features]: [drop] and the selection of the numeric
    columns each return a new frame. *)
Definition _select_final_features (l : ref) : H ref :=
  let! data := deref l in
  let! dropped := new_frame (drop_columns (columns_to_drop data) data) in
  let! data := deref dropped in
  new_frame (keep_numeric data).

(** [engineer_features]: the steps run on a copy of the argument.  When a
    step raises, what it had written to [self] is not kept: nothing reads
    it. *)
Definition engineer_features (self : t) (data : ref) : H (t * ref) :=
  let! engineered_data := copy data in
  let! engineered_data := mutate _create_derived_features engineered_data in
  let! encoded :=
    mutate_with (_encode_categorical_features (label_encoders self))
                engineered_data in
  let '(encoders, engineered_data) := encoded in
  let! scaled :=
    mutate_with (_normalize_numeric_features (scaler self)) engineered_data in
  let '(stats, engineered_data) := scaled in
  let! engineered_data := _select_final_features engineered_data in
  let! final := deref engineered_data in
  retH (mk encoders stats (Some (describe final)), engineered_data).

(** [get_feature_info] *)
Definition get_feature_info (self : t) : option FeatureInfo :=
  feature_info self.

(** [get_feature_importance_columns]: the feature names of the last matrix
    that do not end in [_encoded]; there is none before a matrix has been
    built. *)
Definition get_feature_importance_columns (self : t) : list string :=
  filter (fun col => negb (endswith col "_encoded"))
    (match feature_info self with
     | Some info => feature_names info
     | None => []
     end).

End WithScaler.

End Engineer.

(** ** scikit-learn and the clock

    The learning library is a parameter: how an estimator of each variant
    is fitted (or fails to be), what a fitted estimator predicts, the
    scores, and the seeded shuffle behind the stratified split.  So is the
    clock that times the trainings and the run. *)

Inductive variant : Type :=
| LogisticRegression
| RandomForest
| GradientBoosting.

(** The keyword arguments of an estimator. *)
Definition Params : Type := dict value.

Class Sklearn : Type := {
  estimator : Type;
  sk_fit : variant -> Params -> DataFrame -> Series -> result estimator;
  sk_predict : estimator -> DataFrame -> result (list value);
  sk_predict_proba : estimator -> DataFrame -> result (list (list Q));
  sk_feature_importances : estimator -> option (list Q);
  sk_coef : estimator -> list (list Q);
  accuracy_score : Series -> list value -> result Q;
  precision_score : Series -> list value -> result Q;
  recall_score : Series -> list value -> result Q;
  f1_score : Series -> list value -> result Q;
  roc_auc_score : Series -> list Q -> result Q;
  confusion_matrix : Series -> list value -> result (list (list Z));
  precision_score_per_class : Series -> list value -> result (list Q);
  recall_score_per_class : Series -> list value -> result (list Q);
  f1_score_per_class : Series -> list value -> result (list Q);
  stratified_shuffle : Z -> nat -> nat -> list value -> list nat * list nat
}.

Class Clock : Type := {
  training_duration : string -> Q;
  run_duration : Q
}.

(** A value of the metrics dictionary built by [_calculate_metrics]: a float,
    a per-class list or the confusion matrix.  Floats are the rationals they
    denote; scikit-learn's scores are finite, so [>] on them is the order of
    the rationals. *)
Inductive mval : Type :=
| MFloat (q : Q)
| MList (l : list Q)
| MMatrix (m : list (list Z)).

Definition Metrics : Type := dict mval.

(** ** BaseModel and the three variants (base_model.py, concrete_models.py) *)

Module Model.
Section WithSklearn.
Context {sk : Sklearn}.

(** The fields of a model.  [model] is the fitted estimator, once a fit has
    succeeded. *)
Record t : Type := mk {
  model_name : string;
  kind : variant;
  model_params : Params;
  model : option estimator;
  is_trained : bool;
  feature_names : list string
}.

(** [Params.update]: the defaults, overridden by the arguments given. *)
Definition update_params (defaults kwargs : Params) : Params :=
  fold_left (fun d kv => dict_set (fst kv) (snd kv) d) kwargs defaults.

(** [LogisticRegressionModel] with its keyword arguments *)
Definition LogisticRegressionModel (kwargs : Params) : t :=
  mk "LogisticRegression" LogisticRegression
     (update_params [("random_state", VNum 42)] kwargs) None false [].

(** [RandomForestModel] with its keyword arguments *)
Definition RandomForestModel (kwargs : Params) : t :=
  mk "RandomForest" RandomForest
     (update_params [("n_estimators", VNum 100); ("max_depth", VNum 10);
                     ("random_state", VNum 42); ("n_jobs", VNum (-1))] kwargs)
     None false [].

(** [GradientBoostingModel] with its keyword arguments *)
Definition GradientBoostingModel (kwargs : Params) : t :=
  mk "GradientBoosting" GradientBoosting
     (update_params [("n_estimators", VNum 100);
                     ("learning_rate", VNum (1 # 10));
                     ("max_depth", VNum 6); ("random_state", VNum 42)] kwargs)
     None false [].

(** [BaseModel.train]: the model is changed in place; the second component
    is the model after the call, whether it returned or raised. *)
Definition train (self : t) (X_train : DataFrame) (y_train : Series)
  : result unit * t :=
  if empty X_train || (length (cells y_train) =? 0) then
    (Raise (ValueError "Dados de treinamento nao podem estar vazios"), self)
  else if negb (n_rows X_train =? length (cells y_train)) then
    (Raise (ValueError
       "X_train e y_train devem ter o mesmo numero de amostras"), self)
  else
    let self :=
      mk (model_name self) (kind self) (model_params self) (model self)
         (is_trained self) (dict_keys X_train) in
    match sk_fit (kind self) (model_params self) X_train y_train with
    | OK fitted =>
        (OK tt,
         mk (model_name self) (kind self) (model_params self) (Some fitted)
            true (feature_names self))
    | Raise e => (Raise e, self)
    end.

(** [BaseModel.predict] *)
Definition predict (self : t) (X : DataFrame) : result (list value) :=
  if negb (is_trained self) then
    Raise (ValueError "Modelo deve ser treinado antes de fazer predicoes")
  else
    match model self with
    | None => Raise (ValueError "Modelo nao foi inicializado corretamente")
    | Some fitted => sk_predict fitted X
    end.

(** [BaseModel.predict_proba] *)
Definition predict_proba (self : t) (X : DataFrame) : result (list (list Q)) :=
  if negb (is_trained self) then
    Raise (ValueError "Modelo deve ser treinado antes de fazer predicoes")
  else
    match model self with
    | None => Raise (ValueError "Modelo nao foi inicializado corretamente")
    | Some fitted => sk_predict_proba fitted X
    end.

(** [importance[feature] = float(values[i])] for each feature name. *)
Fixpoint zip_importance (names : list string) (i : nat) (values : list Q)
    (f : Q -> Q) (acc : dict Q) : result (dict Q) :=
  match names with
  | [] => OK acc
  | feature :: names' =>
      match nth_error values i with
      | Some v => zip_importance names' (S i) values f (dict_set feature (f v) acc)
      | None => Raise (IndexError "index out of bounds")
      end
  end.

(** [get_feature_importance]: the absolute value of the coefficients for
    the linear variant, the estimator's own importances for the others. *)
Definition get_feature_importance (self : t) : result (dict Q) :=
  if negb (is_trained self) then OK []
  else
    match model self with
    | None => OK []
    | Some fitted =>
        match kind self with
        | LogisticRegression =>
            match sk_coef fitted with
            | row :: _ => zip_importance (feature_names self) 0 row Qabs []
            | [] =>
                match feature_names self with
                | [] => OK []
                | _ => Raise (IndexError "index 0 is out of bounds")
                end
            end
        | _ =>
            match sk_feature_importances fitted with
            | None => OK []
            | Some values =>
                zip_importance (feature_names self) 0 values (fun v => v) []
            end
        end
    end.

End WithSklearn.
End Model.

(** ** ModelTrainer (model_trainer.py) *)

Module Trainer.

(** An entry of [training_info]. *)
Inductive TrainingRecord : Type :=
| Trained (training_time : Q) (training_samples features_count : nat)
| Failed (training_time : Q) (error : string).

Definition success (r : TrainingRecord) : bool :=
  match r with Trained _ _ _ => true | Failed _ _ => false end.

Record t : Type := mk {
  test_size : Q;
  random_state : Z;
  training_info : dict TrainingRecord
}.

(** [ModelTrainer(test_size=0.2, random_state=42)] *)
Definition init : t := mk (2 # 10) 42 [].

(** A split: [X_train, X_test, y_train, y_test]. *)
Record Split : Type := mkSplit {
  X_train : DataFrame;
  X_test : DataFrame;
  y_train : Series;
  y_test : Series
}.

Section WithSklearn.
Context {sk : Sklearn} {clock : Clock}.

(** [train_model]: the outcome is recorded under the model's own name, and
    an exception is raised again after it has been recorded. *)
Definition train_model (self : t) (model : Model.t) (X_train : DataFrame)
    (y_train : Series) : result Model.t * t :=
  let training_time := training_duration (Model.model_name model) in
  match Model.train model X_train y_train with
  | (OK _, model) =>
      (OK model,
       mk (test_size self) (random_state self)
          (dict_set (Model.model_name model)
             (Trained training_time (n_rows X_train) (length X_train))
             (training_info self)))
  | (Raise e, _) =>
      (Raise e,
       mk (test_size self) (random_state self)
          (dict_set (Model.model_name model)
             (Failed training_time (str_of_exn e))
             (training_info self)))
  end.

(** The loop of [train_multiple_models]: an exception of [train_model] is
    logged and the loop goes on. *)
Fixpoint train_loop (self : t) (items : list (string * Model.t))
    (X_train : DataFrame) (y_train : Series) (trained_models : dict Model.t)
  : dict Model.t * t :=
  match items with
  | [] => (trained_models, self)
  | (model_name, model) :: items' =>
      match train_model self model X_train y_train with
      | (OK trained_model, self) =>
          train_loop self items' X_train y_train
            (dict_set model_name trained_model trained_models)
      | (Raise _, self) =>
          train_loop self items' X_train y_train trained_models
      end
  end.

Definition train_multiple_models (self : t) (models : dict Model.t)
    (X_train : DataFrame) (y_train : Series) : result (dict Model.t) * t :=
  let '(trained_models, self) := train_loop self models X_train y_train [] in
  (OK trained_models, self).

(** The entries of [models] whose training succeeds, each with the model
    as the training leaves it. *)
Definition trained_of (models : dict Model.t) (X_train : DataFrame)
    (y_train : Series) : dict Model.t :=
  flat_map (fun entry =>
              match Model.train (snd entry) X_train y_train with
              | (OK _, trained_model) => [(fst entry, trained_model)]
              | (Raise _, _) => []
              end) models.

(** What [train_model] records for a model. *)
Definition record_of (model : Model.t) (X_train : DataFrame)
    (y_train : Series) : TrainingRecord :=
  match Model.train model X_train y_train with
  | (OK _, _) =>
      Trained (training_duration (Model.model_name model))
              (n_rows X_train) (length X_train)
  | (Raise e, _) =>
      Failed (training_duration (Model.model_name model)) (str_of_exn e)
  end.

(** [get_training_info] *)
Definition get_training_info (self : t) : dict TrainingRecord :=
  training_info self.

Definition Qltb (a b : Q) : bool := negb (Qle_bool b a).

Definition count_class (c : value) (y : list value) : nat :=
  length (filter (value_eqb c) y).

(** scikit-learn's [train_test_split(X, y, test_size, random_state,
    stratify=y)]: the checks it makes on its arguments, in its order, then
    the seeded shuffle.  The sizes are [n_test = ceil(test_size * n)] and
    [n_train = n - n_test]. *)
Definition train_test_split (X : DataFrame) (y : Series) (test_size : Q)
    (random_state : Z) : result Split :=
  let n_samples := n_rows X in
  if negb (n_samples =? length (cells y)) then
    Raise (ValueError
      "Found input variables with inconsistent numbers of samples")
  else if negb (Qltb 0 test_size && Qltb test_size 1) then
    Raise (ValueError "test_size should be in the (0, 1) range")
  else
    let n_test := Z.to_nat (Qceiling (test_size * inject_Z (Z.of_nat n_samples))) in
    let n_train := n_samples - n_test in
    if n_train =? 0 then
      Raise (ValueError "the resulting train set will be empty")
    else
      let classes := Engineer.unique (cells y) in
      let n_classes := length classes in
      if existsb (fun c => count_class c (cells y) <? 2) classes then
        Raise (ValueError
          "The least populated class in y has only 1 member")
      else if n_train <? n_classes then
        Raise (ValueError
          "The train_size should be greater or equal to the number of classes")
      else if n_test <? n_classes then
        Raise (ValueError
          "The test_size should be greater or equal to the number of classes")
      else
        let '(train, test) :=
          stratified_shuffle random_state n_train n_test (cells y) in
        OK (mkSplit (take_rows train X) (take_rows test X)
                    (take train y) (take test y)).

(** [split_data] *)
Definition split_data (self : t) (X : DataFrame) (y : Series) : result Split :=
  train_test_split X y (test_size self) (random_state self).

(** The body of the loop of [get_best_model]; the pair is
    [(best_model, best_f1)]. *)
Definition best_step (acc : option string * Q) (entry : string * Metrics)
  : result (option string * Q) :=
  let '(model_name, metrics) := entry in
  match dict_get "f1_score" metrics with
  | None => OK acc
  | Some (MFloat f1) =>
      if Qltb (snd acc) f1 then OK (Some model_name, f1) else OK acc
  | Some _ => Raise (TypeError "'>' not supported between 'list' and 'int'")
  end.

(** [get_best_model]: the loop starts from [best_model = None] and
    [best_f1 = -1]; [models] is not read. *)
Definition get_best_model (models : dict Model.t)
    (evaluation_results : dict Metrics) : result (option string) :=
  do acc <- foldM best_step evaluation_results (None, (-1)%Q); OK (fst acc).

End WithSklearn.
End Trainer.

(** ** ModelEvaluator (model_evaluator.py) *)

Module Evaluator.

Record t : Type := mk {
    evaluation_results : dict Metrics;
    best_model : option string
  }.

(** [ModelEvaluator.__init__] *)
Definition init : t := mk [] None.

(** [metrics['f1_score'] > best_f1] *)
Definition Qgtb (a b : Q) : bool := negb (Qle_bool a b).

(** The body of the loop of [_identify_best_model]: the pair is
      [(best_model, best_f1)]. *)
Definition best_step (acc : option string * Q) (entry : string * Metrics)
    : result (option string * Q) :=
    let '(model_name, metrics) := entry in
    match dict_get "f1_score" metrics with
    | None => OK acc
    | Some (MFloat f1) =>
        if Qgtb f1 (snd acc) then OK (Some model_name, f1) else OK acc
    | Some _ => Raise (TypeError "'>' not supported between 'list' and 'int'")
    end.

(** The loop of [_identify_best_model], from [best_model = None] and
      [best_f1 = -1]. *)
Definition select_best (results : dict Metrics) : result (option string) :=
    do acc <- foldM best_step results (None, (-1)%Q); OK (fst acc).

(** [_identify_best_model]: stores the selection in [self.best_model]. *)
Definition _identify_best_model (self : t) (results : dict Metrics)
    : result t :=
    do b <- select_best results;
    OK (mk (evaluation_results self) b).

Section WithSklearn.
Context {sk : Sklearn}.

(** [_calculate_metrics]: a failure of the AUC gives 0.0; any other score
    that raises makes the call raise. *)
Definition _calculate_metrics (y_true : Series) (y_pred : list value)
    (y_pred_proba : list Q) : result Metrics :=
  do accuracy <- accuracy_score y_true y_pred;
  do precision <- precision_score y_true y_pred;
  do recall <- recall_score y_true y_pred;
  do f1 <- f1_score y_true y_pred;
  let roc_auc :=
    match roc_auc_score y_true y_pred_proba with
    | OK auc => auc
    | Raise _ => 0%Q
    end in
  do cm <- confusion_matrix y_true y_pred;
  do precision_per_class <- precision_score_per_class y_true y_pred;
  do recall_per_class <- recall_score_per_class y_true y_pred;
  do f1_per_class <- f1_score_per_class y_true y_pred;
  OK [("accuracy", MFloat accuracy);
      ("precision", MFloat precision);
      ("recall", MFloat recall);
      ("f1_score", MFloat f1);
      ("roc_auc", MFloat roc_auc);
      ("precision_per_class", MList precision_per_class);
      ("recall_per_class", MList recall_per_class);
      ("f1_per_class", MList f1_per_class);
      ("confusion_matrix", MMatrix cm)].

(** [proba[:, 1]] *)
Definition positive_class (proba : list (list Q)) : result (list Q) :=
  mapM (fun row => match nth_error row 1 with
                   | Some p => OK p
                   | None => Raise (IndexError
                       "index 1 is out of bounds for axis 1")
                   end) proba.

(** [evaluate_model]: the metrics are stored under the model's own name;
    an exception is logged and raised again. *)
Definition evaluate_model (self : t) (model : Model.t) (X_test : DataFrame)
    (y_test : Series) : result Metrics * t :=
  let run :=
    do y_pred <- Model.predict model X_test;
    do proba <- Model.predict_proba model X_test;
    do y_pred_proba <- positive_class proba;
    _calculate_metrics y_test y_pred y_pred_proba in
  match run with
  | OK metrics =>
      (OK metrics,
       mk (dict_set (Model.model_name model) metrics (evaluation_results self))
          (best_model self))
  | Raise e => (Raise e, self)
  end.

(** The loop of [evaluate_multiple_models]. *)
Fixpoint evaluate_loop (self : t) (items : list (string * Model.t))
    (X_test : DataFrame) (y_test : Series) (all_results : dict Metrics)
  : dict Metrics * t :=
  match items with
  | [] => (all_results, self)
  | (model_name, model) :: items' =>
      match evaluate_model self model X_test y_test with
      | (OK results, self) =>
          evaluate_loop self items' X_test y_test
            (dict_set model_name results all_results)
      | (Raise _, self) => evaluate_loop self items' X_test y_test all_results
      end
  end.

Definition evaluate_multiple_models (self : t) (models : dict Model.t)
    (X_test : DataFrame) (y_test : Series) : result (dict Metrics) * t :=
  let '(all_results, self) := evaluate_loop self models X_test y_test [] in
  match _identify_best_model self all_results with
  | OK self => (OK all_results, self)
  | Raise e => (Raise e, self)
  end.

(** What [evaluate_model] computes for a model: the predictions, the
    probabilities of the positive class, the scores. *)
Definition metrics_of (model : Model.t) (X_test : DataFrame) (y_test : Series)
  : result Metrics :=
  do y_pred <- Model.predict model X_test;
  do proba <- Model.predict_proba model X_test;
  do y_pred_proba <- positive_class proba;
  _calculate_metrics y_test y_pred y_pred_proba.

(** The entries of [models] whose evaluation succeeds, each with its
    metrics. *)
Definition evaluated_of (models : dict Model.t) (X_test : DataFrame)
    (y_test : Series) : dict Metrics :=
  flat_map (fun entry =>
              match metrics_of (snd entry) X_test y_test with
              | OK metrics => [(fst entry, metrics)]
              | Raise _ => []
              end) models.

(** A row of the table of [get_feature_importance_comparison]. *)
Record ImportanceRow : Type := mkImportanceRow {
  importance_model : string;
  importance_feature : string;
  importance_value : Q
}.

(** [get_feature_importance_comparison]: the rows of the trained models,
    in order; a model that is not trained gives no row, and an exception of
    [get_feature_importance] leaves the call. *)
Fixpoint get_feature_importance_comparison (models : dict Model.t)
  : result (list ImportanceRow) :=
  match models with
  | [] => OK []
  | (model_name, model) :: models' =>
      do rows <-
        (if Model.is_trained model then
           do feature_importance <- Model.get_feature_importance model;
           OK (map (fun entry => mkImportanceRow model_name (fst entry) (snd entry))
                   feature_importance)
         else OK []);
      do importance_data <- get_feature_importance_comparison models';
      OK (rows ++ importance_data)
  end.

End WithSklearn.

(** [get_evaluation_report] *)
Record EvaluationReport : Type := mkEvaluationReport {
  report_results : dict Metrics;
  report_best_model : option string;
  model_count : nat
}.

Definition get_evaluation_report (self : t) : EvaluationReport :=
  mkEvaluationReport (evaluation_results self) (best_model self)
                     (length (evaluation_results self)).

(** A row of the comparison table. *)
Record ComparisonRow : Type := mkRow {
  row_model : string;
  row_accuracy : mval;
  row_precision : mval;
  row_recall : mval;
  row_f1 : mval;
  row_auc : mval
}.

(** [metrics[key]] *)
Definition metric (metrics : Metrics) (key : string) : result mval :=
  match dict_get key metrics with
  | Some v => OK v
  | None => Raise (KeyError key)
  end.

(** [get_model_comparison().to_dict('records')] *)
Definition get_model_comparison (self : t) : result (list ComparisonRow) :=
  mapM (fun entry =>
          let '(model_name, metrics) := entry in
          do accuracy <- metric metrics "accuracy";
          do precision <- metric metrics "precision";
          do recall <- metric metrics "recall";
          do f1 <- metric metrics "f1_score";
          do auc <- metric metrics "roc_auc";
          OK (mkRow model_name accuracy precision recall f1 auc))
       (evaluation_results self).

(** A metrics dictionary that has the five scores of the comparison
    table, as those built by [_calculate_metrics] have. *)
Definition complete (metrics : Metrics) : Prop :=
  forall key, In key ["accuracy"; "precision"; "recall"; "f1_score"; "roc_auc"] ->
              dict_mem key metrics = true.

(** The F1-Score recorded in a metrics dictionary, when it has one. *)
Definition f1_of (metrics : Metrics) : option Q :=
    match dict_get "f1_score" metrics with
    | Some (MFloat f1) => Some f1
    | _ => None
    end.

(** The data model's invariant on a metrics record, as far as selection
      reads it: the F1-Score is present and lies in [[0,1]]. *)
Definition valid_metrics (metrics : Metrics) : Prop :=
    exists f1, f1_of metrics = Some f1 /\ (0 <= f1)%Q /\ (f1 <= 1)%Q.

(** The scenario of the spec: A, then B, then C. *)
Definition metrics_with_f1 (f1 : Q) : Metrics := [("f1_score", MFloat f1)].
Definition scenario_ABC : dict Metrics :=
    [("A", metrics_with_f1 (80 # 100));
     ("B", metrics_with_f1 (85 # 100));
     ("C", metrics_with_f1 (85 # 100))].

End Evaluator.

(** ** MLPipeline (ml_pipeline.py) *)

(** The row-source: an external collaborator. *)
Class DataLoader : Type := {
  load_data : result DataFrame;
  validate_data : DataFrame -> bool
}.

(** ** TelcoDataLoader (data_loader.py) *)

Module TelcoDataLoader.

(** [validation_rules['required_columns']] *)
Definition required_columns : list string :=
  ["customerID"; "Churn"; "tenure"; "MonthlyCharges"].

(** [set(required_columns) - set(data.columns)] *)
Definition missing_required (data : DataFrame) : list string :=
  filter (fun col => negb (dict_mem col data)) required_columns.

(** [validate_data]: a required column that is absent gives [False].  What
    follows in the method looks at the churn values and at the numeric
    columns only to write warnings to the log; it then returns [True]. *)
Definition validate_data (data : DataFrame) : bool :=
  match missing_required data with
  | [] => true
  | _ :: _ => false
  end.

(** The loader as the pipeline sees it; [csv] is what [pd.read_csv] gives
    for the loader's file, a frame or an exception. *)
Definition loader (csv : result DataFrame) : DataLoader :=
  Build_DataLoader csv validate_data.

End TelcoDataLoader.

Module Pipeline.

(** [pipeline_results]: a field is [None], empty or [false] until the
    phase that assigns it has run. *)
Record Results : Type := mkResults {
  cleaning_report : option Cleaner.CleaningReport;
  feature_info : option Engineer.FeatureInfo;
  training_info : option (dict Trainer.TrainingRecord);
  evaluation_report : option Evaluator.EvaluationReport;
  best_model : option string;
  best_model_metrics : Metrics;
  model_comparison : list Evaluator.ComparisonRow;
  feature_importance : dict Q;
  success : bool;
  total_execution_time : option Q
}.

Definition no_results : Results :=
  mkResults None None None None None [] [] [] false None.

Section WithLibraries.
Context {text : TextConversions} {lib : StandardScaler} {sk : Sklearn}
        {clock : Clock} {loader : DataLoader}.

(** The injected components and the state of the pipeline. *)
Record t : Type := mk {
  data_cleaner : Cleaner.t;
  feature_engineer : Engineer.t;
  model_trainer : Trainer.t;
  model_evaluator : Evaluator.t;
  raw_data : option ref;
  cleaned_data : option ref;
  engineered_data : option ref;
  split : option Trainer.Split;
  models : dict Model.t;
  trained_models : dict Model.t;
  evaluation_results : dict Metrics;
  pipeline_results : Results
}.

(** [MLPipeline(...)] *)
Definition init (cleaner : Cleaner.t) (engineer : Engineer.t)
    (trainer : Trainer.t) (evaluator : Evaluator.t) : t :=
  mk cleaner engineer trainer evaluator None None None None [] [] []
     no_results.

Definition raiseH {A : Type} (e : exn) : H A := fun h => (Raise e, h).

(** A field that is still [None] where a frame is expected. *)
Definition expect {A : Type} (field : option A) : H A :=
  match field with
  | Some a => retH a
  | None => raiseH (AttributeError "'NoneType' object has no attribute")
  end.

(** Phase 1 *)
Definition _load_data (self : t) : H t :=
  let! data := liftH load_data in
  let! raw := new_frame data in
  let self :=
    mk (data_cleaner self) (feature_engineer self) (model_trainer self)
       (model_evaluator self) (Some raw) (cleaned_data self)
       (engineered_data self) (split self) (models self)
       (trained_models self) (evaluation_results self)
       (pipeline_results self) in
  if validate_data data then retH self
  else raiseH (ValueError "Dados nao passaram na validacao").

(** Phase 2 *)
Definition _clean_data (self : t) : H t :=
  let! raw := expect (raw_data self) in
  let! cleaned := Cleaner.clean_data (data_cleaner self) raw in
  let '(cleaner, cleaned_data) := cleaned in
  let r := pipeline_results self in
  retH (mk cleaner (feature_engineer self) (model_trainer self)
          (model_evaluator self) (raw_data self) (Some cleaned_data)
          (engineered_data self) (split self) (models self)
          (trained_models self) (evaluation_results self)
          (mkResults (Cleaner.cleaning_report cleaner) (feature_info r)
             (training_info r) (evaluation_report r) (best_model r)
             (best_model_metrics r) (model_comparison r)
             (feature_importance r) (success r) (total_execution_time r))).

(** Phase 3 *)
Definition _engineer_features (self : t) : H t :=
  let! cleaned := expect (cleaned_data self) in
  let! engineered := Engineer.engineer_features (feature_engineer self) cleaned in
  let '(engineer, engineered_data) := engineered in
  let r := pipeline_results self in
  retH (mk (data_cleaner self) engineer (model_trainer self)
          (model_evaluator self) (raw_data self) (cleaned_data self)
          (Some engineered_data) (split self) (models self)
          (trained_models self) (evaluation_results self)
          (mkResults (cleaning_report r) (Engineer.feature_info engineer)
             (training_info r) (evaluation_report r) (best_model r)
             (best_model_metrics r) (model_comparison r)
             (feature_importance r) (success r) (total_execution_time r))).

(** Phase 4: the labels are 1 where the churn indicator is [Yes]. *)
Definition _prepare_data (self : t) : H t :=
  let! cleaned := expect (cleaned_data self) in
  let! cleaned := deref cleaned in
  match dict_get "Churn" cleaned with
  | None => raiseH (ValueError "Coluna 'Churn' nao encontrada nos dados")
  | Some churn =>
      let y := Engineer.int_of_bools (Engineer.eq_text churn "Yes") in
      let! engineered := expect (engineered_data self) in
      let! X := deref engineered in
      let! parts := liftH (Trainer.split_data (model_trainer self) X y) in
      retH (mk (data_cleaner self) (feature_engineer self)
              (model_trainer self) (model_evaluator self) (raw_data self)
              (cleaned_data self) (engineered_data self) (Some parts)
              (models self) (trained_models self) (evaluation_results self)
              (pipeline_results self))
  end.

(** Phase 5 *)
Definition _create_models (self : t) : H t :=
  retH (mk (data_cleaner self) (feature_engineer self) (model_trainer self)
          (model_evaluator self) (raw_data self) (cleaned_data self)
          (engineered_data self) (split self)
          [("LogisticRegression", Model.LogisticRegressionModel []);
           ("RandomForest", Model.RandomForestModel []);
           ("GradientBoosting", Model.GradientBoostingModel [])]
          (trained_models self) (evaluation_results self)
          (pipeline_results self)).

(** Phase 6 *)
Definition _train_models (self : t) : H t :=
  let! parts := expect (split self) in
  let '(trained, trainer) :=
    Trainer.train_multiple_models (model_trainer self) (models self)
      (Trainer.X_train parts) (Trainer.y_train parts) in
  let! trained_models := liftH trained in
  let r := pipeline_results self in
  retH (mk (data_cleaner self) (feature_engineer self) trainer
          (model_evaluator self) (raw_data self) (cleaned_data self)
          (engineered_data self) (split self) (models self)
          trained_models (evaluation_results self)
          (mkResults (cleaning_report r) (feature_info r)
             (Some (Trainer.get_training_info trainer))
             (evaluation_report r) (best_model r)
             (best_model_metrics r) (model_comparison r)
             (feature_importance r) (success r) (total_execution_time r))).

(** Phase 7 *)
Definition _evaluate_models (self : t) : H t :=
  let! parts := expect (split self) in
  let '(evaluated, evaluator) :=
    Evaluator.evaluate_multiple_models (model_evaluator self)
      (trained_models self) (Trainer.X_test parts) (Trainer.y_test parts) in
  let! evaluation_results := liftH evaluated in
  let r := pipeline_results self in
  retH (mk (data_cleaner self) (feature_engineer self) (model_trainer self)
          evaluator (raw_data self) (cleaned_data self)
          (engineered_data self) (split self) (models self)
          (trained_models self) evaluation_results
          (mkResults (cleaning_report r) (feature_info r) (training_info r)
             (Some (Evaluator.get_evaluation_report evaluator))
             (best_model r) (best_model_metrics r) (model_comparison r)
             (feature_importance r) (success r) (total_execution_time r))).

(** [trained_models.get(name)], [name] being [None] or a string. *)
Definition get_model (models : dict Model.t) (name : option string)
  : option Model.t :=
  match name with
  | Some n => dict_get n models
  | None => None
  end.

(** Phase 8 *)
Definition _generate_results (self : t) : H t :=
  let best_model_name := Evaluator.best_model (model_evaluator self) in
  let best_model := get_model (trained_models self) best_model_name in
  let! model_comparison :=
    liftH (Evaluator.get_model_comparison (model_evaluator self)) in
  let! feature_importance :=
    liftH (match best_model with
           | Some m => Model.get_feature_importance m
           | None => OK []
           end) in
  let metrics :=
    match best_model_name with
    | Some n => match dict_get n (evaluation_results self) with
                | Some m => m
                | None => []
                end
    | None => []
    end in
  let r := pipeline_results self in
  retH (mk (data_cleaner self) (feature_engineer self) (model_trainer self)
          (model_evaluator self) (raw_data self) (cleaned_data self)
          (engineered_data self) (split self) (models self)
          (trained_models self) (evaluation_results self)
          (mkResults (cleaning_report r) (feature_info r) (training_info r)
             (evaluation_report r) best_model_name metrics model_comparison
             feature_importance true (total_execution_time r))).

(** The first five phases: everything that comes before the training. *)
Definition prepare (self : t) : H t :=
  let! self := _load_data self in
  let! self := _clean_data self in
  let! self := _engineer_features self in
  let! self := _prepare_data self in
  _create_models self.

(** The last three phases and the closing of the run. *)
Definition train_and_report (self : t) : H (Results * t) :=
  let! self := _train_models self in
  let! self := _evaluate_models self in
  let! self := _generate_results self in
  let r := pipeline_results self in
  let results :=
    mkResults (cleaning_report r) (feature_info r) (training_info r)
      (evaluation_report r) (best_model r) (best_model_metrics r)
      (model_comparison r) (feature_importance r) (success r)
      (Some run_duration) in
  retH (results,
        mk (data_cleaner self) (feature_engineer self) (model_trainer self)
           (model_evaluator self) (raw_data self) (cleaned_data self)
           (engineered_data self) (split self) (models self)
           (trained_models self) (evaluation_results self) results).

(** [run]: the eight phases in order; an exception of a phase is logged
    and raised again. *)
Definition run (self : t) : H (Results * t) :=
  let! self := _load_data self in
  let! self := _clean_data self in
  let! self := _engineer_features self in
  let! self := _prepare_data self in
  let! self := _create_models self in
  let! self := _train_models self in
  let! self := _evaluate_models self in
  let! self := _generate_results self in
  let r := pipeline_results self in
  let results :=
    mkResults (cleaning_report r) (feature_info r) (training_info r)
      (evaluation_report r) (best_model r) (best_model_metrics r)
      (model_comparison r) (feature_importance r) (success r)
      (Some run_duration) in
  retH (results,
        mk (data_cleaner self) (feature_engineer self) (model_trainer self)
           (model_evaluator self) (raw_data self) (cleaned_data self)
           (engineered_data self) (split self) (models self)
           (trained_models self) (evaluation_results self) results).

(** [get_results] *)
Definition get_results (self : t) : Results := pipeline_results self.

(** [get_best_model]: an empty name counts as no name. *)
Definition get_best_model (self : t) : option Model.t :=
  match best_model (pipeline_results self) with
  | Some n => if String.eqb n EmptyString then None else dict_get n (trained_models self)
  | None => None
  end.

(** [predict]: the new data goes through [clean_data] and
    [engineer_features] of the same cleaner and engineer, then to the best
    model.  The third component is the frame handed to the model. *)
Definition predict (self : t) (data : ref) : H (list value * t * ref) :=
  match get_best_model self with
  | None => raiseH (ValueError "Nenhum modelo treinado disponivel")
  | Some best =>
      let! cleaned := Cleaner.clean_data (data_cleaner self) data in
      let '(cleaner, cleaned_ref) := cleaned in
      let! engineered :=
        Engineer.engineer_features (feature_engineer self) cleaned_ref in
      let '(engineer, engineered_ref) := engineered in
      let! X := deref engineered_ref in
      let! predictions := liftH (Model.predict best X) in
      retH (predictions,
            mk cleaner engineer (model_trainer self) (model_evaluator self)
               (raw_data self) (cleaned_data self) (engineered_data self)
               (split self) (models self) (trained_models self)
               (evaluation_results self) (pipeline_results self),
            engineered_ref)
  end.

End WithLibraries.
End Pipeline.

(** ** Example data *)

(** Text conversions for whole numbers written in decimal digits. *)
Fixpoint digits_value (s : string) (acc : N) : option N :=
  match s with
  | EmptyString => Some acc
  | String c s' =>
      let n := N_of_ascii c in
      if ((48 <=? n) && (n <=? 57))%N
      then digits_value s' (acc * 10 + (n - 48))%N
      else None
  end.

Definition parse_whole (s : string) : option Z :=
  match strip s with
  | EmptyString => None
  | t => option_map Z.of_N (digits_value t 0%N)
  end.

#[local] Instance whole_number_text : TextConversions := {|
  str_of_number := fun _ q => NilZero.string_of_int (Z.to_int (Qfloor q));
  to_numeric_str := fun s => option_map inject_Z (parse_whole s);
  int_of_str := parse_whole
|}.

(** A scaler that centres each column on its mean and refuses a column
    with no row or with a cell that is not a number. *)
Definition centre_column (cs : list value) : result (Q * list value) :=
  do xs <- mapM (fun c => match c with
                          | VNum q => OK q
                          | _ => Raise (ValueError "could not convert to float")
                          end) cs;
  match xs with
  | [] => Raise (ValueError "Found array with 0 sample(s)")
  | _ =>
      let mean := (fold_right Qplus 0 xs / inject_Z (Z.of_nat (length xs)))%Q in
      OK (mean, map (fun x => VNum (x - mean)) xs)
  end.

#[local] Instance centring_scaler : StandardScaler := {|
  scaler_stats := list Q;
  unfitted := [];
  fit_transform := fun matrix =>
    do fitted <- mapM centre_column matrix;
    OK (map fst fitted, map snd fitted)
|}.

Definition text_column (l : list string) : Series :=
  mkSeries Object (map VStr l).

(** Three raw rows: the third repeats the first, the second has a missing
    tenure and a blank total charge. *)
Definition raw_sample : DataFrame :=
  [("customerID", text_column ["7590"; "5575"; "7590"]);
   ("SeniorCitizen", mkSeries Int64 [VNum 0; VNum 1; VNum 0]);
   ("Partner", text_column ["Yes"; "No"; "Yes"]);
   ("Dependents", text_column ["No"; "No"; "No"]);
   ("tenure", mkSeries Float64 [VNum 1; VNaN; VNum 1]);
   ("MultipleLines", text_column ["No phone service"; "No"; "No phone service"]);
   ("OnlineSecurity", text_column ["No internet service "; "Yes"; "No internet service "]);
   ("Contract", text_column ["Month-to-month"; " Two year"; "Month-to-month"]);
   ("MonthlyCharges", mkSeries Float64 [VNum 30; VNum 57; VNum 30]);
   ("TotalCharges", text_column ["30"; " "; "30"]);
   ("Churn", text_column ["No"; "Yes"; "No"])].

(** One row with the columns that the loader's validation requires, and
    no other. *)
Definition validated_sample : DataFrame :=
  [("customerID", text_column ["7590"]);
   ("Churn", text_column ["No"]);
   ("tenure", mkSeries Int64 [VNum 1]);
   ("MonthlyCharges", mkSeries Float64 [VNum 30])].

(** A stand-in for the learning library: fitting fails on a [C] or an
    [n_estimators] that is not positive, a fitted estimator predicts class 0
    with probability 1/2, every score is 1/2, and the split takes the
    first rows for training. *)
Definition not_positive (params : Params) (key : string) : bool :=
  match dict_get key params with
  | Some (VNum q) => Qle_bool q 0
  | _ => false
  end.

#[local] Instance sample_sklearn : Sklearn := {|
  estimator := nat;
  sk_fit := fun _ params X _ =>
    if not_positive params "C" || not_positive params "n_estimators"
    then Raise (ValueError "The parameter must be positive")
    else OK (length X);
  sk_predict := fun _ X => OK (repeat (VNum 0) (n_rows X));
  sk_predict_proba := fun _ X => OK (repeat [1 # 2; 1 # 2]%Q (n_rows X));
  sk_feature_importances := fun n => Some (repeat 1%Q n);
  sk_coef := fun n => [repeat 1%Q n];
  accuracy_score := fun _ _ => OK (1 # 2);
  precision_score := fun _ _ => OK (1 # 2);
  recall_score := fun _ _ => OK (1 # 2);
  f1_score := fun _ _ => OK (1 # 2);
  roc_auc_score := fun _ _ => OK (1 # 2);
  confusion_matrix := fun _ _ => OK [[1; 0]; [1; 0]]%Z;
  precision_score_per_class := fun _ _ => OK [1 # 2; 0]%Q;
  recall_score_per_class := fun _ _ => OK [1; 0]%Q;
  f1_score_per_class := fun _ _ => OK [2 # 3; 0]%Q;
  stratified_shuffle := fun _ n_train n_test _ =>
    (seq 0 n_train, seq n_train n_test)
|}.

(** The same library, except that no estimator can be fitted. *)
#[local] Instance failing_sklearn : Sklearn := {|
  estimator := nat;
  sk_fit := fun _ _ _ _ => Raise (ValueError "Input contains NaN");
  sk_predict := fun _ X => OK (repeat (VNum 0) (n_rows X));
  sk_predict_proba := fun _ X => OK (repeat [1 # 2; 1 # 2]%Q (n_rows X));
  sk_feature_importances := fun n => Some (repeat 1%Q n);
  sk_coef := fun n => [repeat 1%Q n];
  accuracy_score := fun _ _ => OK (1 # 2);
  precision_score := fun _ _ => OK (1 # 2);
  recall_score := fun _ _ => OK (1 # 2);
  f1_score := fun _ _ => OK (1 # 2);
  roc_auc_score := fun _ _ => OK (1 # 2);
  confusion_matrix := fun _ _ => OK [[1; 0]; [1; 0]]%Z;
  precision_score_per_class := fun _ _ => OK [1 # 2; 0]%Q;
  recall_score_per_class := fun _ _ => OK [1; 0]%Q;
  f1_score_per_class := fun _ _ => OK [2 # 3; 0]%Q;
  stratified_shuffle := fun _ n_train n_test _ =>
    (seq 0 n_train, seq n_train n_test)
|}.

#[local] Instance sample_clock : Clock := {|
  training_duration := fun _ => 1%Q;
  run_duration := 5%Q
|}.

(** Ten raw rows, five of each churn class. *)
Definition training_sample : DataFrame :=
  [("customerID", text_column ["01"; "02"; "03"; "04"; "05";
                               "06"; "07"; "08"; "09"; "10"]);
   ("SeniorCitizen",
    mkSeries Int64 (map VNum [0; 1; 0; 0; 1; 0; 0; 1; 0; 0]%Q));
   ("Partner", text_column ["Yes"; "No"; "No"; "Yes"; "No";
                            "Yes"; "No"; "No"; "Yes"; "No"]);
   ("Dependents", text_column ["No"; "No"; "Yes"; "No"; "No";
                               "No"; "Yes"; "No"; "No"; "No"]);
   ("tenure", mkSeries Int64 (map VNum [1; 34; 2; 45; 2; 8; 22; 10; 28; 62]%Q));
   ("MultipleLines", text_column ["No"; "No"; "Yes"; "No"; "No";
                                  "Yes"; "Yes"; "No"; "Yes"; "No"]);
   ("Contract",
    text_column ["Month-to-month"; "Two year"; "Month-to-month"; "Two year";
                 "Month-to-month"; "Month-to-month"; "Two year";
                 "Month-to-month"; "Month-to-month"; "Two year"]);
   ("MonthlyCharges",
    mkSeries Int64 (map VNum [30; 57; 54; 42; 71; 100; 89; 30; 105; 56]%Q));
   ("TotalCharges",
    text_column ["30"; "1890"; "108"; "1841"; "152";
                 "820"; "1949"; "302"; "3046"; "3488"]);
   ("Churn", text_column ["No"; "No"; "Yes"; "No"; "Yes";
                          "Yes"; "No"; "No"; "Yes"; "No"])].

(** The loader of the examples: it yields [training_sample]; its validation
    asks for the columns that [TelcoDataLoader] requires. *)
#[local] Instance sample_loader : DataLoader := {|
  load_data := OK training_sample;
  validate_data := fun data =>
    forallb (fun c => dict_mem c data)
            ["customerID"; "Churn"; "tenure"; "MonthlyCharges"]
|}.

(** New data for an inference call: one customer on a two-year contract. *)
Definition inference_sample : DataFrame :=
  [("customerID", text_column ["11"]);
   ("SeniorCitizen", mkSeries Int64 [VNum 0]);
   ("Partner", text_column ["No"]);
   ("Dependents", text_column ["No"]);
   ("tenure", mkSeries Int64 [VNum 12]);
   ("MultipleLines", text_column ["No"]);
   ("Contract", text_column ["Two year"]);
   ("MonthlyCharges", mkSeries Int64 [VNum 60]);
   ("TotalCharges", text_column ["720"])].

(** Two logistic regressions submitted under two keys; the first has a
    regularisation strength that the library refuses. *)
Definition two_regressions : dict (Model.t (sk := sample_sklearn)) :=
  [("lr_strict", Model.LogisticRegressionModel [("C", VNum (-1))]);
   ("lr", Model.LogisticRegressionModel [])].

(** The three models of the pipeline, the forest with no tree. *)
Definition three_models : dict (Model.t (sk := sample_sklearn)) :=
  [("LogisticRegression", Model.LogisticRegressionModel []);
   ("RandomForest", Model.RandomForestModel [("n_estimators", VNum 0)]);
   ("GradientBoosting", Model.GradientBoostingModel [])].

Definition one_label : Series := mkSeries Int64 [VNum 0].

(** Four rows of two columns of numbers, and their labels, two of each
    class: a training input that a logistic regression can be fitted on. *)
Definition numeric_sample : DataFrame :=
  [("tenure", mkSeries Int64 (map VNum [1; 34; 2; 45]%Q));
   ("MonthlyCharges", mkSeries Float64 (map VNum [30; 57; 54; 42]%Q))].

Definition two_class_labels : Series :=
  mkSeries Int64 (map VNum [0; 1; 1; 0]%Q).

(** A pipeline with new components. *)
Definition new_pipeline {sk : Sklearn} : Pipeline.t (lib := centring_scaler) :=
  Pipeline.init Cleaner.init Engineer.init Trainer.init Evaluator.init.

(** The state of a pipeline in which no estimator can be fitted, after
    its first five phases. *)
Definition prepared_run :
  result (Pipeline.t (lib := centring_scaler) (sk := failing_sklearn)) * heap :=
  Eval vm_compute in
    Pipeline.prepare (text := whole_number_text) (loader := sample_loader)
      new_pipeline [].

Definition prepared_pipeline
  : Pipeline.t (lib := centring_scaler) (sk := failing_sklearn) :=
  Eval vm_compute in
    match prepared_run with
    | (OK self, _) => self
    | _ => new_pipeline
    end.

Definition prepared_heap : heap := Eval vm_compute in snd prepared_run.

Definition sample_run : result (Cleaner.t * ref) * heap :=
  Eval vm_compute in Cleaner.clean_data Cleaner.init 0 [raw_sample].

Definition sample_cleaner : Cleaner.t :=
  Eval vm_compute in
    match sample_run with
    | (OK (self, _), _) => self
    | _ => Cleaner.init
    end.

Definition sample_heap : heap := Eval vm_compute in snd sample_run.

Definition cleaned_sample : DataFrame := Eval vm_compute in nth 1 sample_heap [].

(** The cleaned sample through the steps of the engineer: with its
    derived features, then encoded, then scaled. *)
Definition derived_sample : DataFrame :=
  Eval vm_compute in
    match Engineer._create_derived_features cleaned_sample with
    | OK d => d
    | Raise _ => []
    end.

Definition encoded_sample : dict Engineer.LabelEncoder * DataFrame :=
  Eval vm_compute in
    match Engineer._encode_categorical_features [] derived_sample with
    | OK r => r
    | Raise _ => ([], [])
    end.

Definition scaled_sample : list Q * DataFrame :=
  Eval vm_compute in
    match Engineer._normalize_numeric_features (lib := centring_scaler) []
            (snd encoded_sample) with
    | OK r => r
    | Raise _ => ([], [])
    end.

(** [engineer_features] on the cleaned sample. *)
Definition engineered_run
  : result (Engineer.t (lib := centring_scaler) * ref) * heap :=
  Eval vm_compute in
    Engineer.engineer_features (lib := centring_scaler) Engineer.init 1
      sample_heap.

Definition engineered_engineer : Engineer.t (lib := centring_scaler) :=
  Eval vm_compute in
    match engineered_run with
    | (OK (self, _), _) => self
    | _ => Engineer.init
    end.

Definition engineered_heap : heap := Eval vm_compute in snd engineered_run.

(** A dataset with a text column that is all missing, and one with a
    senior flag that is missing in a row. *)
Definition no_gender : DataFrame :=
  [("customerID", text_column ["7590"; "5575"]);
   ("gender", mkSeries Object [VNaN; VNaN])].

Definition unknown_senior : DataFrame :=
  [("customerID", text_column ["7590"; "5575"]);
   ("SeniorCitizen", mkSeries Float64 [VNum 0; VNaN])].

(** The three models of the pipeline, trained on one validated row, and
    their evaluation on it by a new evaluator. *)
Definition pipeline_models : dict (Model.t (sk := sample_sklearn)) :=
  [("LogisticRegression", Model.LogisticRegressionModel []);
   ("RandomForest", Model.RandomForestModel []);
   ("GradientBoosting", Model.GradientBoostingModel [])].

Definition trained_three : dict (Model.t (sk := sample_sklearn)) :=
  Eval vm_compute in
    Trainer.trained_of pipeline_models validated_sample one_label.

Definition evaluated_run
  : result (dict Metrics) * Evaluator.t :=
  Eval vm_compute in
    Evaluator.evaluate_multiple_models Evaluator.init trained_three
      validated_sample one_label.

Definition evaluated_results : dict Metrics :=
  Eval vm_compute in
    match evaluated_run with
    | (OK results, _) => results
    | _ => []
    end.

Definition evaluated_evaluator : Evaluator.t :=
  Eval vm_compute in snd evaluated_run.

(** A whole run on the training sample. *)
Definition completed_run
  : result (Pipeline.Results
            * Pipeline.t (lib := centring_scaler) (sk := sample_sklearn))
    * heap :=
  Eval vm_compute in
    Pipeline.run (text := whole_number_text) (clock := sample_clock)
      (loader := sample_loader) new_pipeline [].

Definition completed_results : Pipeline.Results :=
  Eval vm_compute in
    match completed_run with
    | (OK (results, _), _) => results
    | _ => Pipeline.no_results
    end.

Definition completed_pipeline
  : Pipeline.t (lib := centring_scaler) (sk := sample_sklearn) :=
  Eval vm_compute in
    match completed_run with
    | (OK (_, self), _) => self
    | _ => new_pipeline
    end.

Definition completed_heap : heap := Eval vm_compute in snd completed_run.

(** The first three phases of a run with the Telco loader on the training
    sample. *)
Definition loaded_run
  : result (Pipeline.t (lib := centring_scaler) (sk := sample_sklearn)) * heap :=
  Eval vm_compute in
    Pipeline._load_data (loader := TelcoDataLoader.loader (OK training_sample))
      new_pipeline [].

Definition loaded_pipeline
  : Pipeline.t (lib := centring_scaler) (sk := sample_sklearn) :=
  Eval vm_compute in
    match loaded_run with
    | (OK self, _) => self
    | _ => new_pipeline
    end.

Definition cleaned_run
  : result (Pipeline.t (lib := centring_scaler) (sk := sample_sklearn)) * heap :=
  Eval vm_compute in
    Pipeline._clean_data (text := whole_number_text) loaded_pipeline
      (snd loaded_run).

Definition cleaned_pipeline
  : Pipeline.t (lib := centring_scaler) (sk := sample_sklearn) :=
  Eval vm_compute in
    match cleaned_run with
    | (OK self, _) => self
    | _ => new_pipeline
    end.

Definition featured_run
  : result (Pipeline.t (lib := centring_scaler) (sk := sample_sklearn)) * heap :=
  Eval vm_compute in
    Pipeline._engineer_features cleaned_pipeline (snd cleaned_run).

Definition featured_pipeline
  : Pipeline.t (lib := centring_scaler) (sk := sample_sklearn) :=
  Eval vm_compute in
    match featured_run with
    | (OK self, _) => self
    | _ => new_pipeline
    end.

(* ================================================================== *)
(** * Part II: lemmas and theorems                                    *)
(* ================================================================== *)

Unset Implicit Arguments.


(** ** Best-model selection *)

Module EvaluatorFacts.
Import Evaluator.

Lemma Qgtb_true (a b : Q) : Qgtb a b = true <-> (b < a)%Q.
Proof.
    unfold Qgtb. rewrite negb_true_iff. split; intro H.
    - apply Qnot_le_lt. intro Hle. apply Qle_bool_iff in Hle. congruence.
    - destruct (Qle_bool a b) eqn:E; [|reflexivity].
      apply Qle_bool_iff in E. exfalso. exact (Qlt_not_le _ _ H E).
Qed.

Lemma Qgtb_false (a b : Q) : Qgtb a b = false <-> (a <= b)%Q.
Proof.
    unfold Qgtb. rewrite negb_false_iff. apply Qle_bool_iff.
Qed.

(** What the loop computes from an arbitrary running best: either nothing
      beats it, or the result is the first entry that attains the maximum. *)
Lemma fold_best_step (results : dict Metrics) :
    (forall n m, In (n, m) results -> valid_metrics m) ->
    forall (b : option string) (bf : Q),
    exists b' bf',
      foldM best_step results (b, bf) = OK (b', bf') /\
      ((b' = b /\ bf' = bf /\
        forall n m f, In (n, m) results -> f1_of m = Some f -> (f <= bf)%Q)
       \/
       (exists before name m after,
          results = before ++ (name, m) :: after /\
          b' = Some name /\ f1_of m = Some bf' /\ (bf < bf')%Q /\
          (forall n' m' f, In (n', m') before -> f1_of m' = Some f ->
                           (f < bf')%Q) /\
          (forall n' m' f, In (n', m') after -> f1_of m' = Some f ->
                           (f <= bf')%Q))).
Proof.
    induction results as [|[n m] rest IH]; intros Hvalid b bf.
    - exists b, bf. split; [reflexivity|]. left. repeat split.
      intros ? ? ? [].
    - assert (Hrest : forall n0 m0, In (n0, m0) rest -> valid_metrics m0)
        by (intros; eapply Hvalid; right; eassumption).
      destruct (Hvalid n m (or_introl eq_refl)) as (f & Hf & _).
      assert (Hget : dict_get "f1_score" m = Some (MFloat f)).
      { unfold f1_of in Hf.
        destruct (dict_get "f1_score" m) as [[]|]; congruence. }
      cbn [foldM]. unfold best_step at 1. rewrite Hget. cbn [snd bind].
      destruct (Qgtb f bf) eqn:Hcmp; cbn [bind].
      + apply Qgtb_true in Hcmp.
        destruct (IH Hrest (Some n) f) as (b' & bf' & Hrun & Hcase).
        exists b', bf'. split; [exact Hrun|]. right.
        destruct Hcase as [(-> & -> & Hall) | (l1 & n1 & m1 & l2 & -> & -> & Hm1 & Hlt & Hb & Ha)].
        * exists [], n, m, rest. repeat split; auto.
          intros ? ? ? [].
        * exists ((n, m) :: l1), n1, m1, l2. repeat split; auto.
          -- eapply Qlt_trans; eassumption.
          -- intros n' m' f' [Heq | Hin] Hf'.
             ++ inversion Heq; subst. rewrite Hf in Hf'. inversion Hf'; subst.
                exact Hlt.
             ++ eapply Hb; eassumption.
      + apply Qgtb_false in Hcmp.
        destruct (IH Hrest b bf) as (b' & bf' & Hrun & Hcase).
        exists b', bf'. split; [exact Hrun|].
        destruct Hcase as [(-> & -> & Hall) | (l1 & n1 & m1 & l2 & -> & -> & Hm1 & Hlt & Hb & Ha)].
        * left. repeat split. intros n' m' f' [Heq | Hin] Hf'.
          -- inversion Heq; subst. rewrite Hf in Hf'. inversion Hf'; subst.
             exact Hcmp.
          -- eapply Hall; eassumption.
        * right. exists ((n, m) :: l1), n1, m1, l2. repeat split; auto.
          intros n' m' f' [Heq | Hin] Hf'.
          -- inversion Heq; subst. rewrite Hf in Hf'. inversion Hf'; subst.
             eapply Qle_lt_trans; eassumption.
          -- eapply Hb; eassumption.
Qed.

(** C2. For a mapping of metrics records (F1-Score present, in [0,1]),
      selection returns none on the empty mapping and otherwise the name of
      the first entry, in insertion order, whose F1-Score is the maximum:
      every earlier entry has a strictly smaller F1-Score and every later
      entry an F1-Score that is at most equal.  In the A/B/C scenario of the
      spec this is B. *)
Theorem select_best_first_maximum (results : dict Metrics) :
    (forall n m, In (n, m) results -> valid_metrics m) ->
    (results = [] -> select_best results = OK None) /\
    (results <> [] ->
     exists before name m after f1,
       results = before ++ (name, m) :: after /\
       select_best results = OK (Some name) /\
       f1_of m = Some f1 /\
       (forall n' m' f, In (n', m') before -> f1_of m' = Some f -> (f < f1)%Q) /\
       (forall n' m' f, In (n', m') after -> f1_of m' = Some f -> (f <= f1)%Q)) /\
    (results = scenario_ABC -> select_best results = OK (Some "B"%string)).
Proof.
    intro Hvalid. split; [|split].
    - intros ->. reflexivity.
    - intro Hne.
      destruct (fold_best_step results Hvalid None (-1)%Q)
        as (b' & bf' & Hrun & Hcase).
      destruct Hcase as [(_ & _ & Hall) | (l1 & n1 & m1 & l2 & -> & -> & Hm1 & _ & Hb & Ha)].
      + exfalso. destruct results as [|[n m] rest]; [congruence|].
        destruct (Hvalid n m (or_introl eq_refl)) as (f & Hf & Hpos & _).
        specialize (Hall n m f (or_introl eq_refl) Hf).
        assert (H01 : (-1 < 0)%Q) by reflexivity.
        exact (Qlt_not_le _ _ H01 (Qle_trans _ _ _ Hpos Hall)).
      + exists l1, n1, m1, l2, bf'. unfold select_best. rewrite Hrun.
        repeat split; auto.
    - intros ->. reflexivity.
Qed.

Lemma select_best_first_maximum_witness :
    exists before name m after f1,
      scenario_ABC = before ++ (name, m) :: after /\
      select_best scenario_ABC = OK (Some name) /\
      f1_of m = Some f1 /\
      (forall n' m' f, In (n', m') before -> f1_of m' = Some f -> (f < f1)%Q) /\
      (forall n' m' f, In (n', m') after -> f1_of m' = Some f -> (f <= f1)%Q).
Proof.
    apply (select_best_first_maximum scenario_ABC).
    - intros n m Hin. unfold valid_metrics.
      simpl in Hin.
      destruct Hin as [H | [H | [H | []]]]; inversion H; subst;
        eexists; (split; [reflexivity|]); split; discriminate.
    - discriminate.
Defined.

End EvaluatorFacts.

(** ** Dictionaries and the object store *)

Section DictFacts.
Variable V : Type.
Implicit Types (d : dict V) (k : string) (v : V).

Lemma dict_get_set_same k v d : dict_get k (dict_set k v d) = Some v.
Proof.
    induction d as [|[k' v'] d IH]; simpl.
    - now rewrite String.eqb_refl.
    - destruct (String.eqb k k') eqn:E; simpl; rewrite ?String.eqb_refl, ?E; auto.
Qed.

Lemma dict_get_set_other k k' v d :
    k <> k' -> dict_get k (dict_set k' v d) = dict_get k d.
Proof.
    intro Hne. induction d as [|[k2 v2] d IH]; simpl.
    - apply String.eqb_neq in Hne. now rewrite Hne.
    - destruct (String.eqb k' k2) eqn:E; simpl.
      + apply String.eqb_eq in E; subst k2.
        apply String.eqb_neq in Hne. now rewrite Hne.
      + now rewrite IH.
Qed.

(** Assigning to a key the value it already has changes nothing. *)
Lemma dict_set_same k v d : dict_get k d = Some v -> dict_set k v d = d.
Proof.
    induction d as [|[k' v'] d IH]; simpl; [discriminate|].
    destruct (String.eqb k k') eqn:E.
    - apply String.eqb_eq in E; subst k'. now intros [= ->].
    - intro H. now rewrite IH.
Qed.

(** Assigning to a key that is present keeps the keys where they are. *)
Lemma dict_set_keys k v v0 d :
    dict_get k d = Some v0 -> dict_keys (dict_set k v d) = dict_keys d.
Proof.
    unfold dict_keys.
    induction d as [|[k' v'] d IH]; simpl; [discriminate|].
    destruct (String.eqb k k') eqn:E; simpl.
    - apply String.eqb_eq in E; now subst k'.
    - intro H. now rewrite IH.
Qed.

Lemma dict_get_In k v d : dict_get k d = Some v -> In (k, v) d.
Proof.
    induction d as [|[k' v'] d IH]; simpl; [discriminate|].
    destruct (String.eqb k k') eqn:E.
    - apply String.eqb_eq in E; subst k'. intros [= ->]. now left.
    - intro H. right. auto.
Qed.

Lemma dict_get_map (f : V -> V) k d :
    dict_get k (map (fun c => (fst c, f (snd c))) d)
    = option_map f (dict_get k d).
Proof.
    induction d as [|[k' v'] d IH]; simpl; [reflexivity|].
    destruct (String.eqb k k'); auto.
Qed.

End DictFacts.

Section HeapFacts.

Lemma nth_fresh (h : heap) (data : DataFrame) :
    nth (length h) (h ++ [data]) [] = data.
Proof.
    rewrite app_nth2 by lia. now rewrite Nat.sub_diag.
Qed.

Lemma nth_old (h : heap) (data : DataFrame) (l : ref) :
    l < length h -> nth l (h ++ [data]) [] = nth l h [].
Proof. intro Hl. now apply app_nth1. Qed.

Lemma replace_nth_fresh (h : heap) (data data' : DataFrame) :
    replace_nth (length h) data' (h ++ [data]) = h ++ [data'].
Proof.
    induction h as [|x h IH]; simpl; [reflexivity|]. now rewrite IH.
Qed.

(** A method that works in place on the newest object touches nothing
      else. *)
Lemma mutate_fresh (f : DataFrame -> result DataFrame) (h : heap)
        (data : DataFrame) :
    mutate f (length h) (h ++ [data])
    = match f data with
      | OK data' => (OK (length h), h ++ [data'])
      | Raise e => (Raise e, h ++ [data])
      end.
Proof.
    unfold mutate, bindH, deref, liftH, store, retH.
    rewrite nth_fresh. destruct (f data); [|reflexivity].
    now rewrite replace_nth_fresh.
Qed.

Lemma copy_run (l : ref) (h : heap) :
    copy l h = (OK (length h), h ++ [nth l h []]).
Proof. reflexivity. Qed.

End HeapFacts.

(** ** The cleaner, step by step *)

Module CleanerFacts.
Import Cleaner.

Lemma foldM_pure (A B : Type) (f : A -> B -> A) (l : list B) (a : A) :
  foldM (fun x y => OK (f x y)) l a = OK (fold_left f l a).
Proof.
  revert a. induction l as [|b l IH]; intro a; simpl; auto.
Qed.

Lemma foldM_ext (A B : Type) (f f' : A -> B -> result A) (l : list B) (a : A) :
  (forall x y, f x y = f' x y) -> foldM f l a = foldM f' l a.
Proof.
  intro Hext. revert a. induction l as [|b l IH]; intro a; simpl; auto.
  rewrite Hext. destruct (f' a b); simpl; auto.
Qed.

Lemma mem_In (c : string) (cols : list string) :
  mem c cols = true <-> In c cols.
Proof.
  unfold mem. rewrite existsb_exists. split.
  - intros (x & Hin & Heq). apply String.eqb_eq in Heq. now subst.
  - intro Hin. exists c. split; auto. apply String.eqb_refl.
Qed.

Lemma mem_not_In (c : string) (cols : list string) :
  mem c cols = false <-> ~ In c cols.
Proof.
  rewrite <- mem_In. destruct (mem c cols); split; congruence.
Qed.

Section Columns.
Variable g : Series -> result Series.

Lemma update_column_id (d : DataFrame) (c : string) :
  (forall s, dict_get c d = Some s -> g s = OK s) ->
  update_column g d c = OK d.
Proof.
  intro Hg. unfold update_column.
  destruct (dict_get c d) as [s|] eqn:E; [|reflexivity].
  rewrite (Hg s eq_refl). simpl. now rewrite dict_set_same.
Qed.

Lemma update_column_get (d d' : DataFrame) (c c' : string) (s' : Series) :
  update_column g d c = OK d' ->
  dict_get c' d' = Some s' ->
  exists s, dict_get c' d = Some s /\
            (if String.eqb c' c then g s else OK s) = OK s'.
Proof.
  unfold update_column. intros Hrun Hget.
  destruct (dict_get c d) as [s|] eqn:E.
  - destruct (g s) as [s1|] eqn:Eg; simpl in Hrun; [|discriminate].
    injection Hrun as <-.
    destruct (String.eqb c' c) eqn:Ec.
    + apply String.eqb_eq in Ec; subst c'.
      rewrite dict_get_set_same in Hget. injection Hget as <-.
      exists s. auto.
    + apply String.eqb_neq in Ec.
      rewrite dict_get_set_other in Hget by assumption.
      exists s'. auto.
  - injection Hrun as <-. exists s'. split; [assumption|].
    destruct (String.eqb c' c) eqn:Ec; [|reflexivity].
    apply String.eqb_eq in Ec; subst c'. congruence.
Qed.

Hypothesis g_length :
  forall s s', g s = OK s' -> length (cells s') = length (cells s).

Lemma dict_set_layout (d : DataFrame) (c : string) (s s' : Series) :
  dict_get c d = Some s ->
  length (cells s') = length (cells s) ->
  layout (dict_set c s' d) = layout d.
Proof.
  intros Hget Hlen. unfold layout.
  induction d as [|[k v] d IH]; simpl in *; [discriminate|].
  destruct (String.eqb c k) eqn:E; simpl.
  - apply String.eqb_eq in E; subst k. injection Hget as ->.
    now rewrite Hlen.
  - now rewrite IH.
Qed.

Lemma update_column_layout (d d' : DataFrame) (c : string) :
  update_column g d c = OK d' -> layout d' = layout d.
Proof.
  unfold update_column.
  destruct (dict_get c d) as [s|] eqn:E.
  - destruct (g s) as [s1|] eqn:Eg; simpl; [|discriminate].
    intros [= <-]. eapply dict_set_layout; eauto.
  - now intros [= <-].
Qed.

Lemma stage_layout (cols : list string) (d d' : DataFrame) :
  foldM (update_column g) cols d = OK d' -> layout d' = layout d.
Proof.
  revert d. induction cols as [|c cols IH]; intro d; simpl.
  - now intros [= <-].
  - destruct (update_column g d c) as [d1|] eqn:E; simpl; [|discriminate].
    intro H. rewrite (IH _ H). eapply update_column_layout; eauto.
Qed.

End Columns.

Lemma stage_id (g : Series -> result Series) (cols : list string)
      (d : DataFrame) :
  (forall c s, In c cols -> dict_get c d = Some s -> g s = OK s) ->
  foldM (update_column g) cols d = OK d.
Proof.
  induction cols as [|c cols IH]; intro Hg; simpl; [reflexivity|].
  rewrite update_column_id.
  - simpl. apply IH. intros; eapply Hg; eauto. now right.
  - intros s Hs. eapply Hg; eauto. now left.
Qed.

Lemma stage_get (g : Series -> result Series) (cols : list string) :
  NoDup cols ->
  forall (d d' : DataFrame) (c' : string) (s' : Series),
  foldM (update_column g) cols d = OK d' ->
  dict_get c' d' = Some s' ->
  exists s, dict_get c' d = Some s /\
            (if mem c' cols then g s else OK s) = OK s'.
Proof.
  induction 1 as [|c cols Hnotin Hnodup IH]; intros d d' c' s' Hrun Hget.
  - injection Hrun as <-. exists s'. auto.
  - simpl in Hrun.
    destruct (update_column g d c) as [d1|] eqn:E; simpl in Hrun; [|discriminate].
    destruct (IH _ _ _ _ Hrun Hget) as (s1 & Hget1 & Hs1).
    destruct (update_column_get g d d1 c c' s1 E Hget1) as (s & Hget0 & Hs).
    exists s. split; [assumption|].
    unfold mem in *. simpl.
    destruct (String.eqb c' c) eqn:Ec; simpl.
    + apply String.eqb_eq in Ec; subst c'.
      apply mem_not_In in Hnotin. unfold mem in Hnotin.
      rewrite Hnotin in Hs1. congruence.
    + injection Hs as ->. assumption.
Qed.

Ltac nodup_strings :=
  repeat (apply NoDup_cons; [simpl; intuition discriminate|]); apply NoDup_nil.

Ltac compute_mems H :=
  repeat match type of H with
         | context [mem ?c ?l] =>
             let b := eval vm_compute in (mem c l) in
             change (mem c l) with b in H
         end;
  cbv beta iota zeta in H; cbn [bind] in H.

Ltac run_imputations H :=
  repeat match type of H with
         | context [impute_median ?s] =>
             let E := fresh "Emed" in
             destruct (impute_median s) eqn:E; cbn [bind] in H;
             [|discriminate H]
         | context [impute_mode ?s] =>
             let E := fresh "Emode" in
             destruct (impute_mode s) eqn:E; cbn [bind] in H;
             [|discriminate H]
         end.

Ltac each_column H :=
  apply mem_In in H; cbn [app categorical_columns numeric_columns
                          service_columns In] in H;
  repeat match type of H with
         | _ \/ _ => destruct H as [H | H]
         end;
  try contradiction; subst.

Lemma numeric_columns_nodup : NoDup numeric_columns.
Proof. unfold numeric_columns. nodup_strings. Qed.

Lemma categorical_columns_nodup : NoDup categorical_columns.
Proof. unfold categorical_columns. nodup_strings. Qed.

Lemma text_columns_nodup : NoDup (categorical_columns ++ ["Churn"]).
Proof. unfold categorical_columns. simpl. nodup_strings. Qed.

Lemma service_columns_nodup : NoDup service_columns.
Proof. unfold service_columns. nodup_strings. Qed.

Section Steps.
Context {text : TextConversions}.

Lemma fill_median_update (d : DataFrame) (c : string) :
  fill_median d c = update_column impute_median d c.
Proof.
  unfold fill_median, update_column, impute_median.
  destruct (dict_get c d) as [s|] eqn:E; [|reflexivity].
  destruct (isnull_any s).
  - destruct (median s); reflexivity.
  - simpl. now rewrite dict_set_same.
Qed.

Lemma fill_mode_update (d : DataFrame) (c : string) :
  fill_mode d c = update_column impute_mode d c.
Proof.
  unfold fill_mode, update_column, impute_mode.
  destruct (dict_get c d) as [s|] eqn:E; [|reflexivity].
  destruct (isnull_any s).
  - destruct (mode_first s); reflexivity.
  - simpl. now rewrite dict_set_same.
Qed.

Lemma handle_missing_stages (d : DataFrame) :
  _handle_missing_values d
  = do d1 <- foldM (update_column impute_median) numeric_columns d;
    foldM (update_column impute_mode) categorical_columns d1.
Proof.
  unfold _handle_missing_values.
  rewrite (foldM_ext _ _ _ _ _ _ fill_median_update).
  destruct (foldM (update_column impute_median) numeric_columns d); cbn [bind]; auto.
  apply foldM_ext, fill_mode_update.
Qed.

Lemma handle_inconsistent_stages (d : DataFrame) :
  OK (_handle_inconsistent_values d)
  = do d1 <- foldM (update_column strip_text)
                   (categorical_columns ++ ["Churn"]) d;
    foldM (update_column collapse_text) service_columns d1.
Proof.
  unfold _handle_inconsistent_values.
  rewrite (foldM_ext _ _ (update_column strip_text)
             (fun x y => OK (strip_column x y))).
  2:{ intros x y. unfold strip_column, update_column, strip_text.
      destruct (dict_get y x); reflexivity. }
  rewrite foldM_pure. cbn [bind].
  rewrite (foldM_ext _ _ (update_column collapse_text)
             (fun x y => OK (collapse_no_service x y))).
  2:{ intros x y. unfold collapse_no_service, update_column, collapse_text.
      destruct (dict_get y x); reflexivity. }
  now rewrite foldM_pure.
Qed.

Lemma convert_stages (d : DataFrame) :
  _convert_data_types d
  = do d1 <- update_column coerce_total d "TotalCharges";
    update_column astype_int d1 "SeniorCitizen".
Proof.
  unfold _convert_data_types, update_column, coerce_total.
  destruct (dict_get "TotalCharges" d); reflexivity.
Qed.

(** The six passes over the columns that make up the first three steps. *)
Lemma before_duplicates_stages (d d3 : DataFrame) :
  before_duplicates d = OK d3 ->
  exists da d1 db d2 dc,
    foldM (update_column impute_median) numeric_columns d = OK da /\
    foldM (update_column impute_mode) categorical_columns da = OK d1 /\
    foldM (update_column strip_text) (categorical_columns ++ ["Churn"]) d1
      = OK db /\
    foldM (update_column collapse_text) service_columns db = OK d2 /\
    foldM (update_column coerce_total) ["TotalCharges"] d2 = OK dc /\
    foldM (update_column astype_int) ["SeniorCitizen"] dc = OK d3.
Proof.
  unfold before_duplicates. rewrite handle_missing_stages.
  destruct (foldM (update_column impute_median) numeric_columns d)
    as [da|] eqn:Ea; cbn [bind]; [|discriminate].
  destruct (foldM (update_column impute_mode) categorical_columns da)
    as [d1|] eqn:E1; cbn [bind]; [|discriminate].
  pose proof (handle_inconsistent_stages d1) as Hinc.
  destruct (foldM (update_column strip_text) (categorical_columns ++ ["Churn"]) d1)
    as [db|] eqn:Eb; cbn [bind] in Hinc; [|discriminate].
  rewrite convert_stages.
  destruct (update_column coerce_total (_handle_inconsistent_values d1)
              "TotalCharges") as [dc|] eqn:Ec; cbn [bind]; [|discriminate].
  intro H3.
  exists da, d1, db, (_handle_inconsistent_values d1), dc.
  repeat split; auto.
  - cbn [foldM bind]. now rewrite Ec.
  - cbn [foldM bind]. now rewrite H3.
Qed.

Lemma before_duplicates_get (d d3 : DataFrame) (c : string) (s3 : Series) :
  before_duplicates d = OK d3 ->
  dict_get c d3 = Some s3 ->
  exists s0, dict_get c d = Some s0 /\ clean_column c s0 = OK s3.
Proof.
  intros Hrun Hget.
  destruct (before_duplicates_stages d d3 Hrun)
    as (da & d1 & db & d2 & dc & Ha & H1 & Hb & H2 & Hc & H3).
  assert (Hn1 : NoDup ["TotalCharges"]) by nodup_strings.
  assert (Hn2 : NoDup ["SeniorCitizen"]) by nodup_strings.
  destruct (stage_get _ _ Hn2 _ _ _ _ H3 Hget) as (sc & Hgc & Hsc).
  destruct (stage_get _ _ Hn1 _ _ _ _ Hc Hgc) as (s2 & Hg2 & Hs2).
  destruct (stage_get _ _ service_columns_nodup _ _ _ _ H2 Hg2) as (sb & Hgb & Hsb).
  destruct (stage_get _ _ text_columns_nodup _ _ _ _ Hb Hgb) as (s1 & Hg1 & Hs1).
  destruct (stage_get _ _ categorical_columns_nodup _ _ _ _ H1 Hg1) as (sa & Hga & Hsa).
  destruct (stage_get _ _ numeric_columns_nodup _ _ _ _ Ha Hga) as (s0 & Hg0 & Hs0).
  exists s0. split; [assumption|].
  unfold clean_column. rewrite Hs0. cbn [bind]. rewrite Hsa. cbn [bind].
  unfold strip_text, collapse_text, coerce_total in *.
  destruct (mem c (categorical_columns ++ ["Churn"])); injection Hs1 as <-;
  destruct (mem c service_columns); injection Hsb as <-;
  destruct (mem c ["TotalCharges"]); injection Hs2 as <-;
  exact Hsc.
Qed.

Lemma before_duplicates_layout (d d3 : DataFrame) :
  before_duplicates d = OK d3 -> layout d3 = layout d.
Proof.
  intro Hrun.
  destruct (before_duplicates_stages d d3 Hrun)
    as (da & d1 & db & d2 & dc & Ha & H1 & Hb & H2 & Hc & H3).
  assert (Hfill : forall v s, length (cells (fillna v s)) = length (cells s))
    by (intros; unfold fillna; simpl; apply length_map).
  rewrite (stage_layout astype_int) with (2 := H3).
  2:{ intros s s'. unfold astype_int.
      destruct (mapM _ (cells s)) as [cs|] eqn:E; simpl; [|discriminate].
      intros [= <-]. simpl. clear - E. revert cs E.
      induction (cells s) as [|c l IH]; intros cs E; simpl in E.
      - now injection E as <-.
      - destruct c as [q|x|]; simpl in E;
          try destruct (int_of_str x); simpl in E; try discriminate;
          destruct (mapM _ l) as [bs|] eqn:El; simpl in E; try discriminate;
          injection E as <-; simpl; f_equal; now apply IH. }
  rewrite (stage_layout coerce_total) with (2 := Hc).
  2:{ intros s s' [= <-]. rewrite Hfill. simpl. apply length_map. }
  rewrite (stage_layout collapse_text) with (2 := H2).
  2:{ intros s s' [= <-]. simpl. apply length_map. }
  rewrite (stage_layout strip_text) with (2 := Hb).
  2:{ intros s s' [= <-]. simpl. rewrite !length_map. reflexivity. }
  rewrite (stage_layout impute_mode) with (2 := H1).
  2:{ intros s s'. unfold impute_mode. destruct (isnull_any s).
      - destruct (mode_first s); simpl; [|discriminate].
        intros [= <-]. apply Hfill.
      - now intros [= <-]. }
  rewrite (stage_layout impute_median) with (2 := Ha).
  2:{ intros s s'. unfold impute_median. destruct (isnull_any s).
      - destruct (median s); simpl; [|discriminate].
        intros [= <-]. apply Hfill.
      - now intros [= <-]. }
  reflexivity.
Qed.

(** *** Stripping twice is stripping once *)

Lemma rstrip_cons (c : ascii) (r : string) :
  rstrip (String c r)
  = match rstrip r with
    | EmptyString => if is_space c then EmptyString else String c EmptyString
    | String c' t => String c (String c' t)
    end.
Proof. reflexivity. Qed.

Lemma rstrip_idempotent (x : string) : rstrip (rstrip x) = rstrip x.
Proof.
  induction x as [|c r IH]; [reflexivity|].
  rewrite rstrip_cons. destruct (rstrip r) as [|c' t] eqn:E.
  - destruct (is_space c) eqn:Hc; [reflexivity|].
    rewrite rstrip_cons. cbn [rstrip]. now rewrite Hc.
  - rewrite rstrip_cons. now rewrite IH.
Qed.

Lemma lstrip_head (x : string) :
  lstrip x = EmptyString \/
  exists c r, lstrip x = String c r /\ is_space c = false.
Proof.
  induction x as [|c r IH]; [now left|].
  cbn [lstrip]. destruct (is_space c) eqn:Hc; [exact IH|].
  right. now exists c, r.
Qed.

Lemma strip_idempotent (x : string) : strip (strip x) = strip x.
Proof.
  unfold strip.
  destruct (lstrip_head x) as [-> | (c & r & -> & Hc)]; [reflexivity|].
  assert (Hhead : exists r', rstrip (String c r) = String c r').
  { rewrite rstrip_cons. destruct (rstrip r) as [|c' t].
    - rewrite Hc. now exists EmptyString.
    - now exists (String c' t). }
  destruct Hhead as (r' & Hr'). rewrite Hr' at 1.
  cbn [lstrip]. rewrite Hc. rewrite <- Hr'. apply rstrip_idempotent.
Qed.

(** *** What each rewriting gives *)

Lemma fillna_nan (s : Series) : fillna VNaN s = s.
Proof.
  destruct s as [dt cs]. unfold fillna. cbn [dtype_of cells]. f_equal.
  induction cs as [|c cs IH]; [reflexivity|].
  cbn [map]. rewrite IH. now destruct c.
Qed.

Lemma isnull_any_false (s : Series) :
  isnull_any s = false <-> no_null s.
Proof.
  unfold isnull_any, no_null. induction (cells s) as [|c cs IH]; cbn [existsb].
  - split; auto.
  - rewrite orb_false_iff, IH. split.
    + intros [Hc Hcs]. constructor; auto. now destruct c.
    + intro H. inversion H; subst. split; auto. now destruct c.
Qed.

Lemma fillna_no_null (v : value) (s : Series) :
  no_null s -> fillna v s = s.
Proof.
  destruct s as [dt cs]. unfold fillna, no_null. cbn [dtype_of cells].
  intro H. f_equal. induction H as [|c cs Hc _ IH]; [reflexivity|].
  cbn [map]. rewrite IH. now destruct c.
Qed.

Lemma numbers_of_all_null (cs : list value) :
  Forall (fun c => c = VNaN) cs -> numbers_of cs = OK [].
Proof.
  induction 1 as [|c cs -> _ IH]; [reflexivity|]. exact IH.
Qed.

Lemma numbers_of_nil (cs : list value) :
  numbers_of cs = OK [] -> Forall (fun c => c = VNaN) cs.
Proof.
  induction cs as [|c cs IH]; [constructor|].
  destruct c as [q|x|]; cbn [numbers_of].
  - destruct (numbers_of cs); cbn [bind]; discriminate.
  - discriminate.
  - intro H. constructor; auto.
Qed.

Lemma insert_sorted_length (x : Q) (l : list Q) :
  length (insert_sorted x l) = S (length l).
Proof.
  induction l as [|y l IH]; [reflexivity|].
  cbn [insert_sorted]. destruct (Qle_bool x y); cbn [length]; auto.
Qed.

Lemma sort_Q_length (l : list Q) : length (sort_Q l) = length l.
Proof.
  induction l as [|x l IH]; [reflexivity|].
  unfold sort_Q in *. cbn [fold_right]. rewrite insert_sorted_length.
  now rewrite IH.
Qed.

Lemma impute_median_fixed (s : Series) :
  no_null s \/ all_null s -> impute_median s = OK s.
Proof.
  unfold impute_median. intros [Hn | Ha].
  - apply isnull_any_false in Hn. now rewrite Hn.
  - destruct (isnull_any s); [|reflexivity].
    unfold median. rewrite (numbers_of_all_null _ Ha).
    cbn. now rewrite fillna_nan.
Qed.

Lemma fillna_number_no_null (q : Q) (s : Series) : no_null (fillna (VNum q) s).
Proof.
  unfold no_null, fillna. cbn [cells].
  induction (cells s) as [|c cs IH]; cbn [map]; constructor; auto.
  destruct c; cbn; discriminate.
Qed.

Lemma impute_median_ok (s s' : Series) :
  impute_median s = OK s' -> no_null s' \/ all_null s'.
Proof.
  unfold impute_median. destruct (isnull_any s) eqn:En.
  - unfold median.
    destruct (numbers_of (cells s)) as [xs|] eqn:Ex; cbn [bind]; [|discriminate].
    destruct (length (sort_Q xs) =? 0) eqn:E0.
    + cbn [bind]. intros [= <-]. right. rewrite fillna_nan.
      apply Nat.eqb_eq in E0. rewrite sort_Q_length in E0.
      destruct xs; [|discriminate]. now apply numbers_of_nil.
    + destruct (Nat.odd (length (sort_Q xs))); cbn [bind]; intros [= <-];
        left; apply fillna_number_no_null.
  - intros [= <-]. left. now apply isnull_any_false.
Qed.

Lemma strip_text_stripped (s : Series) : stripped_text (str_strip (astype_str s)).
Proof.
  unfold stripped_text, str_strip, astype_str. cbn [dtype_of cells].
  split; [reflexivity|].
  induction (cells s) as [|c cs IH]; cbn [map]; constructor; auto.
  destruct c as [q|x|]; eexists; (split; [reflexivity|]);
    apply strip_idempotent.
Qed.

Lemma stripped_text_no_null (s : Series) : stripped_text s -> no_null s.
Proof.
  intros [_ H]. unfold no_null.
  eapply Forall_impl; [|exact H]. intros c (x & -> & _). discriminate.
Qed.

Lemma strip_text_fixed (s : Series) :
  stripped_text s -> strip_text s = OK s.
Proof.
  destruct s as [dt cs]. unfold stripped_text, strip_text, str_strip, astype_str.
  cbn [dtype_of cells]. intros [-> H]. do 2 f_equal.
  induction H as [|c cs (x & -> & Hx) _ IH]; [reflexivity|].
  cbn [map]. rewrite IH. now rewrite Hx.
Qed.

Lemma collapse_stripped (s : Series) :
  stripped_text s -> stripped_text (collapse s).
Proof.
  unfold stripped_text, collapse, replace_values. cbn [dtype_of cells].
  intros [Hd H]. split; [assumption|].
  induction H as [|c cs (x & -> & Hx) _ IH]; cbn [map]; constructor; auto.
  destruct (existsb (String.eqb x) _).
  - exists "No". split; reflexivity.
  - exists x. split; auto.
Qed.

Lemma collapse_not_collapsible (s : Series) : not_collapsible (collapse s).
Proof.
  unfold not_collapsible, collapse, replace_values. cbn [cells].
  induction (cells s) as [|c cs IH]; cbn [map]; constructor; auto.
  destruct c as [q|x|]; try (split; discriminate).
  cbn [existsb].
  destruct (String.eqb x "No internet service") eqn:E1; cbn [orb].
  - split; discriminate.
  - destruct (String.eqb x "No phone service") eqn:E2; cbn [orb].
    + split; discriminate.
    + apply String.eqb_neq in E1, E2. split; congruence.
Qed.

Lemma collapse_text_fixed (s : Series) :
  not_collapsible s -> collapse_text s = OK s.
Proof.
  destruct s as [dt cs].
  unfold not_collapsible, collapse_text, collapse, replace_values.
  cbn [dtype_of cells]. intro H. do 2 f_equal.
  induction H as [|c cs [H1 H2] _ IH]; [reflexivity|].
  cbn [map]. rewrite IH. destruct c as [q|x|]; try reflexivity.
  cbn [existsb].
  assert (E1 : String.eqb x "No internet service" = false)
    by (apply String.eqb_neq; congruence).
  assert (E2 : String.eqb x "No phone service" = false)
    by (apply String.eqb_neq; congruence).
  now rewrite E1, E2.
Qed.

Lemma coerce_total_numbers (s : Series) :
  numbers (fillna (VNum 0) (to_numeric_coerce s)).
Proof.
  unfold numbers, fillna, to_numeric_coerce. cbn [dtype_of cells]. split.
  - destruct (dtype_of s); try discriminate.
    destruct (forallb _ _); discriminate.
  - induction (cells s) as [|c cs IH]; cbn [map]; constructor; auto.
    destruct c as [q|x|]; cbn; eauto.
    destruct (to_numeric_str x); cbn; eauto.
Qed.

Lemma numbers_no_null (s : Series) : numbers s -> no_null s.
Proof.
  intros [_ H]. unfold no_null.
  eapply Forall_impl; [|exact H]. intros c (q & ->). discriminate.
Qed.

Lemma coerce_total_fixed (s : Series) :
  numbers s -> coerce_total s = OK s.
Proof.
  intro Hn. unfold coerce_total.
  assert (Hto : to_numeric_coerce s = s).
  { destruct s as [dt cs]. destruct Hn as [Hd H].
    unfold to_numeric_coerce. cbn [dtype_of cells] in *.
    assert (Hmap : map (fun c => match c with
                                 | VStr x => match to_numeric_str x with
                                             | Some q => VNum q
                                             | None => VNaN
                                             end
                                 | _ => c
                                 end) cs = cs).
    { induction H as [|c cs (q & ->) _ IH]; [reflexivity|].
      cbn [map]. now rewrite IH. }
    rewrite Hmap. destruct dt; congruence. }
  rewrite Hto. f_equal. apply fillna_no_null. now apply numbers_no_null.
Qed.

Lemma truncate_whole (z : Z) : truncate (inject_Z z) = z.
Proof. unfold truncate. cbn. apply Z.quot_1_r. Qed.

Lemma astype_int_whole (s s' : Series) :
  astype_int s = OK s' -> whole_numbers s'.
Proof.
  unfold astype_int, whole_numbers.
  destruct (mapM _ (cells s)) as [cs|] eqn:E; cbn [bind]; [|discriminate].
  intros [= <-]. cbn [dtype_of cells]. split; [reflexivity|].
  revert cs E. induction (cells s) as [|c l IH]; intros cs E; cbn [mapM] in E.
  - injection E as <-. constructor.
  - destruct c as [q|x|]; try destruct (int_of_str x); cbn [bind] in E;
      try discriminate;
      destruct (mapM _ l) as [bs|] eqn:El; cbn [bind] in E; try discriminate;
      injection E as <-; constructor; eauto.
Qed.

Lemma astype_int_fixed (s : Series) :
  whole_numbers s -> astype_int s = OK s.
Proof.
  destruct s as [dt cs]. unfold whole_numbers, astype_int.
  cbn [dtype_of cells]. intros [-> H].
  assert (Hmap : mapM (fun c =>
                       match c with
                       | VNum q => OK (VNum (inject_Z (truncate q)))
                       | VStr x =>
                           match int_of_str x with
                           | Some z => OK (VNum (inject_Z z))
                           | None => Raise (ValueError
                               ("invalid literal for int() with base 10: " ++ x))
                           end
                       | VNaN => Raise (ValueError
                                   "cannot convert float NaN to integer")
                       end) cs = OK cs).
  { induction H as [|c cs (z & ->) _ IH]; [reflexivity|].
    cbn [mapM bind]. rewrite IH. cbn [bind]. now rewrite truncate_whole. }
  rewrite Hmap. reflexivity.
Qed.

(** *** The columns after the first three steps *)

Lemma clean_column_cleaned (c : string) (s0 s3 : Series) :
  clean_column c s0 = OK s3 -> cleaned_column c s3.
Proof.
  intro Hrun. unfold cleaned_column, clean_column in *.
  split; [|split; [|split; [|split]]]; intro Hc; each_column Hc;
    compute_mems Hrun; run_imputations Hrun;
    try (injection Hrun as <-).
  all: try (eapply impute_median_ok; eassumption).
  all: try (left; apply numbers_no_null, coerce_total_numbers).
  all: try apply strip_text_stripped.
  all: try (apply collapse_stripped, strip_text_stripped).
  all: try apply collapse_not_collapsible.
  all: try apply coerce_total_numbers.
  all: try (eapply astype_int_whole; eassumption).
Qed.

Lemma before_duplicates_cleaned (d d3 : DataFrame) :
  before_duplicates d = OK d3 -> cleaned d3.
Proof.
  intros Hrun c s3 Hget.
  destruct (before_duplicates_get d d3 c s3 Hrun Hget) as (s0 & _ & Hs0).
  eapply clean_column_cleaned; eauto.
Qed.

Lemma before_duplicates_fixed (d : DataFrame) :
  cleaned d -> before_duplicates d = OK d.
Proof.
  intro Hd. unfold before_duplicates.
  assert (Hin : forall c l, In c l -> mem c l = true)
    by (intros; now apply mem_In).
  rewrite handle_missing_stages.
  rewrite stage_id.
  2:{ intros c s Hc Hget. apply impute_median_fixed.
      apply (Hd c s Hget), Hin, Hc. }
  cbn [bind]. rewrite stage_id.
  2:{ intros c s Hc Hget. unfold impute_mode.
      assert (Hs : stripped_text s).
      { apply (Hd c s Hget), Hin, in_or_app. now left. }
      apply stripped_text_no_null, isnull_any_false in Hs. now rewrite Hs. }
  cbn [bind].
  pose proof (handle_inconsistent_stages d) as Hinc.
  rewrite stage_id in Hinc.
  2:{ intros c s Hc Hget. apply strip_text_fixed.
      apply (Hd c s Hget), Hin, Hc. }
  cbn [bind] in Hinc. rewrite stage_id in Hinc.
  2:{ intros c s Hc Hget. apply collapse_text_fixed.
      apply (Hd c s Hget), Hin, Hc. }
  injection Hinc as ->.
  rewrite convert_stages.
  rewrite update_column_id.
  2:{ intros s Hget. apply coerce_total_fixed.
      now apply (Hd "TotalCharges" s Hget). }
  cbn [bind]. apply update_column_id.
  intros s Hget. apply astype_int_fixed.
  now apply (Hd "SeniorCitizen" s Hget).
Qed.

End Steps.

End CleanerFacts.

(** ** Frames: rows taken by position, duplicates *)

Module FrameFacts.

Lemma map_nth_seq (A : Type) (l : list A) (x : A) :
  map (fun i => nth i l x) (seq 0 (length l)) = l.
Proof.
  induction l as [|a l IH]; [reflexivity|].
  cbn [length seq map nth]. f_equal.
  rewrite <- seq_shift, map_map. exact IH.
Qed.

Lemma rectangular_get (d : DataFrame) (c : string) (s : Series) :
  rectangular d -> dict_get c d = Some s -> length (cells s) = n_rows d.
Proof.
  intros Hr Hget. unfold rectangular in Hr. rewrite Forall_forall in Hr.
  exact (Hr (c, s) (dict_get_In _ _ _ _ Hget)).
Qed.

Lemma layout_n_rows (d d' : DataFrame) :
  layout d' = layout d -> n_rows d' = n_rows d.
Proof.
  destruct d as [|[c s] d], d' as [|[c' s'] d']; cbn; congruence.
Qed.

Lemma layout_rectangular (d d' : DataFrame) :
  layout d' = layout d -> rectangular d -> rectangular d'.
Proof.
  intros Hl Hr. unfold rectangular in *.
  rewrite (layout_n_rows _ _ Hl). generalize (n_rows d) Hr. clear Hr.
  intros n Hr. revert d' Hl.
  induction Hr as [|[c s] d Hs _ IH]; intros [|[c' s'] d'] Hl; cbn in Hl;
    try discriminate; constructor.
  - cbn in *. congruence.
  - apply IH. now injection Hl.
Qed.

Lemma take_rows_get (idx : list nat) (d : DataFrame) (c : string) :
  dict_get c (take_rows idx d) = option_map (take idx) (dict_get c d).
Proof. unfold take_rows. apply dict_get_map. Qed.

Lemma take_length (idx : list nat) (s : Series) :
  length (cells (take idx s)) = length idx.
Proof. unfold take. cbn [cells]. apply length_map. Qed.

Lemma take_rows_n_rows (idx : list nat) (d : DataFrame) :
  d <> [] -> n_rows (take_rows idx d) = length idx.
Proof.
  destruct d as [|[c s] d]; [congruence|]. intros _. cbn. apply length_map.
Qed.

Lemma take_rows_rectangular (idx : list nat) (d : DataFrame) :
  rectangular (take_rows idx d).
Proof.
  unfold rectangular. destruct d as [|c0 d0] eqn:Ed; [constructor|].
  rewrite take_rows_n_rows by discriminate.
  unfold take_rows. apply Forall_map, Forall_forall. intros c _.
  cbn [snd]. apply take_length.
Qed.

Lemma take_rows_all (d : DataFrame) :
  rectangular d -> take_rows (seq 0 (n_rows d)) d = d.
Proof.
  unfold rectangular, take_rows. generalize (n_rows d). intros n Hr.
  induction Hr as [|[c [dt cs]] d Hc _ IH]; [reflexivity|].
  cbn [map fst snd]. rewrite IH. cbn [cells snd] in Hc.
  unfold take. cbn [dtype_of cells]. subst n. now rewrite map_nth_seq.
Qed.

Lemma take_Forall (P : value -> Prop) (idx : list nat) (s : Series) :
  Forall P (cells s) ->
  (forall i, In i idx -> i < length (cells s)) ->
  Forall P (cells (take idx s)).
Proof.
  intros HP Hidx. unfold take. cbn [cells].
  apply Forall_map, Forall_forall. intros i Hi.
  rewrite Forall_forall in HP. apply HP, nth_In, Hidx, Hi.
Qed.

Lemma filter_seq_increasing (p : nat -> bool) (a n : nat) :
  increasing (filter p (seq a n)).
Proof.
  revert a. induction n as [|n IH]; intro a.
  - intros j i _ Hi. cbn in Hi. lia.
  - cbn [seq filter].
    assert (Hge : forall x, In x (filter p (seq (S a) n)) -> a < x).
    { intros x Hx. apply filter_In in Hx. destruct Hx as [Hx _].
      apply in_seq in Hx. lia. }
    destruct (p a); [|apply IH].
    intros j i Hji Hi. cbn [length] in Hi.
    destruct i as [|i]; [lia|]. cbn [nth].
    destruct j as [|j].
    + apply Hge, nth_In. lia.
    + apply IH; lia.
Qed.

Lemma nth_take (idx : list nat) (s : Series) (j : nat) :
  j < length idx ->
  nth j (cells (take idx s)) VNaN = nth (nth j idx 0) (cells s) VNaN.
Proof.
  intro Hj. unfold take. cbn [cells].
  rewrite (nth_indep _ VNaN (nth 0 (cells s) VNaN))
    by (now rewrite length_map).
  apply (map_nth (fun i => nth i (cells s) VNaN)).
Qed.

Lemma row_eqb_take (idx : list nat) (d : DataFrame) (j i : nat) :
  j < length idx -> i < length idx ->
  row_eqb (take_rows idx d) j i = row_eqb d (nth j idx 0) (nth i idx 0).
Proof.
  intros Hj Hi. unfold row_eqb, take_rows.
  induction d as [|c d IH]; [reflexivity|].
  cbn [map forallb snd]. rewrite IH. now rewrite !nth_take.
Qed.

(** After [drop_duplicates] no row repeats an earlier one. *)
Lemma drop_duplicates_no_duplicates (d : DataFrame) :
  no_duplicates (drop_duplicates d).
Proof.
  unfold no_duplicates, drop_duplicates.
  set (K := filter (fun i => negb (duplicated d i)) (seq 0 (n_rows d))).
  destruct d as [|c0 d0] eqn:Ed; [cbn; intros; lia|]. rewrite <- Ed in *.
  rewrite take_rows_n_rows by (subst d; discriminate).
  intros i Hi.
  destruct (duplicated (take_rows K d) i) eqn:Edup; [exfalso|reflexivity].
  unfold duplicated in Edup. apply existsb_exists in Edup.
  destruct Edup as (j & Hj & Heq). apply in_seq in Hj.
  rewrite row_eqb_take in Heq by lia.
  assert (Hlt : nth j K 0 < nth i K 0)
    by (unfold K; apply filter_seq_increasing; fold K; lia).
  assert (Hin : In (nth i K 0) K) by (apply nth_In; lia).
  apply filter_In in Hin. destruct Hin as [_ Hkeep].
  apply negb_true_iff in Hkeep.
  assert (Hdup : duplicated d (nth i K 0) = true).
  { unfold duplicated. apply existsb_exists. exists (nth j K 0).
    split; [apply in_seq; lia | exact Heq]. }
  congruence.
Qed.

(** [drop_duplicates] changes nothing when no row repeats an earlier one. *)
Lemma drop_duplicates_fixed (d : DataFrame) :
  rectangular d -> no_duplicates d -> drop_duplicates d = d.
Proof.
  intros Hr Hn. unfold drop_duplicates.
  rewrite forallb_filter_id; [now apply take_rows_all|].
  apply forallb_forall. intros i Hi. apply in_seq in Hi.
  apply negb_true_iff, Hn. lia.
Qed.

Lemma drop_duplicates_indices (d : DataFrame) (i : nat) :
  In i (filter (fun i => negb (duplicated d i)) (seq 0 (n_rows d))) ->
  i < n_rows d.
Proof.
  intro H. apply filter_In in H. destruct H as [H _].
  apply in_seq in H. lia.
Qed.

End FrameFacts.

(** ** The cleaner as a whole *)

Module CleanerTheorems.
Import Cleaner CleanerFacts FrameFacts.

Lemma dict_get_keys (V : Type) (k : string) (d : dict V) :
  In k (dict_keys d) <-> exists v, dict_get k d = Some v.
Proof.
  unfold dict_keys. induction d as [|[k' v'] d IH]; cbn [map dict_get In fst].
  - split; [contradiction | intros (v & H); discriminate].
  - destruct (String.eqb k k') eqn:E.
    + apply String.eqb_eq in E; subst. split; eauto.
    + apply String.eqb_neq in E. rewrite <- IH. intuition congruence.
Qed.

Lemma layout_keys (d d' : DataFrame) :
  layout d' = layout d -> dict_keys d' = dict_keys d.
Proof.
  intro H. unfold dict_keys.
  assert (Hk : forall x : DataFrame, map fst x = map fst (layout x)).
  { intro x. unfold layout. rewrite map_map. reflexivity. }
  now rewrite (Hk d), (Hk d'), H.
Qed.

Lemma cleaned_column_take (c : string) (s : Series) (idx : list nat) :
  (forall i, In i idx -> i < length (cells s)) ->
  cleaned_column c s -> cleaned_column c (take idx s).
Proof.
  intros Hidx (H1 & H2 & H3 & H4 & H5).
  unfold cleaned_column, no_null, all_null, stripped_text, not_collapsible,
    numbers, whole_numbers in *.
  change (dtype_of (take idx s)) with (dtype_of s).
  split; [|split; [|split; [|split]]]; intro Hc.
  - destruct (H1 Hc) as [H | H]; [left | right]; apply take_Forall; auto.
  - destruct (H2 Hc) as [Hd H]. split; [exact Hd | apply take_Forall; auto].
  - apply take_Forall; auto.
  - destruct (H4 Hc) as [Hd H]. split; [exact Hd | apply take_Forall; auto].
  - destruct (H5 Hc) as [Hd H]. split; [exact Hd | apply take_Forall; auto].
Qed.

Section Whole.
Context {text : TextConversions}.

Lemma clean_steps_eq (d : DataFrame) :
  clean_steps d = do d3 <- before_duplicates d; OK (drop_duplicates d3).
Proof.
  unfold clean_steps, before_duplicates.
  destruct (_handle_missing_values d); cbn [bind]; reflexivity.
Qed.

(** What a cleaned frame is like. *)
Lemma clean_steps_spec (d d' : DataFrame) :
  rectangular d -> clean_steps d = OK d' ->
  cleaned d' /\ rectangular d' /\ no_duplicates d' /\
  dict_keys d' = dict_keys d.
Proof.
  intros Hr. rewrite clean_steps_eq.
  destruct (before_duplicates d) as [d3|] eqn:E3; cbn [bind]; [|discriminate].
  intros [= <-].
  pose proof (before_duplicates_layout d d3 E3) as Hl.
  pose proof (layout_rectangular _ _ Hl Hr) as Hr3.
  pose proof (before_duplicates_cleaned d d3 E3) as Hc3.
  split; [|split; [|split]].
  - intros c s Hget. unfold drop_duplicates in Hget.
    rewrite take_rows_get in Hget.
    destruct (dict_get c d3) as [s3|] eqn:Eg; [|discriminate].
    injection Hget as <-. apply cleaned_column_take; [|now apply (Hc3 c)].
    intros i Hi. rewrite (rectangular_get d3 c s3 Hr3 Eg).
    now apply drop_duplicates_indices.
  - apply take_rows_rectangular.
  - apply drop_duplicates_no_duplicates.
  - rewrite <- (layout_keys _ _ Hl). unfold drop_duplicates, take_rows, dict_keys.
    rewrite map_map. reflexivity.
Qed.

(** Cleaning leaves a cleaned frame as it is. *)
Lemma clean_steps_fixed (d : DataFrame) :
  cleaned d -> rectangular d -> no_duplicates d -> clean_steps d = OK d.
Proof.
  intros Hc Hr Hn. rewrite clean_steps_eq.
  rewrite (before_duplicates_fixed d Hc). cbn [bind].
  now rewrite drop_duplicates_fixed.
Qed.

(** [clean_data], run: the steps are applied to a new object, the last of
    the store. *)
Lemma clean_data_unfold (self : Cleaner.t) (data : ref) (h : heap) :
  clean_data self data h =
  let d0 := nth data h [] in
  match _handle_missing_values d0 with
  | Raise e => (Raise e, h ++ [d0])
  | OK d1 =>
      let d2 := _handle_inconsistent_values d1 in
      match _convert_data_types d2 with
      | Raise e => (Raise e, h ++ [d2])
      | OK d3 =>
          let d4 := _remove_duplicates d3 in
          (OK (mk (Some (mkReport (shape d0) (shape d4) (missing_count d0)
                          (missing_count d4)
                          (Z.of_nat (fst (shape d0)) - Z.of_nat (fst (shape d4)))
                          (Z.of_nat (snd (shape d0)) - Z.of_nat (snd (shape d4))))),
               length h), h ++ [d4])
      end
  end.
Proof.
  unfold clean_data.
  unfold bindH at 1. rewrite copy_run.
  unfold bindH at 1. unfold deref at 1. rewrite nth_fresh.
  unfold bindH at 1. rewrite mutate_fresh.
  cbv zeta.
  destruct (_handle_missing_values (nth data h [])) as [d1|e]; [|reflexivity].
  unfold bindH at 1. rewrite mutate_fresh.
  unfold bindH at 1. rewrite mutate_fresh.
  destruct (_convert_data_types (_handle_inconsistent_values d1)) as [d3|e];
    [|reflexivity].
  unfold bindH at 1. rewrite mutate_fresh.
  unfold bindH at 1. unfold deref at 1. rewrite nth_fresh.
  reflexivity.
Qed.

Lemma clean_data_ok (self self1 : Cleaner.t) (data out : ref) (h h1 : heap) :
  clean_data self data h = (OK (self1, out), h1) ->
  exists d',
    clean_steps (nth data h []) = OK d' /\
    out = length h /\ h1 = h ++ [d'] /\
    cleaning_report self1
    = Some (mkReport (shape (nth data h [])) (shape d')
              (missing_count (nth data h [])) (missing_count d')
              (Z.of_nat (n_rows (nth data h [])) - Z.of_nat (n_rows d'))
              (Z.of_nat (length (nth data h [])) - Z.of_nat (length d'))).
Proof.
  rewrite clean_data_unfold. cbv zeta. unfold clean_steps.
  destruct (_handle_missing_values (nth data h [])) as [d1|];
    cbn [bind]; [|discriminate].
  destruct (_convert_data_types (_handle_inconsistent_values d1)) as [d3|];
    cbn [bind]; [|discriminate].
  intros [= <- <- <-]. eexists.
  split; [reflexivity|]. split; [reflexivity|]. split; reflexivity.
Qed.

Lemma clean_data_run (self : Cleaner.t) (data : ref) (h : heap)
      (d' : DataFrame) :
  clean_steps (nth data h []) = OK d' ->
  exists self1,
    clean_data self data h = (OK (self1, length h), h ++ [d']) /\
    cleaning_report self1
    = Some (mkReport (shape (nth data h [])) (shape d')
              (missing_count (nth data h [])) (missing_count d')
              (Z.of_nat (n_rows (nth data h [])) - Z.of_nat (n_rows d'))
              (Z.of_nat (length (nth data h [])) - Z.of_nat (length d'))).
Proof.
  rewrite clean_data_unfold. cbv zeta. unfold clean_steps.
  destruct (_handle_missing_values (nth data h [])) as [d1|];
    cbn [bind]; [|discriminate].
  destruct (_convert_data_types (_handle_inconsistent_values d1)) as [d3|];
    cbn [bind]; [|discriminate].
  intros [= <-]. eexists. split; reflexivity.
Qed.

(** C6. Cleaning is idempotent: when [clean_data] has returned a dataset,
    [clean_data] applied to that dataset returns a dataset equal to it, and
    its report shows no row removed, the same shape and the same count of
    missing values before and after. *)
Theorem clean_data_idempotent (self self1 : Cleaner.t) (data out1 : ref)
        (h h1 : heap) :
  rectangular (nth data h []) ->
  clean_data self data h = (OK (self1, out1), h1) ->
  exists self2 out2 h2 report,
    clean_data self1 out1 h1 = (OK (self2, out2), h2) /\
    nth out2 h2 [] = nth out1 h1 [] /\
    cleaning_report self2 = Some report /\
    rows_removed report = 0%Z /\
    final_shape report = initial_shape report /\
    final_missing report = initial_missing report.
Proof.
  intros Hr Hrun.
  destruct (clean_data_ok _ _ _ _ _ _ Hrun) as (d1 & Hsteps & -> & -> & _).
  destruct (clean_steps_spec _ _ Hr Hsteps) as (Hc & Hr1 & Hn & _).
  pose proof (clean_steps_fixed d1 Hc Hr1 Hn) as Hfix.
  assert (Hd1 : nth (length h) (h ++ [d1]) [] = d1) by apply nth_fresh.
  rewrite <- Hd1 in Hfix at 1.
  destruct (clean_data_run self1 _ _ _ Hfix) as (self2 & Hrun2 & Hrep).
  rewrite Hd1 in Hrep.
  eexists self2, _, _, _. split; [exact Hrun2|].
  split; [|split; [exact Hrep|]].
  - rewrite Hd1. apply nth_fresh.
  - cbn [rows_removed final_shape initial_shape final_missing
         initial_missing].
    split; [lia|]. split; reflexivity.
Qed.



End Whole.

Lemma clean_data_idempotent_witness :
  exists self2 out2 h2 report,
    clean_data (text := whole_number_text) sample_cleaner 1 sample_heap = (OK (self2, out2), h2) /\
    nth out2 h2 [] = nth 1 sample_heap [] /\
    cleaning_report self2 = Some report /\
    rows_removed report = 0%Z /\
    final_shape report = initial_shape report /\
    final_missing report = initial_missing report.
Proof.
  apply (clean_data_idempotent (text := whole_number_text) Cleaner.init sample_cleaner 0 1 [raw_sample]
           sample_heap).
  - repeat constructor.
  - vm_compute. reflexivity.
Defined.


End CleanerTheorems.

(** ** The engineer, run on the store *)

Module EngineerFacts.
Import Engineer.

Lemma mutate_with_fresh (A : Type) (f : DataFrame -> result (A * DataFrame))
      (h : heap) (data : DataFrame) :
  mutate_with f (length h) (h ++ [data])
  = match f data with
    | OK r => (OK (fst r, length h), h ++ [snd r])
    | Raise e => (Raise e, h ++ [data])
    end.
Proof.
  unfold mutate_with, bindH, deref, liftH, store, retH.
  rewrite nth_fresh. destruct (f data); [|reflexivity].
  now rewrite replace_nth_fresh.
Qed.

Lemma select_final_fresh (h : heap) (data : DataFrame) :
  _select_final_features (length h) (h ++ [data])
  = (OK (length h + 2),
     h ++ [data; drop_columns (columns_to_drop data) data;
           keep_numeric (drop_columns (columns_to_drop data) data)]).
Proof.
  unfold _select_final_features, bindH, deref, new_frame.
  rewrite !nth_fresh. rewrite !length_app. cbn [length].
  rewrite <- !app_assoc. cbn [app].
  f_equal. f_equal. lia.
Qed.

Section Run.
Context {lib : StandardScaler}.

(** [engineer_features], run: the steps are applied to a new object; the
    projection adds two more. *)
Lemma engineer_features_unfold (self : t) (data : ref) (h : heap) :
  engineer_features self data h =
  let d0 := nth data h [] in
  match _create_derived_features d0 with
  | Raise e => (Raise e, h ++ [d0])
  | OK d1 =>
      match _encode_categorical_features (label_encoders self) d1 with
      | Raise e => (Raise e, h ++ [d1])
      | OK (encoders, d2) =>
          match _normalize_numeric_features (scaler self) d2 with
          | Raise e => (Raise e, h ++ [d2])
          | OK (stats, d3) =>
              let d4 := drop_columns (columns_to_drop d3) d3 in
              let d5 := keep_numeric d4 in
              (OK (mk encoders stats (Some (describe d5)), length h + 2),
               h ++ [d3; d4; d5])
          end
      end
  end.
Proof.
  unfold engineer_features.
  unfold bindH at 1. rewrite copy_run.
  unfold bindH at 1. rewrite mutate_fresh. cbv zeta.
  destruct (_create_derived_features (nth data h [])) as [d1|e]; [|reflexivity].
  unfold bindH at 1. rewrite mutate_with_fresh.
  destruct (_encode_categorical_features (label_encoders self) d1)
    as [[encoders d2]|e]; [|reflexivity].
  cbn [fst snd].
  unfold bindH at 1. rewrite mutate_with_fresh.
  destruct (_normalize_numeric_features (scaler self) d2)
    as [[stats d3]|e]; [|reflexivity].
  cbn [fst snd].
  unfold bindH at 1. rewrite select_final_fresh.
  unfold bindH at 1. unfold deref at 1.
  replace (nth (length h + 2)
             (h ++ [d3; drop_columns (columns_to_drop d3) d3;
                    keep_numeric (drop_columns (columns_to_drop d3) d3)]) [])
    with (keep_numeric (drop_columns (columns_to_drop d3) d3)).
  - reflexivity.
  - rewrite app_nth2 by lia.
    replace (length h + 2 - length h) with 2 by lia. reflexivity.
Qed.

End Run.

Lemma preserved_app (h ext : heap) : preserved h (h ++ ext).
Proof. intros l Hl. now apply app_nth1. Qed.

End EngineerFacts.

(** ** Neither component changes the dataset it is given *)

Module FrameEffects.
Import EngineerFacts CleanerTheorems.

(** C10. Cleaning and feature derivation work on a copy: whatever they do,
    return or raise, every object that existed before the call, the
    argument among them, has the value it had, and the dataset returned is
    an object that did not exist before the call. *)
Theorem arguments_not_mutated {text : TextConversions} {lib : StandardScaler}
        (cleaner : Cleaner.t) (engineer : Engineer.t) (data : ref) (h : heap) :
  data < length h ->
  (forall res h',
     Cleaner.clean_data cleaner data h = (res, h') ->
     preserved h h' /\ nth data h' [] = nth data h [] /\
     forall self out, res = OK (self, out) -> fresh h h' out /\ out <> data) /\
  (forall res h',
     Engineer.engineer_features engineer data h = (res, h') ->
     preserved h h' /\ nth data h' [] = nth data h [] /\
     forall self out, res = OK (self, out) -> fresh h h' out /\ out <> data).
Proof.
  intro Hdata.
  split; intros res h' Hrun.
  - rewrite clean_data_unfold in Hrun. cbv zeta in Hrun.
    destruct (Cleaner._handle_missing_values (nth data h [])) as [d1|e].
    2:{ injection Hrun as <- <-. split; [apply preserved_app|].
        split; [now apply app_nth1 | discriminate]. }
    destruct (Cleaner._convert_data_types
                (Cleaner._handle_inconsistent_values d1)) as [d3|e].
    2:{ injection Hrun as <- <-. split; [apply preserved_app|].
        split; [now apply app_nth1 | discriminate]. }
    injection Hrun as <- <-. split; [apply preserved_app|].
    split; [now apply app_nth1|].
    intros self out [= <- <-]. unfold fresh. rewrite length_app. cbn [length].
    lia.
  - rewrite engineer_features_unfold in Hrun. cbv zeta in Hrun.
    destruct (Engineer._create_derived_features (nth data h [])) as [d1|e].
    2:{ injection Hrun as <- <-. split; [apply preserved_app|].
        split; [now apply app_nth1 | discriminate]. }
    destruct (Engineer._encode_categorical_features
                (Engineer.label_encoders engineer) d1) as [[encoders d2]|e].
    2:{ injection Hrun as <- <-. split; [apply preserved_app|].
        split; [now apply app_nth1 | discriminate]. }
    destruct (Engineer._normalize_numeric_features
                (Engineer.scaler engineer) d2) as [[stats d3]|e].
    2:{ injection Hrun as <- <-. split; [apply preserved_app|].
        split; [now apply app_nth1 | discriminate]. }
    injection Hrun as <- <-. split; [apply preserved_app|].
    split; [now apply app_nth1|].
    intros self out [= <- <-]. unfold fresh. rewrite length_app. cbn [length].
    lia.
Qed.

Lemma arguments_not_mutated_witness :
  (forall res h',
     Cleaner.clean_data (text := whole_number_text) Cleaner.init 0 [raw_sample]
     = (res, h') ->
     preserved [raw_sample] h' /\ nth 0 h' [] = nth 0 [raw_sample] [] /\
     forall self out, res = OK (self, out) ->
                      fresh [raw_sample] h' out /\ out <> 0) /\
  (forall res h',
     Engineer.engineer_features (lib := centring_scaler) Engineer.init 0
       [raw_sample] = (res, h') ->
     preserved [raw_sample] h' /\ nth 0 h' [] = nth 0 [raw_sample] [] /\
     forall self out, res = OK (self, out) ->
                      fresh [raw_sample] h' out /\ out <> 0).
Proof.
  apply (arguments_not_mutated (text := whole_number_text)
           (lib := centring_scaler) Cleaner.init Engineer.init 0 [raw_sample]).
  cbn. lia.
Defined.

End FrameEffects.

(** ** What feature derivation needs of its input *)

Module DerivationFacts.
Import Engineer EngineerFacts.

Lemma mem_present (c : string) (d : DataFrame) :
  dict_mem c d = true <-> present c d.
Proof.
  unfold dict_mem, present. destruct (dict_get c d); split; eauto.
  - discriminate.
  - intros (s & H); discriminate.
Qed.

Lemma same_inputs_refl (d : DataFrame) : same_inputs d d.
Proof. intros c _. reflexivity. Qed.

Lemma same_inputs_trans (d1 d2 d3 : DataFrame) :
  same_inputs d1 d2 -> same_inputs d2 d3 -> same_inputs d1 d3.
Proof. intros H12 H23 c Hc. now rewrite (H23 c Hc), (H12 c Hc). Qed.

Lemma same_inputs_set (k : string) (v : Series) (d : DataFrame) :
  String.prefix "feature_" k = true -> same_inputs d (dict_set k v d).
Proof.
  intros Hk c Hc. apply dict_get_set_other. intros ->. congruence.
Qed.

Lemma present_transport (c : string) (d d' : DataFrame) :
  same_inputs d d' -> String.prefix "feature_" c = false ->
  present c d' <-> present c d.
Proof. intros H Hc. unfold present. now rewrite (H c Hc). Qed.


Lemma getitem_ok (d : DataFrame) (c : string) (s : Series) :
  getitem d c = OK s <-> dict_get c d = Some s.
Proof.
  unfold getitem. destruct (dict_get c d); split; congruence.
Qed.

(** *** Arithmetic on columns of numbers does not raise *)

Lemma arith_numeric (op : Q -> Q -> value) (dt : dtype) (a b : Series) :
  (forall x y, is_numeric (op x y) = true) ->
  forallb is_numeric (cells a) = true ->
  forallb is_numeric (cells b) = true ->
  exists s, arith op dt a b = OK s /\ forallb is_numeric (cells s) = true.
Proof.
  intros Hop Ha Hb. unfold arith.
  assert (H : exists cs,
             mapM (fun p => arith_cell op (fst p) (snd p))
                  (combine (cells a) (cells b)) = OK cs /\
             forallb is_numeric cs = true).
  { revert Ha Hb. generalize (cells b). induction (cells a) as [|x xs IH];
      intros ys Ha Hb.
    - exists []. split; reflexivity.
    - destruct ys as [|y ys]; [exists []; split; reflexivity|].
      cbn [forallb] in Ha, Hb.
      apply andb_true_iff in Ha, Hb. destruct Ha as [Hx Hxs], Hb as [Hy Hys].
      destruct (IH ys Hxs Hys) as (cs & Hcs & Hnum).
      cbn [combine mapM fst snd]. rewrite Hcs.
      destruct x as [qx| |], y as [qy| |]; try discriminate; cbn [arith_cell bind];
        eexists; (split; [reflexivity|]); cbn [forallb];
        rewrite Hnum, ?Hop; reflexivity. }
  destruct H as (cs & -> & Hnum). cbn [bind]. eexists. split; [reflexivity|].
  exact Hnum.
Qed.

Lemma float_add_numeric (x y : Q) : is_numeric (float_add x y) = true.
Proof.
  unfold float_add.
  destruct (is_infinite (round64 x)), (is_infinite (round64 y));
    cbn [andb]; try reflexivity.
  destruct (negb (Qeq_bool (round64 x) (round64 y))); reflexivity.
Qed.


Lemma add_cell_numeric (da db : dtype) (x y : Q) :
  is_numeric (add_cell da db x y) = true.
Proof.
  destruct da, db; cbn [add_cell]; try apply float_add_numeric; reflexivity.
Qed.


Lemma add_numeric (a b : Series) :
  forallb is_numeric (cells a) = true ->
  forallb is_numeric (cells b) = true ->
  exists s, add a b = OK s /\ forallb is_numeric (cells s) = true.
Proof. apply arith_numeric. apply add_cell_numeric. Qed.




Lemma int_of_bools_numeric (bs : list bool) :
  forallb is_numeric (cells (int_of_bools bs)) = true.
Proof.
  unfold int_of_bools. cbn [cells]. apply forallb_forall. intros c Hc.
  apply in_map_iff in Hc. destruct Hc as (b & <- & _). reflexivity.
Qed.

(** *** The statements, one by one *)

Lemma count_service_inputs (d d' : DataFrame) (col : string) :
  count_service d col = OK d' -> same_inputs d d'.
Proof.
  unfold count_service. destruct (dict_get col d) as [s|].
  - destruct (getitem d "feature_total_services") as [t|]; cbn [bind];
      [|discriminate].
    destruct (add t _) as [t'|]; cbn [bind]; [|discriminate].
    intros [= <-]. now apply same_inputs_set.
  - intros [= <-]. apply same_inputs_refl.
Qed.

Lemma count_service_ok (d : DataFrame) (col : string) :
  numeric_at "feature_total_services" d ->
  exists d', count_service d col = OK d' /\
             numeric_at "feature_total_services" d'.
Proof.
  intros (t & Ht & Hnum). unfold count_service.
  destruct (dict_get col d) as [s|].
  - apply getitem_ok in Ht. rewrite Ht. cbn [bind].
    destruct (add_numeric t (int_of_bools (ne_text s "No")) Hnum
                (int_of_bools_numeric _)) as (t' & -> & Hnum').
    cbn [bind]. eexists. split; [reflexivity|].
    exists t'. split; [apply dict_get_set_same | exact Hnum'].
  - eexists. split; [reflexivity|]. exists t. split; auto.
Qed.

Lemma count_services_inputs (cols : list string) (d d' : DataFrame) :
  foldM count_service cols d = OK d' -> same_inputs d d'.
Proof.
  revert d. induction cols as [|col cols IH]; intros d; cbn [foldM].
  - intros [= <-]. apply same_inputs_refl.
  - destruct (count_service d col) as [d1|] eqn:E; cbn [bind]; [|discriminate].
    intro H. eapply same_inputs_trans; [eapply count_service_inputs|]; eauto.
Qed.

Lemma count_services_ok (cols : list string) (d : DataFrame) :
  numeric_at "feature_total_services" d ->
  exists d', foldM count_service cols d = OK d'.
Proof.
  revert d. induction cols as [|col cols IH]; intros d Hd; cbn [foldM].
  - eauto.
  - destruct (count_service_ok d col Hd) as (d1 & -> & Hd1). cbn [bind].
    now apply IH.
Qed.

Lemma set_total_services_ok (d : DataFrame) :
  exists d', set_total_services d = OK d' /\ same_inputs d d'.
Proof.
  unfold set_total_services.
  destruct (count_services_ok service_columns
              (dict_set "feature_total_services"
                 (mkSeries Int64 (repeat (VNum 0) (n_rows d))) d))
    as (d' & Hd').
  - eexists. split; [apply dict_get_set_same|]. cbn [cells].
    apply forallb_forall. intros c Hc. apply repeat_spec in Hc. now subst.
  - exists d'. split; [exact Hd'|].
    eapply same_inputs_trans; [|eapply count_services_inputs; exact Hd'].
    now apply same_inputs_set.
Qed.

(** Each statement: what it needs in order to return, and that it leaves
    the input columns as they are. *)
Ltac step_inputs :=
  repeat match goal with
         | |- context [getitem ?d ?c] =>
             let s := fresh "s" in
             let E := fresh "E" in
             destruct (getitem d c) as [s|] eqn:E; cbn [bind];
             [apply getitem_ok in E | discriminate]
         | |- context [add_one ?a] =>
             destruct (add_one a); cbn [bind]; [|discriminate]
         | |- context [div ?a ?b] =>
             destruct (div a b); cbn [bind]; [|discriminate]
         | |- context [sub ?a ?b] =>
             destruct (sub a b); cbn [bind]; [|discriminate]
         end;
  intros [= <-];
  repeat split; unfold present; eauto; now apply same_inputs_set.

Lemma set_has_family_inputs (d d' : DataFrame) :
  set_has_family d = OK d' ->
  present "Partner" d /\ present "Dependents" d /\ same_inputs d d'.
Proof. unfold set_has_family. step_inputs. Qed.

Lemma set_is_senior_inputs (d d' : DataFrame) :
  set_is_senior d = OK d' -> same_inputs d d'.
Proof.
  unfold set_is_senior. destruct (dict_get "SeniorCitizen" d); intros [= <-].
  - now apply same_inputs_set.
  - apply same_inputs_refl.
Qed.

Lemma set_long_contract_inputs (d d' : DataFrame) :
  set_long_contract d = OK d' -> present "Contract" d /\ same_inputs d d'.
Proof. unfold set_long_contract. step_inputs. Qed.

Lemma set_multiple_lines_inputs (d d' : DataFrame) :
  set_multiple_lines d = OK d' ->
  present "MultipleLines" d /\ same_inputs d d'.
Proof. unfold set_multiple_lines. step_inputs. Qed.

Lemma set_monthly_per_tenure_inputs (d d' : DataFrame) :
  set_monthly_per_tenure d = OK d' ->
  present "MonthlyCharges" d /\ present "tenure" d /\ same_inputs d d'.
Proof. unfold set_monthly_per_tenure. step_inputs. Qed.

Lemma set_total_per_tenure_inputs (d d' : DataFrame) :
  set_total_per_tenure d = OK d' ->
  present "TotalCharges" d /\ present "tenure" d /\ same_inputs d d'.
Proof. unfold set_total_per_tenure. step_inputs. Qed.

Lemma set_charges_difference_inputs (d d' : DataFrame) :
  set_charges_difference d = OK d' ->
  present "TotalCharges" d /\ present "MonthlyCharges" d /\ same_inputs d d'.
Proof. unfold set_charges_difference. step_inputs. Qed.








(** *** The derived features as a whole *)

(** When [_create_derived_features] returns, every required column was
    there, and the input columns are as they were. *)
Lemma create_inputs (d d' : DataFrame) :
  _create_derived_features d = OK d' ->
  (forall c, In c required_columns -> present c d) /\ same_inputs d d'.
Proof.
  unfold _create_derived_features. intro Hrun.
  destruct (set_total_services_ok d) as (d1 & E1 & S1).
  rewrite E1 in Hrun. cbn [bind] in Hrun.
  destruct (set_has_family d1) as [d2|] eqn:E2; cbn [bind] in Hrun;
    [|discriminate].
  destruct (set_has_family_inputs _ _ E2) as (P1 & P2 & S2).
  destruct (set_is_senior d2) as [d3|] eqn:E3; cbn [bind] in Hrun;
    [|discriminate].
  pose proof (set_is_senior_inputs _ _ E3) as S3.
  destruct (set_long_contract d3) as [d4|] eqn:E4; cbn [bind] in Hrun;
    [|discriminate].
  destruct (set_long_contract_inputs _ _ E4) as (P3 & S4).
  destruct (set_multiple_lines d4) as [d5|] eqn:E5; cbn [bind] in Hrun;
    [|discriminate].
  destruct (set_multiple_lines_inputs _ _ E5) as (P4 & S5).
  destruct (set_monthly_per_tenure d5) as [d6|] eqn:E6; cbn [bind] in Hrun;
    [|discriminate].
  destruct (set_monthly_per_tenure_inputs _ _ E6) as (P5 & P6 & S6).
  destruct (set_total_per_tenure d6) as [d7|] eqn:E7; cbn [bind] in Hrun;
    [|discriminate].
  destruct (set_total_per_tenure_inputs _ _ E7) as (P7 & _ & S7).
  destruct (set_charges_difference_inputs _ _ Hrun) as (_ & _ & S8).
  pose proof (same_inputs_trans _ _ _ S1 S2) as T2.
  pose proof (same_inputs_trans _ _ _ T2 S3) as T3.
  pose proof (same_inputs_trans _ _ _ T3 S4) as T4.
  pose proof (same_inputs_trans _ _ _ T4 S5) as T5.
  pose proof (same_inputs_trans _ _ _ T5 S6) as T6.
  pose proof (same_inputs_trans _ _ _ T6 S7) as T7.
  split; [|exact (same_inputs_trans _ _ _ T7 S8)].
  intros c Hc. cbn [required_columns In] in Hc.
  repeat match type of Hc with
         | _ \/ _ => destruct Hc as [<- | Hc]
         end; try contradiction.
  - now apply (present_transport "Partner" _ _ S1).
  - now apply (present_transport "Dependents" _ _ S1).
  - now apply (present_transport "Contract" _ _ T3).
  - now apply (present_transport "MultipleLines" _ _ T4).
  - now apply (present_transport "MonthlyCharges" _ _ T5).
  - now apply (present_transport "tenure" _ _ T5).
  - now apply (present_transport "TotalCharges" _ _ T6).
Qed.


(** *** Encoding *)

Lemma encoded_name_fresh (c col : string) :
  In c categorical_columns -> In col categorical_columns ->
  c <> (col ++ "_encoded")%string.
Proof.
  assert (H : forallb (fun c => forallb (fun col =>
                 negb (String.eqb c (col ++ "_encoded")%string))
                 categorical_columns) categorical_columns = true)
    by (vm_compute; reflexivity).
  intros Hc Hcol. rewrite forallb_forall in H. specialize (H c Hc).
  rewrite forallb_forall in H. specialize (H col Hcol).
  apply negb_true_iff, String.eqb_neq in H. exact H.
Qed.


(** *** Scaling: only the library call can raise *)

Lemma mapM_ok (A B : Type) (f : A -> result B) (l : list A) :
  (forall x, In x l -> exists y, f x = OK y) ->
  exists ys, mapM f l = OK ys /\ length ys = length l.
Proof.
  induction l as [|a l IH]; intro H; cbn [mapM].
  - exists []. split; reflexivity.
  - destruct (H a (or_introl eq_refl)) as (b & ->). cbn [bind].
    destruct IH as (bs & -> & Hlen); [intros; apply H; now right|].
    cbn [bind]. exists (b :: bs). split; [reflexivity|]. cbn. now rewrite Hlen.
Qed.

Lemma columns_to_scale_present (d : DataFrame) (c : string) :
  In c (columns_to_scale d) -> present c d.
Proof.
  unfold columns_to_scale. intro H. apply in_app_or in H. destruct H as [H|H].
  - apply filter_In in H. now apply mem_present.
  - apply in_map_iff in H. destruct H as ([k v] & <- & H).
    apply filter_In in H. destruct H as [H _].
    apply CleanerTheorems.dict_get_keys. unfold dict_keys.
    apply in_map_iff. now exists (k, v).
Qed.


End DerivationFacts.

(** ** Feature derivation and absent columns *)

Module DerivationTheorems.
Import Engineer EngineerFacts DerivationFacts.




(** A dataset that lacks one of the seven required columns makes the
    derivation raise, before anything else is done. *)
Lemma missing_required_column_raises {lib : StandardScaler}
      (self : t) (data : ref) (h : heap) :
  (exists c, In c required_columns /\ dict_mem c (nth data h []) = false) ->
  exists e, engineer_features self data h = (Raise e, h ++ [nth data h []]).
Proof.
  intros (c & Hc & Hmiss).
  rewrite engineer_features_unfold. cbv zeta.
  destruct (_create_derived_features (nth data h [])) as [d1|e] eqn:E1;
    [|eauto].
  destruct (create_inputs _ _ E1) as (Hreq & _).
  apply Hreq, mem_present in Hc. congruence.
Qed.



End DerivationTheorems.

(** ** The trainer *)

Module TrainerFacts.
Import Trainer.

Lemma dict_set_fresh (V : Type) (k : string) (v : V) (d : dict V) :
  ~ In k (dict_keys d) -> dict_set k v d = d ++ [(k, v)].
Proof.
  unfold dict_keys. induction d as [|[k' v'] d IH]; cbn [dict_set map In fst app].
  - reflexivity.
  - intro H. destruct (String.eqb k k') eqn:E.
    + apply String.eqb_eq in E. subst. tauto.
    + rewrite IH by tauto. reflexivity.
Qed.

Lemma dict_get_fold_set_other (V : Type) (recs : list (string * V))
      (d : dict V) (n : string) :
  ~ In n (map fst recs) ->
  dict_get n (fold_left (fun d p => dict_set (fst p) (snd p) d) recs d)
  = dict_get n d.
Proof.
  revert d. induction recs as [|[n1 r1] recs IH]; intros d Hn; cbn [fold_left].
  - reflexivity.
  - cbn [map In fst snd] in *. rewrite IH by tauto.
    apply dict_get_set_other. intros ->. tauto.
Qed.

Lemma dict_get_fold_set (V : Type) (recs : list (string * V)) (d : dict V)
      (n : string) (r : V) :
  NoDup (map fst recs) -> In (n, r) recs ->
  dict_get n (fold_left (fun d p => dict_set (fst p) (snd p) d) recs d)
  = Some r.
Proof.
  revert d. induction recs as [|[n1 r1] recs IH]; intros d Hnd Hin;
    [contradiction|].
  cbn [map fst] in Hnd. inversion Hnd as [|? ? Hnotin Hnd']; subst.
  cbn [fold_left fst snd]. destruct Hin as [[= -> ->] | Hin].
  - rewrite dict_get_fold_set_other by assumption.
    apply dict_get_set_same.
  - now apply IH.
Qed.

Section WithSklearn.
Context {sk : Sklearn} {clock : Clock}.

Lemma train_name (m m' : Model.t) (X : DataFrame) (y : Series)
      (r : result unit) :
  Model.train m X y = (r, m') -> Model.model_name m' = Model.model_name m.
Proof.
  unfold Model.train.
  destruct (empty X || (length (cells y) =? 0)); [now intros [= <- <-]|].
  destruct (negb (n_rows X =? length (cells y))); [now intros [= <- <-]|].
  cbn [Model.kind Model.model_params Model.model_name Model.feature_names].
  destruct (sk_fit _ _ X y); now intros [= <- <-].
Qed.

(** What [train_model] does to the trainer. *)
Lemma train_model_info (self : t) (m : Model.t) (X : DataFrame) (y : Series) :
  training_info (snd (train_model self m X y))
  = dict_set (Model.model_name m) (record_of m X y) (training_info self).
Proof.
  unfold train_model, record_of.
  destruct (Model.train m X y) as [[u|e] m'] eqn:E; cbn [snd training_info].
  - now rewrite (train_name _ _ _ _ _ E).
  - reflexivity.
Qed.

Lemma train_model_result (self : t) (m : Model.t) (X : DataFrame) (y : Series) :
  fst (train_model self m X y)
  = match Model.train m X y with
    | (OK _, m') => OK m'
    | (Raise e, _) => Raise e
    end.
Proof.
  unfold train_model. destruct (Model.train m X y) as [[u|e] m']; reflexivity.
Qed.

(** The records that a batch leaves: one assignment per model, in order. *)
Lemma train_loop_info (items : list (string * Model.t)) (self : t)
      (X : DataFrame) (y : Series) (acc : dict Model.t) :
  training_info (snd (train_loop self items X y acc))
  = fold_left (fun d p => dict_set (fst p) (snd p) d)
      (map (fun e => (Model.model_name (snd e), record_of (snd e) X y)) items)
      (training_info self).
Proof.
  revert self acc. induction items as [|[k m] items IH]; intros self acc;
    cbn [train_loop map fold_left fst snd]; [reflexivity|].
  rewrite <- train_model_info.
  destruct (train_model self m X y) as [[m'|e] self1]; cbn [snd]; apply IH.
Qed.

(** The mapping that a batch returns: the entries that train, in order. *)
Lemma train_loop_trained (items : list (string * Model.t)) (self : t)
      (X : DataFrame) (y : Series) (acc : dict Model.t) :
  NoDup (dict_keys acc ++ dict_keys items) ->
  fst (train_loop self items X y acc) = acc ++ trained_of items X y.
Proof.
  revert self acc. induction items as [|[k m] items IH]; intros self acc Hnd;
    cbn [train_loop trained_of flat_map fst snd].
  - now rewrite app_nil_r.
  - pose proof (train_model_result self m X y) as Hres.
    destruct (train_model self m X y) as [[m'|e] self1]; cbn [fst] in Hres;
      destruct (Model.train m X y) as [[u|e'] m'']; try discriminate.
    + injection Hres as <-.
      assert (Hk : ~ In k (dict_keys acc)).
      { intro Hin. apply NoDup_remove_2 in Hnd. apply Hnd.
        apply in_or_app. now left. }
      rewrite dict_set_fresh by assumption.
      rewrite IH.
      * now rewrite <- app_assoc.
      * unfold dict_keys in *. rewrite map_app. cbn [map fst].
        rewrite <- app_assoc. exact Hnd.
    + cbn [app]. apply IH.
      unfold dict_keys in *. cbn [map fst] in Hnd.
      now apply NoDup_remove_1 in Hnd.
Qed.

End WithSklearn.

End TrainerFacts.

(** ** Training many models, splitting *)

Module TrainerTheorems.
Import Trainer TrainerFacts.

(** Two logistic regressions submitted under two keys and trained on a
    matrix of numbers with labels of two classes: the first, whose
    regularisation strength is negative, fails; the second trains; and the
    training record ends with a single entry, under the name the two share,
    which says success. *)
Lemma shared_name_loses_failure_record :
  let X := numeric_sample in
  let y := two_class_labels in
  let run := train_multiple_models (clock := sample_clock) init
               two_regressions X y in
  exists k m,
    In (k, m) two_regressions /\
    is_ok (fst (Model.train m X y)) = false /\
    (exists trained, fst run = OK trained /\ dict_keys trained = ["lr"]) /\
    length (get_training_info (snd run)) = 1 /\
    forall r, dict_get (Model.model_name m) (get_training_info (snd run)) = Some r ->
              success r = true.
Proof.
  cbv zeta.
  exists "lr_strict", (Model.LogisticRegressionModel [("C", VNum (-1))]).
  split; [now left|]. split; [vm_compute; reflexivity|].
  split; [eexists; split; vm_compute; reflexivity|].
  split; [vm_compute; reflexivity|].
  intros r Hr. vm_compute in Hr. injection Hr as <-. reflexivity.
Qed.

Section WithSklearn.
Context {sk : Sklearn} {clock : Clock}.

(** C1, amended. For every mapping of models whose own names are pairwise
    distinct, and every training input: [train_multiple_models] returns,
    whichever trainings fail; the mapping it returns holds exactly the
    entries whose training succeeded, in order; and afterwards the training
    record has, under each submitted model's name, what that model's
    training gave: success with the sample and feature counts, or failure
    with the message of the exception. *)
Theorem train_many_tolerates_failures (self : t) (models : dict Model.t)
        (X : DataFrame) (y : Series) :
  NoDup (dict_keys models) ->
  NoDup (map (fun e => Model.model_name (snd e)) models) ->
  exists self',
    train_multiple_models self models X y
    = (OK (trained_of models X y), self') /\
    (forall k m', In (k, m') (trained_of models X y) <->
                  exists m, In (k, m) models /\ Model.train m X y = (OK tt, m')) /\
    (forall k m, In (k, m) models ->
       dict_get (Model.model_name m) (get_training_info self')
       = Some (record_of m X y) /\
       success (record_of m X y) = is_ok (fst (Model.train m X y)) /\
       (forall e, fst (Model.train m X y) = Raise e ->
                  exists t, record_of m X y = Failed t (str_of_exn e))).
Proof.
  intros Hkeys Hnames.
  exists (snd (train_loop self models X y [])).
  split; [|split].
  - unfold train_multiple_models.
    pose proof (train_loop_trained models self X y [] Hkeys) as Hfst.
    destruct (train_loop self models X y []) as [trained self']. cbn [fst snd] in *.
    now rewrite Hfst.
  - intros k m'. unfold trained_of. rewrite in_flat_map. split.
    + intros ([k0 m] & Hin & Hm). cbn [fst snd] in Hm.
      destruct (Model.train m X y) as [[[]|e] m1] eqn:E; [|contradiction].
      destruct Hm as [[= <- <-] | []]. exists m. split; [exact Hin|exact E].
    + intros (m & Hin & E). exists (k, m). split; [exact Hin|].
      cbn [fst snd]. rewrite E. now left.
  - intros k m Hin. split; [|split].
    + unfold get_training_info. rewrite train_loop_info.
      apply dict_get_fold_set.
      * rewrite map_map. exact Hnames.
      * apply in_map_iff. exists (k, m). split; [reflexivity|exact Hin].
    + unfold record_of. destruct (Model.train m X y) as [[u|e] m1]; reflexivity.
    + intros e He. unfold record_of.
      destruct (Model.train m X y) as [[u|e'] m1]; cbn [fst] in He;
        [discriminate|]. injection He as <-. eauto.
Qed.

(** C5. [split_data] raises [ValueError], and so returns no split, when the
    matrix has no row, when the label vector is empty, and when the two have
    different numbers of rows. *)
Theorem split_rejects_empty_or_mismatched (self : t) (X : DataFrame)
        (y : Series) :
  n_rows X = 0 \/ length (cells y) = 0 \/ n_rows X <> length (cells y) ->
  exists msg, split_data self X y = Raise (ValueError msg).
Proof.
  intro H. unfold split_data, train_test_split. cbv zeta.
  destruct (n_rows X =? length (cells y)) eqn:Elen; cbn [negb]; [|eauto].
  apply Nat.eqb_eq in Elen.
  assert (Hn : n_rows X = 0) by (destruct H as [H | [H | H]]; congruence).
  destruct (negb (Qltb 0 (test_size self) && Qltb (test_size self) 1));
    [eauto|].
  rewrite Hn. cbn [Nat.sub Nat.eqb]. eauto.
Qed.

End WithSklearn.

Lemma train_many_tolerates_failures_witness :
  exists self',
    train_multiple_models (clock := sample_clock) init three_models
      validated_sample one_label
    = (OK (trained_of three_models validated_sample one_label), self') /\
    (forall k m', In (k, m') (trained_of three_models validated_sample one_label) <->
                  exists m, In (k, m) three_models /\
                            Model.train m validated_sample one_label = (OK tt, m')) /\
    (forall k m, In (k, m) three_models ->
       dict_get (Model.model_name m) (get_training_info self')
       = Some (record_of (clock := sample_clock) m validated_sample one_label) /\
       success (record_of (clock := sample_clock) m validated_sample one_label)
       = is_ok (fst (Model.train m validated_sample one_label)) /\
       (forall e, fst (Model.train m validated_sample one_label) = Raise e ->
                  exists t, record_of (clock := sample_clock) m validated_sample
                              one_label = Failed t (str_of_exn e))).
Proof.
  apply (train_many_tolerates_failures (clock := sample_clock) init
           three_models validated_sample one_label).
  - cbn. CleanerFacts.nodup_strings.
  - cbn. CleanerFacts.nodup_strings.
Defined.

(** The scenario of the spec: of three models one fails; two are returned
    and the record has three entries, one of which says failure. *)
Example one_of_three_fails :
  let run := train_multiple_models (clock := sample_clock) init three_models
               validated_sample one_label in
  option_map dict_keys (match fst run with OK d => Some d | Raise _ => None end)
  = Some ["LogisticRegression"; "GradientBoosting"] /\
  map (fun e => (fst e, success (snd e))) (get_training_info (snd run))
  = [("LogisticRegression", true); ("RandomForest", false);
     ("GradientBoosting", true)].
Proof. split; vm_compute; reflexivity. Qed.

Lemma split_rejects_empty_or_mismatched_witness :
  exists msg,
    split_data (sk := sample_sklearn) init [] (mkSeries Int64 [])
    = Raise (ValueError msg).
Proof.
  apply (split_rejects_empty_or_mismatched (sk := sample_sklearn) init []
           (mkSeries Int64 [])).
  left. reflexivity.
Defined.

End TrainerTheorems.

(** ** The pipeline *)

Module PipelineFacts.
Import Pipeline.

Lemma bindH_ok (A B : Type) (m : H A) (f : A -> H B) (h h' : heap) (b : B) :
  bindH m f h = (OK b, h') ->
  exists a h1, m h = (OK a, h1) /\ f a h1 = (OK b, h').
Proof.
  unfold bindH. destruct (m h) as [[a|e] h1]; [eauto | discriminate].
Qed.

Lemma expect_ok (A : Type) (field : option A) (h h' : heap) (a : A) :
  expect field h = (OK a, h') -> field = Some a /\ h' = h.
Proof.
  unfold expect, retH, raiseH. destruct field; intros [= <- <-]; auto.
Qed.

Section WithLibraries.
Context {text : TextConversions} {lib : StandardScaler} {sk : Sklearn}
        {clock : Clock} {loader : DataLoader}.

(** [run] is the first five phases followed by the last three. *)
Lemma run_eq (self : t) (h : heap) :
  run self h = bindH (prepare self) train_and_report h.
Proof.
  unfold run, prepare, train_and_report, bindH.
  destruct (_load_data self h) as [[s1|e] h1]; [|reflexivity].
  destruct (_clean_data s1 h1) as [[s2|e] h2]; [|reflexivity].
  destruct (_engineer_features s2 h2) as [[s3|e] h3]; [|reflexivity].
  destruct (_prepare_data s3 h3) as [[s4|e] h4]; [|reflexivity].
  destruct (_create_models s4 h4) as [[s5|e] h5]; reflexivity.
Qed.

(** After the first five phases there is a split. *)
Lemma prepare_split (self s5 : t) (h h5 : heap) :
  prepare self h = (OK s5, h5) -> exists parts, split s5 = Some parts.
Proof.
  unfold prepare. intro H.
  apply bindH_ok in H. destruct H as (s1 & h1 & _ & H).
  apply bindH_ok in H. destruct H as (s2 & h2 & _ & H).
  apply bindH_ok in H. destruct H as (s3 & h3 & _ & H).
  apply bindH_ok in H. destruct H as (s4 & h4 & Hprep & H).
  unfold _create_models, retH in H. injection H as <- <-. cbn [split].
  unfold _prepare_data in Hprep.
  apply bindH_ok in Hprep. destruct Hprep as (c & hc & _ & Hprep).
  apply bindH_ok in Hprep. destruct Hprep as (cd & hcd & _ & Hprep).
  destruct (dict_get "Churn" cd) as [churn|]; [|discriminate].
  cbv zeta in Hprep.
  apply bindH_ok in Hprep. destruct Hprep as (e & he & _ & Hprep).
  apply bindH_ok in Hprep. destruct Hprep as (X & hX & _ & Hprep).
  apply bindH_ok in Hprep. destruct Hprep as (parts & hp & _ & Hprep).
  unfold retH in Hprep. injection Hprep as <- <-. cbn [split]. eauto.
Qed.

(** When every training fails the batch returns the empty mapping. *)
Lemma train_loop_all_fail (items : list (string * Model.t))
      (self : Trainer.t) (X : DataFrame) (y : Series) (acc : dict Model.t) :
  (forall k m, In (k, m) items -> exists e, fst (Model.train m X y) = Raise e) ->
  fst (Trainer.train_loop self items X y acc) = acc.
Proof.
  revert self acc. induction items as [|[k m] items IH]; intros self acc Hall;
    cbn [Trainer.train_loop]; [reflexivity|].
  destruct (Hall k m (or_introl eq_refl)) as (e & He).
  pose proof (TrainerFacts.train_model_result self m X y) as Hres.
  destruct (Model.train m X y) as [[u|e'] m']; cbn [fst] in He; [discriminate|].
  destruct (Trainer.train_model self m X y) as [[m1|e1] self1];
    cbn [fst] in Hres; [discriminate|].
  apply IH. intros; eapply Hall; right; eauto.
Qed.

(** The comparison table is built when every stored metrics dictionary
    has the five scores. *)
Lemma get_model_comparison_ok (ev : Evaluator.t) :
  (forall entry, In entry (Evaluator.evaluation_results ev) ->
                 Evaluator.complete (snd entry)) ->
  exists rows, Evaluator.get_model_comparison ev = OK rows.
Proof.
  intro Hc. unfold Evaluator.get_model_comparison.
  destruct (DerivationFacts.mapM_ok _ _
              (fun entry : string * Metrics =>
                 let '(model_name, metrics) := entry in
                 do accuracy <- Evaluator.metric metrics "accuracy";
                 do precision <- Evaluator.metric metrics "precision";
                 do recall <- Evaluator.metric metrics "recall";
                 do f1 <- Evaluator.metric metrics "f1_score";
                 do auc <- Evaluator.metric metrics "roc_auc";
                 OK (Evaluator.mkRow model_name accuracy precision recall f1 auc))
              (Evaluator.evaluation_results ev)) as (rows & Hrows & _);
    [|eauto].
  intros [name metrics] Hin. specialize (Hc _ Hin). cbn [snd] in Hc.
  assert (Hget : forall key,
            In key ["accuracy"; "precision"; "recall"; "f1_score"; "roc_auc"] ->
            exists v, Evaluator.metric metrics key = OK v).
  { intros key Hkey. specialize (Hc key Hkey).
    unfold dict_mem in Hc. unfold Evaluator.metric.
    destruct (dict_get key metrics); [eauto | discriminate]. }
  destruct (Hget "accuracy") as (v1 & ->); [cbn; tauto|].
  destruct (Hget "precision") as (v2 & ->); [cbn; tauto|].
  destruct (Hget "recall") as (v3 & ->); [cbn; tauto|].
  destruct (Hget "f1_score") as (v4 & ->); [cbn; tauto|].
  destruct (Hget "roc_auc") as (v5 & ->); [cbn; tauto|].
  cbn [bind]. eauto.
Qed.

(** Phase 6 when every training fails. *)
Lemma train_models_all_fail (self : t) (h : heap) (parts : Trainer.Split) :
  split self = Some parts ->
  (forall k m, In (k, m) (models self) ->
     exists e, fst (Model.train m (Trainer.X_train parts) (Trainer.y_train parts))
               = Raise e) ->
  exists s1,
    _train_models self h = (OK s1, h) /\
    trained_models s1 = [] /\ split s1 = Some parts /\
    model_evaluator s1 = model_evaluator self.
Proof.
  intros Hsplit Hfail.
  pose proof (train_loop_all_fail (models self) (model_trainer self)
                (Trainer.X_train parts) (Trainer.y_train parts) [] Hfail)
    as Hloop.
  unfold _train_models, bindH. rewrite Hsplit. cbn [expect retH].
  unfold Trainer.train_multiple_models.
  destruct (Trainer.train_loop (model_trainer self) (models self)
              (Trainer.X_train parts) (Trainer.y_train parts) [])
    as [trained trainer']. cbn [fst] in Hloop. subst trained.
  cbn [liftH]. eexists. split; [reflexivity|].
  cbn [trained_models split model_evaluator]. auto.
Qed.

(** Phase 7 on an empty set of models. *)
Lemma evaluate_models_empty (self : t) (h : heap) (parts : Trainer.Split) :
  split self = Some parts -> trained_models self = [] ->
  exists s2,
    _evaluate_models self h = (OK s2, h) /\
    trained_models s2 = [] /\ evaluation_results s2 = [] /\
    model_evaluator s2
    = Evaluator.mk (Evaluator.evaluation_results (model_evaluator self)) None.
Proof.
  intros Hsplit Htrained.
  unfold _evaluate_models, bindH. rewrite Hsplit, Htrained.
  cbn [expect retH Evaluator.evaluate_multiple_models Evaluator.evaluate_loop
       Evaluator._identify_best_model Evaluator.select_best foldM bind fst
       liftH].
  eexists. split; [reflexivity|].
  cbn [trained_models evaluation_results model_evaluator]. auto.
Qed.

(** Phase 8 when no model was selected. *)
Lemma generate_results_none (self : t) (h : heap)
      (rows : list Evaluator.ComparisonRow) :
  Evaluator.best_model (model_evaluator self) = None ->
  Evaluator.get_model_comparison (model_evaluator self) = OK rows ->
  exists s3,
    _generate_results self h = (OK s3, h) /\
    trained_models s3 = trained_models self /\
    evaluation_results s3 = evaluation_results self /\
    best_model (pipeline_results s3) = None /\
    best_model_metrics (pipeline_results s3) = [] /\
    feature_importance (pipeline_results s3) = [] /\
    success (pipeline_results s3) = true.
Proof.
  intros Hbest Hrows.
  unfold _generate_results, bindH. rewrite Hbest, Hrows.
  cbn [get_model liftH retH].
  eexists. split; [reflexivity|].
  cbn [trained_models evaluation_results pipeline_results best_model
       best_model_metrics feature_importance success]. auto 10.
Qed.

(** The last three phases when every training fails. *)
Lemma train_and_report_all_fail (self : t) (h : heap) (parts : Trainer.Split) :
  split self = Some parts ->
  (forall entry,
     In entry (Evaluator.evaluation_results (model_evaluator self)) ->
     Evaluator.complete (snd entry)) ->
  (forall k m, In (k, m) (models self) ->
     exists e, fst (Model.train m (Trainer.X_train parts) (Trainer.y_train parts))
               = Raise e) ->
  exists results self',
    train_and_report self h = (OK (results, self'), h) /\
    trained_models self' = [] /\
    evaluation_results self' = [] /\
    best_model results = None /\
    best_model_metrics results = [] /\
    feature_importance results = [] /\
    success results = true.
Proof.
  intros Hsplit Hcomplete Hfail.
  destruct (train_models_all_fail self h parts Hsplit Hfail)
    as (s1 & E1 & T1 & S1 & V1).
  destruct (evaluate_models_empty s1 h parts S1 T1)
    as (s2 & E2 & T2 & R2 & V2).
  destruct (get_model_comparison_ok (model_evaluator s2)) as (rows & Hrows).
  { rewrite V2, V1. exact Hcomplete. }
  destruct (generate_results_none s2 h rows) as
    (s3 & E3 & T3 & R3 & B3 & M3 & F3 & U3); [now rewrite V2 | exact Hrows |].
  unfold train_and_report, bindH. rewrite E1, E2, E3. cbn [retH].
  do 2 eexists. split; [reflexivity|].
  cbn [trained_models evaluation_results best_model best_model_metrics
       feature_importance success].
  rewrite T3, R3, T2, R2. auto 10.
Qed.

End WithLibraries.

End PipelineFacts.

(** ** A run in which no model trains; inference on new data *)

Module PipelineTheorems.
Import Pipeline PipelineFacts.

(** C3. If every model fails training, the run does not fail: after the
    first five phases have succeeded, the evaluation and summarize phases
    run on the empty set of models and [run] returns a result whose best
    model is none, whose best-model metrics are empty and whose
    feature-importance mapping is empty.  (The evaluator is supposed to hold
    only metrics dictionaries with the five scores, as those that it builds
    are.) *)
Theorem run_survives_total_training_failure
        {text : TextConversions} {lib : StandardScaler} {sk : Sklearn}
        {clock : Clock} {loader : DataLoader}
        (self s5 : t) (h h5 : heap) :
  prepare self h = (OK s5, h5) ->
  (forall entry,
     In entry (Evaluator.evaluation_results (model_evaluator s5)) ->
     Evaluator.complete (snd entry)) ->
  (forall parts k m,
     split s5 = Some parts -> In (k, m) (models s5) ->
     exists e, fst (Model.train m (Trainer.X_train parts) (Trainer.y_train parts))
               = Raise e) ->
  exists results self' h',
    run self h = (OK (results, self'), h') /\
    trained_models self' = [] /\
    evaluation_results self' = [] /\
    best_model results = None /\
    best_model_metrics results = [] /\
    feature_importance results = [] /\
    success results = true.
Proof.
  intros Hprep Hcomplete Hfail.
  destruct (prepare_split self s5 h h5 Hprep) as (parts & Hsplit).
  destruct (train_and_report_all_fail s5 h5 parts Hsplit Hcomplete
              (fun k m => Hfail parts k m Hsplit))
    as (results & self' & Hrun & Hrest).
  exists results, self', h5. split; [|exact Hrest].
  rewrite run_eq. unfold bindH. rewrite Hprep. exact Hrun.
Qed.

Lemma failing_train_fails (m : Model.t (sk := failing_sklearn))
      (X : DataFrame) (y : Series) :
  exists e, fst (Model.train m X y) = Raise e.
Proof.
  unfold Model.train.
  destruct (empty X || (length (cells y) =? 0)); [cbn; eauto|].
  destruct (negb (n_rows X =? length (cells y))); cbn; eauto.
Qed.

Lemma run_survives_total_training_failure_witness :
  exists results self' h',
    run (text := whole_number_text) (clock := sample_clock)
        (loader := sample_loader) (new_pipeline (sk := failing_sklearn)) []
    = (OK (results, self'), h') /\
    trained_models self' = [] /\
    evaluation_results self' = [] /\
    best_model results = None /\
    best_model_metrics results = [] /\
    feature_importance results = [] /\
    success results = true.
Proof.
  apply (run_survives_total_training_failure
           (text := whole_number_text) (clock := sample_clock)
           (loader := sample_loader) (new_pipeline (sk := failing_sklearn))
           prepared_pipeline [] prepared_heap).
  - vm_compute. reflexivity.
  - intros entry [].
  - intros parts k m _ _. apply failing_train_fails.
Defined.

(** C4, on the code: a pipeline is run on [training_sample], then asked to
    predict for [inference_sample].  The training run fits the label map of
    the contract column on both contract types, so that a two-year contract
    has code 1.  The inference call fits it again, on the new data alone:
    the stored map then knows a single class, the model is handed code 0
    for the two-year contract, and the scaling statistics are no longer
    those of the training run. *)
Theorem predict_refits_label_map_and_scaler :
  match run (text := whole_number_text) (clock := sample_clock)
            (loader := sample_loader) (new_pipeline (sk := sample_sklearn)) []
  with
  | (OK (_, trained), h) =>
      dict_get "Contract"
        (Engineer.label_encoders (feature_engineer trained))
      = Some (Engineer.mkEncoder [VStr "Month-to-month"; VStr "Two year"]) /\
      Engineer.index_of (VStr "Two year")
        [VStr "Month-to-month"; VStr "Two year"] = 1 /\
      match predict (text := whole_number_text) trained (length h)
              (h ++ [inference_sample])
      with
      | (OK (_, after, X), h') =>
          dict_get "Contract"
            (Engineer.label_encoders (feature_engineer after))
          = Some (Engineer.mkEncoder [VStr "Two year"]) /\
          option_map cells (dict_get "Contract_encoded" (nth X h' []))
          = Some [VNum 0] /\
          Engineer.scaler (feature_engineer after)
          <> Engineer.scaler (feature_engineer trained)
      | (Raise _, _) => False
      end
  | (Raise _, _) => False
  end.
Proof.
  vm_compute. split; [reflexivity|]. split; [reflexivity|].
  split; [reflexivity|]. split; [reflexivity|]. discriminate.
Qed.

End PipelineTheorems.

(** ** Lists *)

Module ListFacts.

Lemma nth_map (A B : Type) (f : A -> B) (l : list A) (i : nat) (a : A) (b : B) :
  i < length l -> nth i (map f l) b = f (nth i l a).
Proof.
  revert i. induction l as [|x l IH]; intros i Hi; cbn in Hi; [lia|].
  destruct i as [|i]; cbn [map nth]; [reflexivity|]. apply IH. lia.
Qed.

Lemma nth_combine (A B : Type) (l : list A) (l' : list B) (i : nat)
      (a : A) (b : B) :
  i < length l -> i < length l' ->
  nth i (combine l l') (a, b) = (nth i l a, nth i l' b).
Proof.
  revert l' i. induction l as [|x l IH]; intros [|y l'] i Hl Hl';
    cbn in Hl, Hl'; try lia.
  destruct i as [|i]; cbn [combine nth]; [reflexivity|]. apply IH; lia.
Qed.

Lemma mapM_nth (A B : Type) (f : A -> result B) (l : list A) (ys : list B)
      (a : A) (b : B) :
  mapM f l = OK ys ->
  length ys = length l /\
  forall i, i < length l -> f (nth i l a) = OK (nth i ys b).
Proof.
  revert ys. induction l as [|x l IH]; intros ys; cbn [mapM].
  - intros [= <-]. split; [reflexivity|]. cbn. intros; lia.
  - destruct (f x) as [y|] eqn:Ex; cbn [bind]; [|discriminate].
    destruct (mapM f l) as [ys'|]; cbn [bind]; [|discriminate].
    intros [= <-]. destruct (IH ys' eq_refl) as (Hlen & Hnth).
    split; [cbn; now rewrite Hlen|].
    intros [|i] Hi; cbn [nth]; [exact Ex|]. apply Hnth. cbn in Hi. lia.
Qed.

Lemma map_fst_combine (A B : Type) (l : list A) (l' : list B) :
  length l <= length l' -> map fst (combine l l') = l.
Proof.
  revert l'. induction l as [|x l IH]; intros [|y l'] H; cbn in H |- *;
    try reflexivity; try lia.
  f_equal. apply IH. lia.
Qed.

End ListFacts.

(** ** What a cleaned dataset is like *)

Module CleanerProperties.
Import Cleaner CleanerFacts FrameFacts CleanerTheorems.

Lemma drop_duplicates_rows (d : DataFrame) :
  n_rows (drop_duplicates d) <= n_rows d.
Proof.
  unfold drop_duplicates. destruct d as [|c0 d0] eqn:Ed; [cbn; lia|].
  rewrite <- Ed. rewrite take_rows_n_rows by (subst; discriminate).
  etransitivity; [apply filter_length_le|]. now rewrite length_seq.
Qed.

Lemma drop_duplicates_keys (d : DataFrame) :
  dict_keys (drop_duplicates d) = dict_keys d.
Proof.
  unfold drop_duplicates, take_rows, dict_keys. now rewrite map_map.
Qed.

Lemma whole_numbers_no_null (s : Series) : whole_numbers s -> no_null s.
Proof.
  intros [_ H]. unfold no_null. eapply Forall_impl; [|exact H].
  intros c (z & ->). discriminate.
Qed.

Lemma all_null_isnull (s : Series) :
  cells s <> [] -> all_null s -> isnull_any s = true.
Proof.
  unfold all_null, isnull_any. destruct (cells s) as [|c cs]; [congruence|].
  intros _ H. inversion H; subst. reflexivity.
Qed.

Lemma all_null_mode (s : Series) :
  all_null s -> mode_first s = Raise (KeyError "0").
Proof.
  unfold all_null, mode_first. intro H.
  replace (filter (fun c => negb (is_null c)) (cells s)) with (@nil value);
    [reflexivity|].
  induction H as [|c cs -> _ IH]; [reflexivity|exact IH].
Qed.

Section Whole.
Context {text : TextConversions}.

Lemma astype_int_null (s : Series) :
  isnull_any s = true -> exists e, astype_int s = Raise e.
Proof.
  unfold isnull_any, astype_int. intro H.
  assert (Hm : exists e,
             mapM (fun c =>
                     match c with
                     | VNum q => OK (VNum (inject_Z (truncate q)))
                     | VStr x =>
                         match int_of_str x with
                         | Some z => OK (VNum (inject_Z z))
                         | None => Raise (ValueError
                             ("invalid literal for int() with base 10: " ++ x))
                         end
                     | VNaN => Raise (ValueError
                                 "cannot convert float NaN to integer")
                     end) (cells s) = Raise e).
  { induction (cells s) as [|c cs IH]; [discriminate|].
    cbn [existsb] in H. cbn [mapM].
    destruct c as [q|x|]; cbn [is_null orb] in H.
    - destruct (IH H) as (e & ->). cbn [bind]. eauto.
    - destruct (int_of_str x); cbn [bind]; [|eauto].
      destruct (IH H) as (e & ->). cbn [bind]. eauto.
    - cbn [bind]. eauto. }
  destruct Hm as (e & ->). cbn [bind]. eauto.
Qed.

Lemma clean_steps_shape (d d' : DataFrame) :
  clean_steps d = OK d' ->
  dict_keys d' = dict_keys d /\ n_rows d' <= n_rows d.
Proof.
  rewrite clean_steps_eq.
  destruct (before_duplicates d) as [d3|] eqn:E3; cbn [bind]; [|discriminate].
  intros [= <-].
  pose proof (before_duplicates_layout d d3 E3) as Hl.
  rewrite drop_duplicates_keys, (layout_keys _ _ Hl).
  split; [reflexivity|].
  rewrite <- (layout_n_rows _ _ Hl). apply drop_duplicates_rows.
Qed.

(** [clean_data] raises when its first three steps do. *)
Lemma clean_data_raises (self : Cleaner.t) (data : ref) (h : heap) (e : exn) :
  before_duplicates (nth data h []) = Raise e ->
  fst (clean_data self data h) = Raise e.
Proof.
  rewrite clean_data_unfold. cbv zeta. unfold before_duplicates.
  destruct (_handle_missing_values (nth data h [])) as [d1|e1]; cbn [bind].
  - destruct (_convert_data_types (_handle_inconsistent_values d1));
      [discriminate|]. now intros [= ->].
  - now intros [= ->].
Qed.

(** A column in the frame is still there, under the same name, after the
    first three steps, rewritten by [clean_column]. *)
Lemma before_duplicates_present (d d3 : DataFrame) (c : string) (s : Series) :
  before_duplicates d = OK d3 -> dict_get c d = Some s ->
  exists s3, dict_get c d3 = Some s3 /\ clean_column c s = OK s3.
Proof.
  intros Hrun Hget.
  assert (Hin : In c (dict_keys d3)).
  { rewrite (layout_keys _ _ (before_duplicates_layout _ _ Hrun)).
    apply dict_get_keys. eauto. }
  apply dict_get_keys in Hin. destruct Hin as (s3 & Hget3).
  destruct (before_duplicates_get _ _ _ _ Hrun Hget3) as (s0 & Hget0 & Hcol).
  exists s3. split; [exact Hget3|]. congruence.
Qed.

(** X1. When [clean_data] returns, the dataset has the columns of the
    input, in the same order, and no more rows; the report says so: its
    shapes are those of the input and of the output, no column is counted
    as removed, and the count of removed rows is the difference of the row
    counts, which is not negative. *)
Theorem clean_data_report_counts (self self1 : Cleaner.t) (data out : ref)
        (h h1 : heap) :
  clean_data self data h = (OK (self1, out), h1) ->
  exists report,
    get_cleaning_report self1 = Some report /\
    dict_keys (nth out h1 []) = dict_keys (nth data h []) /\
    initial_shape report = shape (nth data h []) /\
    final_shape report = shape (nth out h1 []) /\
    columns_removed report = 0%Z /\
    (0 <= rows_removed report)%Z /\
    Z.of_nat (n_rows (nth out h1 []))
    = (Z.of_nat (n_rows (nth data h [])) - rows_removed report)%Z.
Proof.
  intro Hrun.
  destruct (clean_data_ok _ _ _ _ _ _ Hrun) as (d' & Hsteps & -> & -> & Hrep).
  destruct (clean_steps_shape _ _ Hsteps) as (Hkeys & Hrows).
  rewrite nth_fresh. eexists. split; [exact Hrep|].
  cbn [initial_shape final_shape columns_removed rows_removed].
  split; [exact Hkeys|]. split; [reflexivity|]. split; [reflexivity|].
  assert (Hlen : length d' = length (nth data h [])).
  { unfold dict_keys in Hkeys.
    now rewrite <- (length_map fst d'), Hkeys, length_map. }
  split; [lia|]. split; lia.
Qed.


(** X3. In the dataset that [clean_data] returns, the text columns, the
    churn column, the total charge and the senior flag have no missing
    cell; tenure and the monthly charge have none either, unless all their
    cells are missing. *)
Theorem clean_data_fills_missing_cells (self self1 : Cleaner.t)
        (data out : ref) (h h1 : heap) (c : string) (s : Series) :
  rectangular (nth data h []) ->
  clean_data self data h = (OK (self1, out), h1) ->
  dict_get c (nth out h1 []) = Some s ->
  (In c (categorical_columns ++ ["Churn"; "TotalCharges"; "SeniorCitizen"]) ->
   isnull_any s = false) /\
  (In c ["tenure"; "MonthlyCharges"] -> isnull_any s = false \/ all_null s).
Proof.
  intros Hr Hrun Hget.
  destruct (clean_data_ok _ _ _ _ _ _ Hrun) as (d' & Hsteps & -> & -> & _).
  rewrite nth_fresh in Hget.
  destruct (clean_steps_spec _ _ Hr Hsteps) as (Hc & _).
  destruct (Hc c s Hget) as (Hnum & Htext & _ & Htotal & Hsenior).
  split; intro Hin.
  - apply isnull_any_false.
    apply in_app_or in Hin. destruct Hin as [Hin | Hin].
    + apply stripped_text_no_null, Htext, mem_In, in_or_app. now left.
    + cbn [In] in Hin. destruct Hin as [<- | [<- | [<- | []]]].
      * apply stripped_text_no_null, Htext. vm_compute. reflexivity.
      * apply numbers_no_null, Htotal. reflexivity.
      * apply whole_numbers_no_null, Hsenior. reflexivity.
  - destruct Hnum as [H | H].
    + cbn [In] in Hin. destruct Hin as [<- | [<- | []]]; reflexivity.
    + left. now apply isnull_any_false.
    + now right.
Qed.

(** X4. In the dataset that [clean_data] returns, every cell of a text
    column and of the churn column is a string with no white space at
    either end, and no cell of the six service columns says
    [No internet service] or [No phone service]. *)
Theorem clean_data_normalises_text (self self1 : Cleaner.t)
        (data out : ref) (h h1 : heap) (c : string) (s : Series) :
  rectangular (nth data h []) ->
  clean_data self data h = (OK (self1, out), h1) ->
  dict_get c (nth out h1 []) = Some s ->
  (In c (categorical_columns ++ ["Churn"]) ->
   dtype_of s = Object /\
   Forall (fun v => exists x, v = VStr x /\ strip x = x) (cells s)) /\
  (In c service_columns ->
   Forall (fun v => v <> VStr "No internet service" /\
                    v <> VStr "No phone service") (cells s)).
Proof.
  intros Hr Hrun Hget.
  destruct (clean_data_ok _ _ _ _ _ _ Hrun) as (d' & Hsteps & -> & -> & _).
  rewrite nth_fresh in Hget.
  destruct (clean_steps_spec _ _ Hr Hsteps) as (Hc & _).
  destruct (Hc c s Hget) as (_ & Htext & Hservice & _).
  split; intro Hin.
  - now apply Htext, mem_In.
  - now apply Hservice, mem_In.
Qed.

(** X5. A text column that has rows and whose cells are all missing makes
    [clean_data] raise: the mode of such a column is empty. *)
Theorem clean_data_raises_on_empty_category (self : Cleaner.t) (data : ref)
        (h : heap) (c : string) (s : Series) :
  In c categorical_columns ->
  dict_get c (nth data h []) = Some s ->
  cells s <> [] -> all_null s ->
  exists e, fst (clean_data self data h) = Raise e.
Proof.
  intros Hc Hget Hne Hnull.
  destruct (before_duplicates (nth data h [])) as [d3|e] eqn:E3.
  - exfalso.
    destruct (before_duplicates_present _ _ _ _ E3 Hget) as (s3 & _ & Hcol).
    unfold clean_column in Hcol.
    assert (Hn : mem c numeric_columns = false).
    { clear - Hc. apply mem_In in Hc. each_column Hc; reflexivity. }
    apply mem_In in Hc. rewrite Hn, Hc in Hcol. cbn [bind] in Hcol.
    unfold impute_mode in Hcol.
    rewrite (all_null_isnull s Hne Hnull), (all_null_mode s Hnull) in Hcol.
    discriminate.
  - exists e. now apply clean_data_raises.
Qed.

(** X6. The senior flag is converted to integers without its missing
    cells having been filled: a missing cell in that column makes
    [clean_data] raise. *)
Theorem clean_data_raises_on_missing_senior_flag (self : Cleaner.t)
        (data : ref) (h : heap) (s : Series) :
  dict_get "SeniorCitizen" (nth data h []) = Some s ->
  isnull_any s = true ->
  exists e, fst (clean_data self data h) = Raise e.
Proof.
  intros Hget Hnull.
  destruct (before_duplicates (nth data h [])) as [d3|e] eqn:E3.
  - exfalso.
    destruct (before_duplicates_present _ _ _ _ E3 Hget) as (s3 & _ & Hcol).
    unfold clean_column in Hcol. compute_mems Hcol.
    destruct (astype_int_null s Hnull) as (e & He). congruence.
  - exists e. now apply clean_data_raises.
Qed.


End Whole.

Lemma clean_data_report_counts_witness :
  exists report,
    get_cleaning_report sample_cleaner = Some report /\
    dict_keys (nth 1 sample_heap []) = dict_keys (nth 0 [raw_sample] []) /\
    initial_shape report = shape (nth 0 [raw_sample] []) /\
    final_shape report = shape (nth 1 sample_heap []) /\
    columns_removed report = 0%Z /\
    (0 <= rows_removed report)%Z /\
    Z.of_nat (n_rows (nth 1 sample_heap []))
    = (Z.of_nat (n_rows (nth 0 [raw_sample] [])) - rows_removed report)%Z.
Proof.
  apply (clean_data_report_counts (text := whole_number_text)
           Cleaner.init sample_cleaner 0 1 [raw_sample] sample_heap).
  vm_compute. reflexivity.
Defined.


Lemma clean_data_fills_missing_cells_witness :
  (In "TotalCharges"
      (categorical_columns ++ ["Churn"; "TotalCharges"; "SeniorCitizen"]) ->
   isnull_any (mkSeries Float64 [VNum 30; VNum 0]) = false) /\
  (In "TotalCharges" ["tenure"; "MonthlyCharges"] ->
   isnull_any (mkSeries Float64 [VNum 30; VNum 0]) = false \/
   all_null (mkSeries Float64 [VNum 30; VNum 0])).
Proof.
  apply (clean_data_fills_missing_cells (text := whole_number_text)
           Cleaner.init sample_cleaner 0 1 [raw_sample] sample_heap
           "TotalCharges" (mkSeries Float64 [VNum 30; VNum 0])).
  - repeat constructor.
  - vm_compute. reflexivity.
  - reflexivity.
Defined.

Lemma clean_data_normalises_text_witness :
  (In "Contract" (categorical_columns ++ ["Churn"]) ->
   dtype_of (text_column ["Month-to-month"; "Two year"]) = Object /\
   Forall (fun v => exists x, v = VStr x /\ strip x = x)
          (cells (text_column ["Month-to-month"; "Two year"]))) /\
  (In "Contract" service_columns ->
   Forall (fun v => v <> VStr "No internet service" /\
                    v <> VStr "No phone service")
          (cells (text_column ["Month-to-month"; "Two year"]))).
Proof.
  apply (clean_data_normalises_text (text := whole_number_text)
           Cleaner.init sample_cleaner 0 1 [raw_sample] sample_heap
           "Contract" (text_column ["Month-to-month"; "Two year"])).
  - repeat constructor.
  - vm_compute. reflexivity.
  - reflexivity.
Defined.

Lemma clean_data_raises_on_empty_category_witness :
  exists e,
    fst (clean_data (text := whole_number_text) Cleaner.init 0 [no_gender])
    = Raise e.
Proof.
  apply (clean_data_raises_on_empty_category (text := whole_number_text)
           Cleaner.init 0 [no_gender] "gender" (mkSeries Object [VNaN; VNaN])).
  - left. reflexivity.
  - reflexivity.
  - discriminate.
  - repeat constructor.
Defined.

Lemma clean_data_raises_on_missing_senior_flag_witness :
  exists e,
    fst (clean_data (text := whole_number_text) Cleaner.init 0 [unknown_senior])
    = Raise e.
Proof.
  apply (clean_data_raises_on_missing_senior_flag (text := whole_number_text)
           Cleaner.init 0 [unknown_senior] (mkSeries Float64 [VNum 0; VNaN])).
  - reflexivity.
  - reflexivity.
Defined.


End CleanerProperties.

(** ** The arithmetic of the derived features, on single cells *)

Module ArithmeticFacts.
Import Engineer.

(** [tenure + 1] on an [int64] column wraps around at the largest
    integer. *)
Example tenure_plus_one_wraps :
  add_one (mkSeries Int64 [VNum (inject_Z (2 ^ 63 - 1)); VNum 71])
  = OK (mkSeries Int64 [VNum (inject_Z (- 2 ^ 63)); VNum 72]).
Proof. vm_compute. reflexivity. Qed.

(** A difference of two [int64] columns wraps around; on a column of
    floats it is rounded: [2 ^ 53 + 1] is not a binary64 number. *)
Example difference_wraps_or_rounds :
  sub (mkSeries Int64 [VNum (inject_Z (- 2 ^ 63))]) (mkSeries Int64 [VNum 1])
  = OK (mkSeries Int64 [VNum (inject_Z (2 ^ 63 - 1))]) /\
  sub (mkSeries Float64 [VNum (inject_Z (2 ^ 53))]) (mkSeries Int64 [VNum (-1)])
  = OK (mkSeries Float64 [VNum (inject_Z (2 ^ 53))]).
Proof. split; vm_compute; reflexivity. Qed.

(** A quotient is rounded to binary64: 1 / 3 is
    [6004799503160661 / 2 ^ 54]. *)
Example quotient_is_rounded :
  div (mkSeries Float64 [VNum 1]) (mkSeries Int64 [VNum 3])
  = OK (mkSeries Float64 [VNum (6004799503160661 # 18014398509481984)]).
Proof. vm_compute. reflexivity. Qed.

(** Division by 0 does not raise and does not give a missing cell, unless
    the dividend is 0 too: it gives an infinity of the sign of the
    dividend. *)
Example zero_divisor_gives_infinity :
  exists cs,
    div (mkSeries Float64 [VNum 5; VNum (-5); VNum 0])
        (mkSeries Int64 [VNum 0; VNum 0; VNum 0])
    = OK (mkSeries Float64 cs) /\
    map is_null cs = [false; false; true] /\
    map (value_eqb (VNum infinity)) cs = [true; false; false] /\
    map (value_eqb (VNum (- infinity))) cs = [false; true; false].
Proof. eexists. repeat split; vm_compute; reflexivity. Qed.

End ArithmeticFacts.

(** ** The derived features, cell by cell *)

Module FeatureFacts.
Import Engineer EngineerFacts DerivationFacts ListFacts.

(** An arithmetic operation that returns has worked cell by cell. *)
Lemma arith_cells (op : Q -> Q -> value) (dt : dtype) (a b s : Series) :
  arith op dt a b = OK s ->
  dtype_of s = dt /\
  length (cells s) = Nat.min (length (cells a)) (length (cells b)) /\
  forall i, i < length (cells a) -> i < length (cells b) ->
            arith_cell op (nth i (cells a) VNaN) (nth i (cells b) VNaN)
            = OK (nth i (cells s) VNaN).
Proof.
  unfold arith.
  destruct (mapM _ (combine (cells a) (cells b))) as [cs|] eqn:E; cbn [bind];
    [|discriminate].
  intros [= <-]. cbn [dtype_of cells].
  destruct (mapM_nth _ _ _ _ _ (VNaN, VNaN) VNaN E) as (Hlen & Hnth).
  rewrite length_combine in Hlen, Hnth.
  split; [reflexivity|]. split; [exact Hlen|].
  intros i Ha Hb. specialize (Hnth i ltac:(lia)).
  rewrite nth_combine in Hnth by assumption. exact Hnth.
Qed.

Lemma wrap_int64_small (z : Z) :
  (- 2 ^ 63 <= z < 2 ^ 63)%Z -> wrap_int64 z = z.
Proof.
  intro H. unfold wrap_int64.
  change (2 ^ 63)%Z with 9223372036854775808%Z in *.
  change (2 ^ 64)%Z with 18446744073709551616%Z.
  rewrite Z.mod_small; lia.
Qed.

(** A count below 8 and a flag: their sum as 64-bit integers is their
    sum. *)
Lemma add_cell_count (k : nat) (b : bool) :
  k < 8 ->
  add_cell Int64 Int64 (inject_Z (Z.of_nat k)) (if b then 1 else 0)%Q
  = num (k + (if b then 1 else 0)).
Proof.
  intro Hk. cbn [add_cell]. unfold int_cell, num. rewrite Qfloor_Z.
  assert (Hb : Qfloor (if b then 1 else 0)%Q = (if b then 1 else 0)%Z)
    by (destruct b; reflexivity).
  rewrite Hb.
  rewrite wrap_int64_small
    by (change (2 ^ 63)%Z with 9223372036854775808%Z; destruct b; lia).
  do 2 f_equal. destruct b; lia.
Qed.

(** Adding a column of flags to a column of counts. *)
Lemma add_counts (counts : list nat) (bs : list bool) :
  length bs = length counts ->
  Forall (fun k => k < 8) counts ->
  add (mkSeries Int64 (map num counts)) (int_of_bools bs)
  = OK (mkSeries Int64
          (map num (map (fun p => fst p + (if snd p : bool then 1 else 0))
                        (combine counts bs)))).
Proof.
  intros Hlen Hsmall. unfold add, arith, int_of_bools.
  cbn [dtype_of cells join_dtype].
  assert (H : mapM (fun p => arith_cell (add_cell Int64 Int64) (fst p) (snd p))
                (combine (map num counts)
                   (map (fun b : bool => VNum (if b then 1 else 0)%Q) bs))
              = OK (map num (map (fun p => fst p + (if snd p : bool then 1 else 0))
                               (combine counts bs)))).
  { revert bs Hlen. induction Hsmall as [|k counts Hk Hsmall IH];
      intros [|b bs] Hlen; cbn in Hlen; try discriminate; [reflexivity|].
    cbn [map combine mapM fst snd]. rewrite IH by lia.
    unfold num at 1. cbn [arith_cell bind].
    now rewrite add_cell_count. }
  rewrite H. reflexivity.
Qed.

Lemma count_services_fold (d : DataFrame) (cols : list string) :
  rectangular d ->
  ~ In "feature_total_services" cols ->
  forall (dk : DataFrame) (counts : list nat),
  (forall col, col <> "feature_total_services" ->
               dict_get col dk = dict_get col d) ->
  dict_get "feature_total_services" dk
  = Some (mkSeries Int64 (map num counts)) ->
  length counts = n_rows d ->
  Forall (fun k => k + length cols <= 8) counts ->
  exists d' counts',
    foldM count_service cols dk = OK d' /\
    (forall col, col <> "feature_total_services" ->
                 dict_get col d' = dict_get col d) /\
    dict_get "feature_total_services" d'
    = Some (mkSeries Int64 (map num counts')) /\
    length counts' = n_rows d /\
    forall i, i < n_rows d ->
              nth i counts' 0
              = nth i counts 0 + length (filter (counted d i) cols).
Proof.
  intros Hr. induction cols as [|col cols IH];
    intros Hnot dk counts Hsame Htot Hlen Hsmall.
  - exists dk, counts. cbn [foldM filter length]. repeat split; auto.
  - assert (Hcol : col <> "feature_total_services")
      by (intros ->; apply Hnot; now left).
    assert (Hnot' : ~ In "feature_total_services" cols)
      by (intro; apply Hnot; now right).
    assert (Hless : Forall (fun k => k < 8) counts).
    { eapply Forall_impl; [|exact Hsmall]. cbn [length]. intros k Hk. lia. }
    cbn [foldM]. unfold count_service at 1.
    rewrite (Hsame col Hcol).
    destruct (dict_get col d) as [s|] eqn:Es.
    + unfold getitem. rewrite Htot. cbn [bind].
      assert (Hs : length (ne_text s "No") = length counts).
      { unfold ne_text. rewrite length_map, Hlen.
        exact (FrameFacts.rectangular_get d col s Hr Es). }
      rewrite (add_counts counts _ Hs Hless). cbn [bind].
      destruct (IH Hnot'
                  (dict_set "feature_total_services"
                     (mkSeries Int64
                        (map num (map (fun p => fst p + (if snd p : bool then 1 else 0))
                                      (combine counts (ne_text s "No"))))) dk)
                  (map (fun p => fst p + (if snd p : bool then 1 else 0))
                       (combine counts (ne_text s "No"))))
        as (d' & counts' & Hrun & Hsame' & Htot' & Hlen' & Hcount).
      * intros c Hc. rewrite dict_get_set_other by assumption. now apply Hsame.
      * apply dict_get_set_same.
      * rewrite length_map, length_combine, Hs, Nat.min_id. exact Hlen.
      * apply Forall_forall. intros k' Hk'.
        apply in_map_iff in Hk'. destruct Hk' as ([k b] & <- & Hin).
        apply in_combine_l in Hin.
        rewrite Forall_forall in Hsmall. specialize (Hsmall k Hin).
        cbn [length fst snd] in *. destruct b; lia.
      * exists d', counts'. split; [exact Hrun|]. split; [exact Hsame'|].
        split; [exact Htot'|]. split; [exact Hlen'|].
        intros i Hi. rewrite (Hcount i Hi).
        cbn [filter]. unfold counted at 2. rewrite Es.
        rewrite (nth_map _ _ _ _ _ (0, false))
          by (rewrite length_combine, Hs, Nat.min_id; lia).
        rewrite nth_combine by lia. cbn [fst snd].
        unfold ne_text in Hs |- *. rewrite length_map in Hs.
        rewrite (nth_map _ _ _ _ _ VNaN) by lia.
        destruct (negb (value_eqb (nth i (cells s) VNaN) (VStr "No")));
          cbn [length]; lia.
    + cbn [bind].
      assert (Hsmall' : Forall (fun k => k + length cols <= 8) counts).
      { eapply Forall_impl; [|exact Hsmall]. cbn [length]. intros k Hk. lia. }
      destruct (IH Hnot' dk counts Hsame Htot Hlen Hsmall')
        as (d' & counts' & Hrun & Hsame' & Htot' & Hlen' & Hcount).
      exists d', counts'. repeat split; auto.
      intros i Hi. rewrite (Hcount i Hi). cbn [filter]. unfold counted at 2.
      now rewrite Es.
Qed.

Lemma set_total_services_counts (d : DataFrame) :
  rectangular d ->
  exists d1 s,
    set_total_services d = OK d1 /\
    (forall col, col <> "feature_total_services" ->
                 dict_get col d1 = dict_get col d) /\
    dict_get "feature_total_services" d1 = Some s /\
    dtype_of s = Int64 /\ length (cells s) = n_rows d /\
    forall i, i < n_rows d ->
              nth i (cells s) VNaN = num (services_in_row d i).
Proof.
  intro Hr. unfold set_total_services.
  destruct (count_services_fold d service_columns Hr) with
    (dk := dict_set "feature_total_services"
             (mkSeries Int64 (repeat (VNum 0) (n_rows d))) d)
    (counts := repeat 0 (n_rows d))
    as (d' & counts' & Hrun & Hsame & Htot & Hlen & Hcount).
  - cbn. intuition discriminate.
  - intros col Hcol. now apply dict_get_set_other.
  - rewrite dict_get_set_same. do 2 f_equal.
    induction (n_rows d) as [|n IH]; cbn; [reflexivity|]. now rewrite IH.
  - apply repeat_length.
  - apply Forall_forall. intros k Hk. apply repeat_spec in Hk. subst k.
    cbn. lia.
  - exists d', (mkSeries Int64 (map num counts')).
    split; [exact Hrun|]. split; [exact Hsame|]. split; [exact Htot|].
    cbn [dtype_of cells]. split; [reflexivity|].
    split; [now rewrite length_map|].
    intros i Hi.
    rewrite (nth_map _ _ _ _ _ 0) by lia.
    rewrite (Hcount i Hi). rewrite nth_repeat. reflexivity.
Qed.

(** *** Each statement assigns one column *)

Lemma count_service_frame (d d' : DataFrame) (col : string) :
  count_service d col = OK d' ->
  (forall c, c <> "feature_total_services" -> dict_get c d' = dict_get c d) /\
  (dict_mem "feature_total_services" d = true ->
   dict_mem "feature_total_services" d' = true).
Proof.
  unfold count_service. destruct (dict_get col d) as [s|].
  - destruct (getitem d "feature_total_services") as [t|]; cbn [bind];
      [|discriminate].
    destruct (add t _) as [t'|]; cbn [bind]; [|discriminate].
    intros [= <-]. split.
    + intros c Hc. now apply dict_get_set_other.
    + intros _. unfold dict_mem. now rewrite dict_get_set_same.
  - intros [= <-]. auto.
Qed.

Lemma count_services_frame (cols : list string) (d d' : DataFrame) :
  foldM count_service cols d = OK d' ->
  (forall c, c <> "feature_total_services" -> dict_get c d' = dict_get c d) /\
  (dict_mem "feature_total_services" d = true ->
   dict_mem "feature_total_services" d' = true).
Proof.
  revert d. induction cols as [|col cols IH]; intros d; cbn [foldM].
  - intros [= <-]. auto.
  - destruct (count_service d col) as [d1|] eqn:E; cbn [bind]; [|discriminate].
    intro H. destruct (count_service_frame _ _ _ E) as (F1 & M1).
    destruct (IH _ H) as (F2 & M2). split.
    + intros c Hc. now rewrite (F2 c Hc), (F1 c Hc).
    + auto.
Qed.

Lemma set_total_services_frame (d d' : DataFrame) :
  set_total_services d = OK d' ->
  (forall c, c <> "feature_total_services" -> dict_get c d' = dict_get c d) /\
  dict_mem "feature_total_services" d' = true.
Proof.
  unfold set_total_services. intro H.
  destruct (count_services_frame _ _ _ H) as (F & M). split.
  - intros c Hc. rewrite (F c Hc). now apply dict_get_set_other.
  - apply M. unfold dict_mem. now rewrite dict_get_set_same.
Qed.

Ltac step_value :=
  repeat match goal with
         | |- context [getitem ?d ?c] =>
             let s := fresh "s" in
             let E := fresh "E" in
             destruct (getitem d c) as [s|] eqn:E; cbn [bind];
             [apply getitem_ok in E | discriminate]
         | |- context [add_one ?a] =>
             let E := fresh "E" in
             destruct (add_one a) eqn:E; cbn [bind]; [|discriminate]
         | |- context [div ?a ?b] =>
             let E := fresh "E" in
             destruct (div a b) eqn:E; cbn [bind]; [|discriminate]
         | |- context [sub ?a ?b] =>
             let E := fresh "E" in
             destruct (sub a b) eqn:E; cbn [bind]; [|discriminate]
         end;
  intros [= <-]; eauto 12.

Lemma set_has_family_value (d d' : DataFrame) :
  set_has_family d = OK d' ->
  exists p q,
    dict_get "Partner" d = Some p /\ dict_get "Dependents" d = Some q /\
    d' = dict_set "feature_has_family"
           (int_of_bools (or_bools (eq_text p "Yes") (eq_text q "Yes"))) d.
Proof. unfold set_has_family. step_value. Qed.

Lemma set_is_senior_value (d d' : DataFrame) :
  set_is_senior d = OK d' ->
  d' = match dict_get "SeniorCitizen" d with
       | Some s => dict_set "feature_is_senior" s d
       | None => d
       end.
Proof.
  unfold set_is_senior. destruct (dict_get "SeniorCitizen" d); now intros [= <-].
Qed.

Lemma set_long_contract_value (d d' : DataFrame) :
  set_long_contract d = OK d' ->
  exists c,
    dict_get "Contract" d = Some c /\
    d' = dict_set "feature_long_contract"
           (int_of_bools (ne_text c "Month-to-month")) d.
Proof. unfold set_long_contract. step_value. Qed.

Lemma set_multiple_lines_value (d d' : DataFrame) :
  set_multiple_lines d = OK d' ->
  exists l,
    dict_get "MultipleLines" d = Some l /\
    d' = dict_set "feature_multiple_lines" (int_of_bools (eq_text l "Yes")) d.
Proof. unfold set_multiple_lines. step_value. Qed.

Lemma set_monthly_per_tenure_value (d d' : DataFrame) :
  set_monthly_per_tenure d = OK d' ->
  exists m t t1 r,
    dict_get "MonthlyCharges" d = Some m /\ dict_get "tenure" d = Some t /\
    add_one t = OK t1 /\ div m t1 = OK r /\
    d' = dict_set "feature_monthly_per_tenure" r d.
Proof. unfold set_monthly_per_tenure. step_value. Qed.

Lemma set_total_per_tenure_value (d d' : DataFrame) :
  set_total_per_tenure d = OK d' ->
  exists a t t1 r,
    dict_get "TotalCharges" d = Some a /\ dict_get "tenure" d = Some t /\
    add_one t = OK t1 /\ div a t1 = OK r /\
    d' = dict_set "feature_total_per_tenure" r d.
Proof. unfold set_total_per_tenure. step_value. Qed.

Lemma set_charges_difference_value (d d' : DataFrame) :
  set_charges_difference d = OK d' ->
  exists a m r,
    dict_get "TotalCharges" d = Some a /\ dict_get "MonthlyCharges" d = Some m /\
    sub a m = OK r /\
    d' = dict_set "feature_charges_difference" r d.
Proof. unfold set_charges_difference. step_value. Qed.

Lemma with_senior_get (d : DataFrame) (k : string) :
  k <> "feature_is_senior" -> dict_get k (with_senior d) = dict_get k d.
Proof.
  intro Hk. unfold with_senior. destruct (dict_get "SeniorCitizen" d);
    [now apply dict_get_set_other | reflexivity].
Qed.

Ltac through :=
  repeat first [ rewrite dict_get_set_other by discriminate
               | rewrite with_senior_get by discriminate ].

(** The frame after the eight statements, from the frame that the first
    statement leaves. *)
Lemma create_derived_steps (d d' : DataFrame) :
  _create_derived_features d = OK d' ->
  exists d1 p q c l m t a t1 r1 r2 r3,
    set_total_services d = OK d1 /\
    dict_get "Partner" d1 = Some p /\ dict_get "Dependents" d1 = Some q /\
    dict_get "Contract" d1 = Some c /\ dict_get "MultipleLines" d1 = Some l /\
    dict_get "MonthlyCharges" d1 = Some m /\ dict_get "tenure" d1 = Some t /\
    dict_get "TotalCharges" d1 = Some a /\
    add_one t = OK t1 /\ div m t1 = OK r1 /\ div a t1 = OK r2 /\
    sub a m = OK r3 /\
    d' = dict_set "feature_charges_difference" r3
           (dict_set "feature_total_per_tenure" r2
              (dict_set "feature_monthly_per_tenure" r1
                 (dict_set "feature_multiple_lines"
                    (int_of_bools (eq_text l "Yes"))
                    (dict_set "feature_long_contract"
                       (int_of_bools (ne_text c "Month-to-month"))
                       (with_senior
                          (dict_set "feature_has_family"
                             (int_of_bools
                                (or_bools (eq_text p "Yes") (eq_text q "Yes")))
                             d1)))))).
Proof.
  unfold _create_derived_features. intro Hrun.
  destruct (set_total_services d) as [d1|] eqn:E1; cbn [bind] in Hrun;
    [|discriminate].
  exists d1.
  destruct (set_has_family d1) as [d2|] eqn:E2; cbn [bind] in Hrun;
    [|discriminate].
  destruct (set_has_family_value _ _ E2) as (p & q & Hp & Hq & ->).
  destruct (set_is_senior _) as [d3|] eqn:E3; cbn [bind] in Hrun;
    [|discriminate].
  apply set_is_senior_value in E3. fold (with_senior
    (dict_set "feature_has_family"
       (int_of_bools (or_bools (eq_text p "Yes") (eq_text q "Yes"))) d1)) in E3.
  subst d3.
  destruct (set_long_contract _) as [d4|] eqn:E4; cbn [bind] in Hrun;
    [|discriminate].
  destruct (set_long_contract_value _ _ E4) as (c & Hc & ->).
  destruct (set_multiple_lines _) as [d5|] eqn:E5; cbn [bind] in Hrun;
    [|discriminate].
  destruct (set_multiple_lines_value _ _ E5) as (l & Hl & ->).
  destruct (set_monthly_per_tenure _) as [d6|] eqn:E6; cbn [bind] in Hrun;
    [|discriminate].
  destruct (set_monthly_per_tenure_value _ _ E6)
    as (m & t & t1 & r1 & Hm & Ht & Ht1 & Hr1 & ->).
  destruct (set_total_per_tenure _) as [d7|] eqn:E7; cbn [bind] in Hrun;
    [|discriminate].
  destruct (set_total_per_tenure_value _ _ E7)
    as (a & t' & t1' & r2 & Ha & Ht' & Ht1' & Hr2 & ->).
  destruct (set_charges_difference_value _ _ Hrun)
    as (a' & m' & r3 & Ha' & Hm' & Hr3 & ->).
  revert Hc Hl Hm Ht Ha Ht' Ha' Hm'. through.
  intros Hc Hl Hm Ht Ha Ht' Ha' Hm'.
  rewrite Ht in Ht'. injection Ht' as <-.
  rewrite Ht1 in Ht1'. injection Ht1' as <-.
  rewrite Ha in Ha'. injection Ha' as <-.
  rewrite Hm in Hm'. injection Hm' as <-.
  exists p, q, c, l, m, t, a, t1, r1, r2, r3.
  repeat (split; [first [reflexivity | assumption]|]). reflexivity.
Qed.

End FeatureFacts.

(** ** The derived features *)

Module FeatureTheorems.
Import Engineer EngineerFacts DerivationFacts ListFacts FeatureFacts.

Lemma services_in_row_bound (d : DataFrame) (i : nat) :
  services_in_row d i <= 8.
Proof.
  unfold services_in_row.
  etransitivity; [apply filter_length_le|]. reflexivity.
Qed.

(** X8. The count of services: when the derivation returns, the cell of
    [feature_total_services] in a row is the number of service columns of
    the input (of the eight that the code lists, those that are there)
    whose cell in that row is not the string [No]; it is an integer between
    0 and 8.  A missing cell counts as a service. *)
Theorem total_services_counts_columns (d d' : DataFrame) :
  rectangular d -> _create_derived_features d = OK d' ->
  exists s,
    dict_get "feature_total_services" d' = Some s /\
    dtype_of s = Int64 /\ length (cells s) = n_rows d /\
    forall i, i < n_rows d ->
      nth i (cells s) VNaN = VNum (inject_Z (Z.of_nat (services_in_row d i))) /\
      services_in_row d i <= 8.
Proof.
  intros Hr Hrun.
  destruct (create_derived_steps _ _ Hrun)
    as (d1 & p & q & c & l & m & t & a & t1 & r1 & r2 & r3 & E1 & _ & _ & _ &
        _ & _ & _ & _ & _ & _ & _ & _ & ->).
  destruct (set_total_services_counts d Hr)
    as (d1' & s & E1' & _ & Hs & Hdt & Hlen & Hcells).
  rewrite E1 in E1'. injection E1' as <-.
  exists s. through. split; [exact Hs|]. split; [exact Hdt|].
  split; [exact Hlen|]. intros i Hi.
  split; [now apply Hcells | apply services_in_row_bound].
Qed.

Lemma flag_cell (bs : list bool) (i : nat) :
  i < length bs ->
  nth i (cells (int_of_bools bs)) VNaN
  = VNum (if nth i bs false then 1 else 0)%Q.
Proof.
  intro Hi. unfold int_of_bools. cbn [cells].
  now rewrite (nth_map _ _ _ _ _ false).
Qed.

(** X9. The three flags: when the derivation returns, in each row
    [feature_has_family] is 1 if the partner cell or the dependents cell is
    the string [Yes] and 0 otherwise, [feature_long_contract] is 0 if the
    contract cell is the string [Month-to-month] and 1 otherwise, and
    [feature_multiple_lines] is 1 if the multiple-lines cell is the string
    [Yes] and 0 otherwise. *)
Theorem derived_flags_by_row (d d' : DataFrame) :
  rectangular d -> _create_derived_features d = OK d' ->
  exists partner dependents contract lines family long many,
    dict_get "Partner" d = Some partner /\
    dict_get "Dependents" d = Some dependents /\
    dict_get "Contract" d = Some contract /\
    dict_get "MultipleLines" d = Some lines /\
    dict_get "feature_has_family" d' = Some family /\
    dict_get "feature_long_contract" d' = Some long /\
    dict_get "feature_multiple_lines" d' = Some many /\
    forall i, i < n_rows d ->
      nth i (cells family) VNaN
      = VNum (if value_eqb (nth i (cells partner) VNaN) (VStr "Yes")
                 || value_eqb (nth i (cells dependents) VNaN) (VStr "Yes")
              then 1 else 0)%Q /\
      nth i (cells long) VNaN
      = VNum (if value_eqb (nth i (cells contract) VNaN) (VStr "Month-to-month")
              then 0 else 1)%Q /\
      nth i (cells many) VNaN
      = VNum (if value_eqb (nth i (cells lines) VNaN) (VStr "Yes")
              then 1 else 0)%Q.
Proof.
  intros Hr Hrun.
  destruct (create_derived_steps _ _ Hrun)
    as (d1 & p & q & c & l & m & t & a & t1 & r1 & r2 & r3 & E1 & Hp & Hq & Hc &
        Hl & _ & _ & _ & _ & _ & _ & _ & ->).
  destruct (set_total_services_frame _ _ E1) as (F1 & _).
  rewrite F1 in Hp, Hq, Hc, Hl by discriminate.
  exists p, q, c, l. do 3 eexists.
  split; [exact Hp|]. split; [exact Hq|]. split; [exact Hc|].
  split; [exact Hl|].
  split; [through; apply dict_get_set_same|].
  split; [through; apply dict_get_set_same|].
  split; [through; apply dict_get_set_same|].
  intros i Hi.
  pose proof (FrameFacts.rectangular_get d _ _ Hr Hp) as Lp.
  pose proof (FrameFacts.rectangular_get d _ _ Hr Hq) as Lq.
  pose proof (FrameFacts.rectangular_get d _ _ Hr Hc) as Lc.
  pose proof (FrameFacts.rectangular_get d _ _ Hr Hl) as Ll.
  split; [|split].
  - rewrite flag_cell.
    2:{ unfold or_bools, eq_text.
        rewrite length_map, length_combine, !length_map. lia. }
    unfold or_bools, eq_text.
    rewrite (nth_map _ _ _ _ _ (false, false))
      by (rewrite length_combine, !length_map; lia).
    rewrite nth_combine by (rewrite length_map; lia). cbn [fst snd].
    rewrite !(nth_map _ _ _ _ _ VNaN) by lia. reflexivity.
  - rewrite flag_cell by (unfold ne_text; rewrite length_map; lia).
    unfold ne_text. rewrite (nth_map _ _ _ _ _ VNaN) by lia.
    now destruct (value_eqb _ _).
  - rewrite flag_cell by (unfold eq_text; rewrite length_map; lia).
    unfold eq_text. now rewrite (nth_map _ _ _ _ _ VNaN) by lia.
Qed.

Lemma add_one_cells (t t1 : Series) (i : nat) (x : Q) :
  add_one t = OK t1 -> i < length (cells t) ->
  length (cells t1) = length (cells t) /\
  (nth i (cells t) VNaN = VNum x ->
   nth i (cells t1) VNaN = add_cell (dtype_of t) Int64 x 1).
Proof.
  unfold add_one, add. intros H Hi.
  destruct (arith_cells _ _ _ _ _ H) as (_ & Hlen & Hcell).
  cbn [cells dtype_of] in Hlen, Hcell.
  rewrite length_map, Nat.min_id in Hlen.
  split; [exact Hlen|]. intro Hx.
  specialize (Hcell i Hi ltac:(now rewrite length_map)).
  rewrite Hx, (nth_map _ _ _ _ _ VNaN) in Hcell by exact Hi.
  cbn [arith_cell] in Hcell. now injection Hcell as <-.
Qed.

(** A quotient by [tenure + 1], cell by cell. *)
Lemma ratio_cells (a t t1 r : Series) (i : nat) (x y : Q) :
  add_one t = OK t1 -> div a t1 = OK r ->
  i < length (cells a) -> i < length (cells t) ->
  nth i (cells a) VNaN = VNum x -> nth i (cells t) VNaN = VNum y ->
  nth i (cells r) VNaN = ratio_cell (dtype_of t) x y.
Proof.
  intros Ht1 Hr Ha Ht Hx Hy.
  destruct (add_one_cells t t1 i y Ht1 Ht) as (Lt1 & Hy1).
  specialize (Hy1 Hy).
  destruct (arith_cells _ _ _ _ _ Hr) as (_ & _ & Hcell).
  specialize (Hcell i Ha ltac:(lia)).
  rewrite Hx, Hy1 in Hcell. unfold ratio_cell.
  pose proof (add_cell_numeric (dtype_of t) Int64 y 1) as Hnum.
  destruct (add_cell (dtype_of t) Int64 y 1) as [y1|z|];
    [|discriminate|]; cbn [arith_cell] in Hcell; now injection Hcell as <-.
Qed.

(** X10. The three numeric features, on columns of a number type: when
    the derivation returns, in each row where the monthly charge [m], the
    tenure [t] and the total charge [a] are numbers,
    [feature_charges_difference] is [a - m], and
    [feature_monthly_per_tenure] and [feature_total_per_tenure] are [m] and
    [a] divided by [t + 1], computed from the columns of the input as numpy
    computes: [a - m] and [t + 1] on 64-bit integers, wrapping around,
    when the columns they are taken from are [int64], and on binary64
    numbers, rounded, otherwise; the quotients on binary64 numbers, an
    infinity where [t + 1] is 0 and the dividend is not.  The two ratios
    are columns of floats. *)
Theorem derived_ratios_by_row (d d' : DataFrame) :
  rectangular d -> _create_derived_features d = OK d' ->
  exists monthly tenure total ratio1 ratio2 difference,
    dict_get "MonthlyCharges" d = Some monthly /\
    dict_get "tenure" d = Some tenure /\
    dict_get "TotalCharges" d = Some total /\
    dict_get "feature_monthly_per_tenure" d' = Some ratio1 /\
    dict_get "feature_total_per_tenure" d' = Some ratio2 /\
    dict_get "feature_charges_difference" d' = Some difference /\
    (dtype_of monthly <> Object -> dtype_of tenure <> Object ->
     dtype_of total <> Object ->
     dtype_of ratio1 = Float64 /\ dtype_of ratio2 = Float64 /\
     dtype_of difference = join_dtype (dtype_of total) (dtype_of monthly) /\
     forall i m t a, i < n_rows d ->
       nth i (cells monthly) VNaN = VNum m ->
       nth i (cells tenure) VNaN = VNum t ->
       nth i (cells total) VNaN = VNum a ->
       nth i (cells difference) VNaN
       = sub_cell (dtype_of total) (dtype_of monthly) a m /\
       nth i (cells ratio1) VNaN = ratio_cell (dtype_of tenure) m t /\
       nth i (cells ratio2) VNaN = ratio_cell (dtype_of tenure) a t).
Proof.
  intros Hr Hrun.
  destruct (create_derived_steps _ _ Hrun)
    as (d1 & p & q & c & l & m & t & a & t1 & r1 & r2 & r3 & E1 & _ & _ & _ &
        _ & Hm & Ht & Ha & Ht1 & Hr1 & Hr2 & Hr3 & ->).
  destruct (set_total_services_frame _ _ E1) as (F1 & _).
  rewrite F1 in Hm, Ht, Ha by discriminate.
  exists m, t, a, r1, r2, r3.
  split; [exact Hm|]. split; [exact Ht|]. split; [exact Ha|].
  split; [through; apply dict_get_set_same|].
  split; [through; apply dict_get_set_same|].
  split; [apply dict_get_set_same|].
  intros Om Ot Oa.
  pose proof (FrameFacts.rectangular_get d _ _ Hr Hm) as Lm.
  pose proof (FrameFacts.rectangular_get d _ _ Hr Ht) as Lt.
  pose proof (FrameFacts.rectangular_get d _ _ Hr Ha) as La.
  assert (Dt1 : dtype_of t1 <> Object).
  { unfold add_one, add in Ht1.
    destruct (arith_cells _ _ _ _ _ Ht1) as (-> & _).
    cbn [dtype_of]. destruct (dtype_of t); cbn; congruence. }
  split; [|split; [|split]].
  - unfold div in Hr1. destruct (arith_cells _ _ _ _ _ Hr1) as (-> & _).
    destruct (dtype_of m), (dtype_of t1); cbn; congruence.
  - unfold div in Hr2. destruct (arith_cells _ _ _ _ _ Hr2) as (-> & _).
    destruct (dtype_of a), (dtype_of t1); cbn; congruence.
  - unfold sub in Hr3. now destruct (arith_cells _ _ _ _ _ Hr3) as (-> & _).
  - intros i xm xt xa Hi Hxm Hxt Hxa. split; [|split].
    + unfold sub in Hr3. destruct (arith_cells _ _ _ _ _ Hr3) as (_ & _ & Hcell).
      specialize (Hcell i ltac:(lia) ltac:(lia)).
      rewrite Hxa, Hxm in Hcell. cbn [arith_cell] in Hcell.
      now injection Hcell as <-.
    + apply (ratio_cells m t t1 r1 i xm xt Ht1 Hr1); [lia | lia | exact Hxm | exact Hxt].
    + apply (ratio_cells a t t1 r2 i xa xt Ht1 Hr2); [lia | lia | exact Hxa | exact Hxt].
Qed.

(** X11. The derivation only adds columns: when it returns, every column
    whose name is not one of the eight feature names is as it was, the
    seven features that do not depend on the senior flag are there, and
    [feature_is_senior] is the senior-flag column when there is one (it is
    not assigned otherwise). *)
Theorem derivation_only_adds_features (d d' : DataFrame) :
  _create_derived_features d = OK d' ->
  (forall c, ~ In c derived_names -> dict_get c d' = dict_get c d) /\
  (forall c, In c derived_names -> c <> "feature_is_senior" ->
             dict_mem c d' = true) /\
  (forall s, dict_get "SeniorCitizen" d = Some s ->
             dict_get "feature_is_senior" d' = Some s) /\
  (dict_get "SeniorCitizen" d = None ->
   dict_get "feature_is_senior" d' = dict_get "feature_is_senior" d).
Proof.
  intro Hrun.
  destruct (create_derived_steps _ _ Hrun)
    as (d1 & p & q & c & l & m & t & a & t1 & r1 & r2 & r3 & E1 & _ & _ & _ &
        _ & _ & _ & _ & _ & _ & _ & _ & ->).
  destruct (set_total_services_frame _ _ E1) as (F1 & M1).
  split; [|split; [|split]].
  - intros k Hk. cbn [derived_names In] in Hk.
    rewrite !dict_get_set_other by (intros ->; tauto).
    rewrite with_senior_get by (intros ->; tauto).
    rewrite dict_get_set_other by (intros ->; tauto).
    apply F1. intros ->; tauto.
  - intros k Hk Hsenior. cbn [derived_names In] in Hk. unfold dict_mem.
    destruct Hk as [<- | [<- | [<- | [<- | [<- | [<- | [<- | [<- | []]]]]]]]];
      try congruence; through; rewrite ?dict_get_set_same; try reflexivity.
    exact M1.
  - intros s Hs. through. unfold with_senior.
    rewrite dict_get_set_other by discriminate.
    rewrite F1 by discriminate. rewrite Hs. apply dict_get_set_same.
  - intros Hs. through. unfold with_senior.
    rewrite dict_get_set_other by discriminate.
    rewrite F1 by discriminate. rewrite Hs.
    rewrite dict_get_set_other by discriminate. now apply F1.
Qed.


Lemma total_services_counts_columns_witness :
  exists s,
    dict_get "feature_total_services" derived_sample = Some s /\
    dtype_of s = Int64 /\ length (cells s) = n_rows cleaned_sample /\
    forall i, i < n_rows cleaned_sample ->
      nth i (cells s) VNaN
      = VNum (inject_Z (Z.of_nat (services_in_row cleaned_sample i))) /\
      services_in_row cleaned_sample i <= 8.
Proof.
  apply (total_services_counts_columns cleaned_sample derived_sample).
  - repeat constructor.
  - vm_compute. reflexivity.
Defined.

Lemma derived_flags_by_row_witness :
  exists partner dependents contract lines family long many,
    dict_get "Partner" cleaned_sample = Some partner /\
    dict_get "Dependents" cleaned_sample = Some dependents /\
    dict_get "Contract" cleaned_sample = Some contract /\
    dict_get "MultipleLines" cleaned_sample = Some lines /\
    dict_get "feature_has_family" derived_sample = Some family /\
    dict_get "feature_long_contract" derived_sample = Some long /\
    dict_get "feature_multiple_lines" derived_sample = Some many /\
    forall i, i < n_rows cleaned_sample ->
      nth i (cells family) VNaN
      = VNum (if value_eqb (nth i (cells partner) VNaN) (VStr "Yes")
                 || value_eqb (nth i (cells dependents) VNaN) (VStr "Yes")
              then 1 else 0)%Q /\
      nth i (cells long) VNaN
      = VNum (if value_eqb (nth i (cells contract) VNaN) (VStr "Month-to-month")
              then 0 else 1)%Q /\
      nth i (cells many) VNaN
      = VNum (if value_eqb (nth i (cells lines) VNaN) (VStr "Yes")
              then 1 else 0)%Q.
Proof.
  apply (derived_flags_by_row cleaned_sample derived_sample).
  - repeat constructor.
  - vm_compute. reflexivity.
Defined.

Lemma derived_ratios_by_row_witness :
  exists monthly tenure total ratio1 ratio2 difference,
    dict_get "MonthlyCharges" cleaned_sample = Some monthly /\
    dict_get "tenure" cleaned_sample = Some tenure /\
    dict_get "TotalCharges" cleaned_sample = Some total /\
    dict_get "feature_monthly_per_tenure" derived_sample = Some ratio1 /\
    dict_get "feature_total_per_tenure" derived_sample = Some ratio2 /\
    dict_get "feature_charges_difference" derived_sample = Some difference /\
    (dtype_of monthly <> Object -> dtype_of tenure <> Object ->
     dtype_of total <> Object ->
     dtype_of ratio1 = Float64 /\ dtype_of ratio2 = Float64 /\
     dtype_of difference = join_dtype (dtype_of total) (dtype_of monthly) /\
     forall i m t a, i < n_rows cleaned_sample ->
       nth i (cells monthly) VNaN = VNum m ->
       nth i (cells tenure) VNaN = VNum t ->
       nth i (cells total) VNaN = VNum a ->
       nth i (cells difference) VNaN
       = sub_cell (dtype_of total) (dtype_of monthly) a m /\
       nth i (cells ratio1) VNaN = ratio_cell (dtype_of tenure) m t /\
       nth i (cells ratio2) VNaN = ratio_cell (dtype_of tenure) a t).
Proof.
  apply (derived_ratios_by_row cleaned_sample derived_sample).
  - repeat constructor.
  - vm_compute. reflexivity.
Defined.

Lemma derivation_only_adds_features_witness :
  (forall c, ~ In c derived_names ->
             dict_get c derived_sample = dict_get c cleaned_sample) /\
  (forall c, In c derived_names -> c <> "feature_is_senior" ->
             dict_mem c derived_sample = true) /\
  (forall s, dict_get "SeniorCitizen" cleaned_sample = Some s ->
             dict_get "feature_is_senior" derived_sample = Some s) /\
  (dict_get "SeniorCitizen" cleaned_sample = None ->
   dict_get "feature_is_senior" derived_sample
   = dict_get "feature_is_senior" cleaned_sample).
Proof.
  apply (derivation_only_adds_features cleaned_sample derived_sample).
  vm_compute. reflexivity.
Defined.

End FeatureTheorems.

(** ** Encoding and the final selection *)

Module EncodingFacts.
Import Engineer EngineerFacts DerivationFacts.

Lemma value_eqb_refl (v : value) : value_eqb v v = true.
Proof.
  destruct v as [q|x|]; cbn; [|apply String.eqb_refl|reflexivity].
  apply Qeq_bool_iff. reflexivity.
Qed.

Lemma value_eqb_sym (v w : value) : value_eqb v w = value_eqb w v.
Proof.
  destruct v as [q|x|], w as [r|y|]; cbn; try reflexivity.
  - destruct (Qeq_bool q r) eqn:E1, (Qeq_bool r q) eqn:E2; try reflexivity.
    + apply Qeq_bool_iff in E1. symmetry in E1. apply Qeq_bool_iff in E1.
      congruence.
    + apply Qeq_bool_iff in E2. symmetry in E2. apply Qeq_bool_iff in E2.
      congruence.
  - apply String.eqb_sym.
Qed.

Lemma value_eqb_trans (u v w : value) :
  value_eqb u v = true -> value_eqb v w = true -> value_eqb u w = true.
Proof.
  destruct u as [p|x|], v as [q|y|], w as [r|z|]; cbn; try discriminate; auto.
  - rewrite !Qeq_bool_iff. intros H1 H2. now rewrite H1.
  - rewrite !String.eqb_eq. congruence.
Qed.

(** Two equal values compare alike with any third. *)
Lemma value_eqb_congr (u v w : value) :
  value_eqb u v = true -> value_eqb u w = value_eqb v w.
Proof.
  intro H. destruct (value_eqb v w) eqn:E.
  - eapply value_eqb_trans; eassumption.
  - destruct (value_eqb u w) eqn:E'; [|reflexivity].
    rewrite value_eqb_sym in H.
    rewrite (value_eqb_trans _ _ _ H E') in E. discriminate.
Qed.

Lemma insert_unique_keeps (v u : value) (l : list value) :
  In u l -> In u (insert_unique v l).
Proof.
  induction l as [|w l IH]; cbn [insert_unique]; [contradiction|].
  intro Hu. destruct (value_eqb v w); [exact Hu|].
  destruct (value_leb v w); [now right|].
  destruct Hu as [<- | Hu]; [now left | right; auto].
Qed.

Lemma insert_unique_has (v : value) (l : list value) :
  exists w, In w (insert_unique v l) /\ value_eqb v w = true.
Proof.
  induction l as [|w l IH]; cbn [insert_unique].
  - exists v. split; [now left | apply value_eqb_refl].
  - destruct (value_eqb v w) eqn:E; [exists w; split; [now left | exact E]|].
    destruct (value_leb v w).
    + exists v. split; [now left | apply value_eqb_refl].
    + destruct IH as (u & Hu & Eu). exists u. split; [now right | exact Eu].
Qed.

(** Every value of a column has its class. *)
Lemma unique_has (cs : list value) (v : value) :
  In v cs -> exists w, In w (unique cs) /\ value_eqb v w = true.
Proof.
  unfold unique. induction cs as [|c cs IH]; [contradiction|].
  cbn [fold_right]. intros [<- | Hv].
  - apply insert_unique_has.
  - destruct (IH Hv) as (w & Hw & Ew). exists w.
    split; [now apply insert_unique_keeps | exact Ew].
Qed.

Lemma index_of_bound (v : value) (l : list value) :
  (exists w, In w l /\ value_eqb v w = true) -> index_of v l < length l.
Proof.
  induction l as [|u l IH]; intros (w & Hw & Ew); [contradiction|].
  cbn [index_of length]. destruct (value_eqb v u) eqn:E; [lia|].
  destruct Hw as [-> | Hw]; [congruence|].
  apply Nat.succ_lt_mono in IH; [exact IH|]. eauto.
Qed.

Lemma index_of_hit (v : value) (l : list value) :
  index_of v l < length l -> value_eqb v (nth (index_of v l) l VNaN) = true.
Proof.
  induction l as [|u l IH]; cbn [index_of length nth]; [lia|].
  destruct (value_eqb v u) eqn:E; [intros _; exact E|].
  intro H. apply IH. lia.
Qed.

Lemma index_of_congr (v w : value) (l : list value) :
  value_eqb v w = true -> index_of v l = index_of w l.
Proof.
  intro H. induction l as [|u l IH]; cbn [index_of]; [reflexivity|].
  rewrite (value_eqb_congr v w u H). now rewrite IH.
Qed.

(** Two values of a column have the same code exactly when they are
    equal. *)
Lemma index_of_unique (cs : list value) (v w : value) :
  In v cs -> In w cs ->
  index_of v (unique cs) < length (unique cs) /\
  (index_of v (unique cs) = index_of w (unique cs) <-> value_eqb v w = true).
Proof.
  intros Hv Hw.
  pose proof (index_of_bound v _ (unique_has cs v Hv)) as Bv.
  pose proof (index_of_bound w _ (unique_has cs w Hw)) as Bw.
  split; [exact Bv|]. split.
  - intro Heq. pose proof (index_of_hit v _ Bv) as Ev.
    pose proof (index_of_hit w _ Bw) as Ew. rewrite <- Heq in Ew.
    rewrite value_eqb_sym in Ew. eapply value_eqb_trans; eassumption.
  - apply index_of_congr.
Qed.

Lemma encoded_names_differ (c col : string) :
  In c categorical_columns -> In col categorical_columns -> c <> col ->
  (c ++ "_encoded")%string <> (col ++ "_encoded")%string.
Proof.
  assert (H : forallb (fun c => forallb (fun col =>
                 String.eqb c col
                 || negb (String.eqb (c ++ "_encoded") (col ++ "_encoded")))
                 categorical_columns) categorical_columns = true)
    by (vm_compute; reflexivity).
  intros Hc Hcol Hne. rewrite forallb_forall in H. specialize (H c Hc).
  rewrite forallb_forall in H. specialize (H col Hcol).
  apply orb_true_iff in H. destruct H as [H | H].
  - apply String.eqb_eq in H. contradiction.
  - now apply negb_true_iff, String.eqb_neq in H.
Qed.

(** What the loop of [_encode_categorical_features] leaves. *)
Lemma encode_loop (cols : list string) :
  NoDup cols -> incl cols categorical_columns ->
  forall (encoders encoders' : dict LabelEncoder) (d d' : DataFrame),
  foldM encode_column cols (encoders, d) = OK (encoders', d') ->
  (forall c, (forall col, In col cols -> c <> (col ++ "_encoded")%string) ->
             dict_get c d' = dict_get c d) /\
  (forall c, ~ In c cols -> dict_get c encoders' = dict_get c encoders) /\
  (forall col s, In col cols -> dict_get col d = Some s ->
     uniform (cells s) = true /\
     dict_get col encoders' = Some (mkEncoder (unique (cells s))) /\
     dict_get (col ++ "_encoded")%string d'
     = Some (transform (mkEncoder (unique (cells s))) s)) /\
  (forall col, In col cols -> dict_get col d = None ->
     dict_get col encoders' = dict_get col encoders).
Proof.
  induction 1 as [|col0 cols Hnotin Hnodup IH];
    intros Hincl encoders encoders' d d'; cbn [foldM].
  - intros [= <- <-]. repeat split; auto; intros; contradiction.
  - assert (Hcol0 : In col0 categorical_columns) by (apply Hincl; now left).
    assert (Hrest : incl cols categorical_columns)
      by (intros x Hx; apply Hincl; now right).
    unfold encode_column at 1.
    destruct (dict_get col0 d) as [s0|] eqn:E0.
    + unfold fit_transform_labels.
      destruct (uniform (cells s0)) eqn:Eu; cbn [bind fst snd]; [|discriminate].
      intro Hrun. destruct (IH Hrest _ _ _ _ Hrun) as (F & G & V & N).
      assert (Hfresh : forall col, In col cols ->
                (col0 ++ "_encoded")%string <> (col ++ "_encoded")%string).
      { intros col Hcol. apply encoded_names_differ; auto.
        intros ->. contradiction. }
      split; [|split; [|split]].
      * intros c Hc. rewrite F by (intros; apply Hc; now right).
        apply dict_get_set_other. apply Hc. now left.
      * intros c Hc. rewrite G by (intro; apply Hc; now right).
        apply dict_get_set_other. intros ->. apply Hc. now left.
      * intros col s [<- | Hcol] Hs.
        -- rewrite E0 in Hs. injection Hs as <-. split; [exact Eu|].
           rewrite (G col0 Hnotin), (F _ Hfresh), !dict_get_set_same. auto.
        -- apply V; [exact Hcol|].
           rewrite dict_get_set_other; [exact Hs|].
           now apply encoded_name_fresh; auto.
      * intros col [<- | Hcol] Hs; [congruence|].
        rewrite (N col Hcol).
        -- apply dict_get_set_other. intros ->. contradiction.
        -- rewrite dict_get_set_other; [exact Hs|].
           now apply encoded_name_fresh; auto.
    + cbn [bind]. intro Hrun.
      destruct (IH Hrest _ _ _ _ Hrun) as (F & G & V & N).
      split; [|split; [|split]].
      * intros c Hc. apply F. intros; apply Hc; now right.
      * intros c Hc. apply G. intro; apply Hc; now right.
      * intros col s [<- | Hcol] Hs; [congruence | now apply V].
      * intros col [<- | Hcol] Hs; [now apply G | now apply N].
Qed.

Lemma dict_get_filter_none (V : Type) (p : string * V -> bool) (k : string)
      (d : dict V) :
  (forall v, p (k, v) = false) -> dict_get k (filter p d) = None.
Proof.
  intro Hp. induction d as [|[k' v'] d IH]; cbn [filter]; [reflexivity|].
  destruct (p (k', v')) eqn:E; [|exact IH]. cbn [dict_get].
  destruct (String.eqb k k') eqn:Ek; [|exact IH].
  apply String.eqb_eq in Ek. subst k'. now rewrite Hp in E.
Qed.

Lemma dict_get_filter_absent (V : Type) (p : string * V -> bool) (k : string)
      (d : dict V) :
  dict_get k d = None -> dict_get k (filter p d) = None.
Proof.
  induction d as [|[k' v'] d IH]; cbn [filter dict_get]; [reflexivity|].
  destruct (String.eqb k k') eqn:Ek; [discriminate|]. intro H.
  destruct (p (k', v')); [|auto]. cbn [dict_get]. rewrite Ek. auto.
Qed.

(** A column on the list of the columns to drop is not in the selection. *)
Lemma dropped_absent (d : DataFrame) (k : string) :
  (dict_mem k d = true -> In k (columns_to_drop d)) ->
  dict_get k (keep_numeric (drop_columns (columns_to_drop d) d)) = None.
Proof.
  intro H. unfold keep_numeric. apply dict_get_filter_absent.
  unfold dict_mem in H. destruct (dict_get k d) eqn:E.
  - unfold drop_columns. apply dict_get_filter_none. intro v. cbn [fst].
    apply negb_false_iff, existsb_exists. exists k.
    split; [now apply H | apply String.eqb_refl].
  - now apply dict_get_filter_absent.
Qed.

Lemma columns_to_drop_spec (d : DataFrame) (k : string) :
  In k (columns_to_drop d) <->
  dict_mem k d = true /\ k <> "PaymentMethod" /\
  In k (categorical_columns ++ ["customerID"; "Churn"]).
Proof.
  unfold columns_to_drop. rewrite filter_In, negb_true_iff, String.eqb_neq.
  assert (Hcat : forall l,
            In k (filter (fun col => dict_mem col d) l)
            <-> dict_mem k d = true /\ In k l)
    by (intro l; rewrite filter_In; tauto).
  destruct (dict_mem "customerID" d) eqn:E1, (dict_mem "Churn" d) eqn:E2;
    rewrite ?in_app_iff, Hcat; cbn [In]; intuition (subst; congruence).
Qed.

End EncodingFacts.

Module EncodingTheorems.
Import Engineer EngineerFacts DerivationFacts EncodingFacts.

(** X12. The label encoding of a text column: when the encoding returns,
    a column [col] of the fifteen text columns that is in the input is
    still there, the new column [col_encoded] has one integer code for
    each of its cells, and the encoder stored for [col] has the column's
    distinct values as its classes.  Codes are below the number of classes,
    and two cells have the same code exactly when they hold the same
    value. *)
Theorem encoding_gives_one_code_per_value
        (encoders encoders' : dict LabelEncoder) (d d' : DataFrame)
        (col : string) (s : Series) :
  _encode_categorical_features encoders d = OK (encoders', d') ->
  In col categorical_columns -> dict_get col d = Some s ->
  exists le codes,
    dict_get col encoders' = Some le /\
    classes_ le = unique (cells s) /\
    dict_get col d' = Some s /\
    dict_get (col ++ "_encoded")%string d' = Some codes /\
    dtype_of codes = Int64 /\
    length (cells codes) = length (cells s) /\
    forall i j, i < length (cells s) -> j < length (cells s) ->
      exists ci cj,
        nth i (cells codes) VNaN = VNum (inject_Z (Z.of_nat ci)) /\
        nth j (cells codes) VNaN = VNum (inject_Z (Z.of_nat cj)) /\
        ci < length (classes_ le) /\
        (ci = cj <->
         value_eqb (nth i (cells s) VNaN) (nth j (cells s) VNaN) = true).
Proof.
  unfold _encode_categorical_features. intros Hrun Hcol Hs.
  destruct (encode_loop _ CleanerFacts.categorical_columns_nodup
              (incl_refl _) _ _ _ _ Hrun) as (F & _ & V & _).
  destruct (V col s Hcol Hs) as (_ & Henc & Hcodes).
  exists (mkEncoder (unique (cells s))),
         (transform (mkEncoder (unique (cells s))) s).
  split; [exact Henc|]. split; [reflexivity|].
  split; [rewrite F; [exact Hs|]; intros c Hc; now apply encoded_name_fresh|].
  split; [exact Hcodes|]. split; [reflexivity|].
  unfold transform. cbn [cells classes_].
  split; [apply length_map|].
  intros i j Hi Hj.
  exists (index_of (nth i (cells s) VNaN) (unique (cells s))),
         (index_of (nth j (cells s) VNaN) (unique (cells s))).
  rewrite !(ListFacts.nth_map _ _ _ _ _ VNaN) by assumption.
  split; [reflexivity|]. split; [reflexivity|].
  apply index_of_unique; now apply nth_In.
Qed.

(** X13. The feature matrix: when [engineer_features] returns, every
    column of the matrix has a number type; the churn column, the customer
    identifier and the text columns (save [PaymentMethod], which stays when
    it holds numbers) are not in it; and the feature information kept by
    the engineer lists the columns of the matrix, in order. *)
Theorem feature_matrix_is_numeric {lib : StandardScaler}
        (self self' : t) (data out : ref) (h h' : heap) :
  engineer_features self data h = (OK (self', out), h') ->
  Forall (fun col => dtype_of (snd col) <> Object) (nth out h' []) /\
  (forall c, In c (categorical_columns ++ ["customerID"; "Churn"]) ->
             c <> "PaymentMethod" -> dict_mem c (nth out h' []) = false) /\
  exists info,
    get_feature_info self' = Some info /\
    feature_names info = dict_keys (nth out h' []) /\
    total_features info = length (nth out h' []).
Proof.
  rewrite engineer_features_unfold. cbv zeta.
  destruct (_create_derived_features (nth data h [])) as [d1|];
    [|discriminate].
  destruct (_encode_categorical_features (label_encoders self) d1)
    as [[encoders d2]|]; [|discriminate].
  destruct (_normalize_numeric_features (scaler self) d2)
    as [[stats d3]|]; [|discriminate].
  intros [= <- <- <-].
  replace (nth (length h + 2)
             (h ++ [d3; drop_columns (columns_to_drop d3) d3;
                    keep_numeric (drop_columns (columns_to_drop d3) d3)]) [])
    with (keep_numeric (drop_columns (columns_to_drop d3) d3)).
  2:{ rewrite app_nth2 by lia.
      replace (length h + 2 - length h) with 2 by lia. reflexivity. }
  split; [|split].
  - unfold keep_numeric. apply Forall_forall. intros c Hc.
    apply filter_In in Hc. destruct Hc as [_ Hc].
    destruct (dtype_of (snd c)); discriminate.
  - intros c Hc Hpm. unfold dict_mem. rewrite dropped_absent; [reflexivity|].
    intro Hmem. apply columns_to_drop_spec. auto.
  - eexists. split; [reflexivity|]. unfold describe. cbn [feature_names total_features].
    split; [reflexivity|]. unfold dict_keys. apply length_map.
Qed.


Lemma encoding_gives_one_code_per_value_witness :
  exists le codes,
    dict_get "Contract" (fst encoded_sample) = Some le /\
    classes_ le
    = unique (cells (text_column ["Month-to-month"; "Two year"])) /\
    dict_get "Contract" (snd encoded_sample)
    = Some (text_column ["Month-to-month"; "Two year"]) /\
    dict_get ("Contract" ++ "_encoded")%string (snd encoded_sample)
    = Some codes /\
    dtype_of codes = Int64 /\
    length (cells codes)
    = length (cells (text_column ["Month-to-month"; "Two year"])) /\
    forall i j,
      i < length (cells (text_column ["Month-to-month"; "Two year"])) ->
      j < length (cells (text_column ["Month-to-month"; "Two year"])) ->
      exists ci cj,
        nth i (cells codes) VNaN = VNum (inject_Z (Z.of_nat ci)) /\
        nth j (cells codes) VNaN = VNum (inject_Z (Z.of_nat cj)) /\
        ci < length (classes_ le) /\
        (ci = cj <->
         value_eqb
           (nth i (cells (text_column ["Month-to-month"; "Two year"])) VNaN)
           (nth j (cells (text_column ["Month-to-month"; "Two year"])) VNaN)
         = true).
Proof.
  apply (encoding_gives_one_code_per_value [] (fst encoded_sample)
           derived_sample (snd encoded_sample) "Contract"
           (text_column ["Month-to-month"; "Two year"])).
  - vm_compute. reflexivity.
  - vm_compute. tauto.
  - reflexivity.
Defined.

Lemma feature_matrix_is_numeric_witness :
  Forall (fun col => dtype_of (snd col) <> Object) (nth 4 engineered_heap []) /\
  (forall c, In c (categorical_columns ++ ["customerID"; "Churn"]) ->
             c <> "PaymentMethod" ->
             dict_mem c (nth 4 engineered_heap []) = false) /\
  exists info,
    get_feature_info engineered_engineer = Some info /\
    feature_names info = dict_keys (nth 4 engineered_heap []) /\
    total_features info = length (nth 4 engineered_heap []).
Proof.
  apply (feature_matrix_is_numeric (lib := centring_scaler) init
           engineered_engineer 1 4 sample_heap engineered_heap).
  vm_compute. reflexivity.
Defined.

End EncodingTheorems.

(** ** Models: training, prediction, importances *)

Module ModelTheorems.

Section WithSklearn.
Context {sk : Sklearn}.

Lemma train_cases (m m' : Model.t) (X : DataFrame) (y : Series)
      (r : result unit) :
  Model.train m X y = (r, m') ->
  (exists e, r = Raise e /\ m' = m) \/
  (exists e, r = Raise e /\
             sk_fit (Model.kind m) (Model.model_params m) X y = Raise e /\
             m' = Model.mk (Model.model_name m) (Model.kind m)
                    (Model.model_params m) (Model.model m)
                    (Model.is_trained m) (dict_keys X)) \/
  (exists fitted, r = OK tt /\
             empty X = false /\ n_rows X = length (cells y) /\
             sk_fit (Model.kind m) (Model.model_params m) X y = OK fitted /\
             m' = Model.mk (Model.model_name m) (Model.kind m)
                    (Model.model_params m) (Some fitted) true (dict_keys X)).
Proof.
  unfold Model.train.
  destruct (empty X || (length (cells y) =? 0)) eqn:E1.
  { intros [= <- <-]. left. eauto. }
  destruct (negb (n_rows X =? length (cells y))) eqn:E2.
  { intros [= <- <-]. left. eauto. }
  cbn [Model.kind Model.model_params Model.model_name Model.feature_names
       Model.model Model.is_trained].
  destruct (sk_fit (Model.kind m) (Model.model_params m) X y) as [fitted|e] eqn:E3;
    intros [= <- <-]; right.
  - right. exists fitted. apply orb_false_iff in E1. destruct E1 as [E1 _].
    apply negb_false_iff, Nat.eqb_eq in E2. auto 6.
  - left. exists e. auto.
Qed.

(** X14. A model predicts only after a training that succeeded.  For a
    model that has not been trained: when [train] returns, the library has
    fitted an estimator on the training data, and [predict] and
    [predict_proba] are from then on what this estimator gives; when
    [train] raises, the model is still untrained: [predict] and
    [predict_proba] raise [ValueError] and the model has no feature
    importance. *)
Theorem model_predicts_only_after_successful_training
        (m m' : Model.t) (X : DataFrame) (y : Series) (r : result unit) :
  Model.is_trained m = false ->
  Model.train m X y = (r, m') ->
  match r with
  | OK _ =>
      exists fitted,
        sk_fit (Model.kind m) (Model.model_params m) X y = OK fitted /\
        Model.is_trained m' = true /\
        Model.feature_names m' = dict_keys X /\
        forall X', Model.predict m' X' = sk_predict fitted X' /\
                   Model.predict_proba m' X' = sk_predict_proba fitted X'
  | Raise _ =>
      Model.is_trained m' = false /\
      Model.get_feature_importance m' = OK [] /\
      forall X', (exists msg, Model.predict m' X' = Raise (ValueError msg)) /\
                 (exists msg, Model.predict_proba m' X' = Raise (ValueError msg))
  end.
Proof.
  intros Hnew Hrun.
  destruct (train_cases _ _ _ _ _ Hrun)
    as [(e & -> & ->) | [(e & -> & _ & ->) | (fitted & -> & _ & _ & Hfit & ->)]].
  - unfold Model.get_feature_importance, Model.predict, Model.predict_proba.
    rewrite Hnew. cbn [negb]. split; [reflexivity|]. split; [reflexivity|].
    intro X'. split; eauto.
  - unfold Model.get_feature_importance, Model.predict, Model.predict_proba.
    cbn [Model.is_trained]. rewrite Hnew. cbn [negb].
    split; [reflexivity|]. split; [reflexivity|]. intro X'. split; eauto.
  - exists fitted. split; [exact Hfit|]. split; [reflexivity|].
    split; [reflexivity|]. intro X'. split; reflexivity.
Qed.

Lemma zip_importance_spec (f : Q -> Q) (names : list string) :
  forall (i : nat) (values : list Q) (acc : dict Q),
  (i + length names <= length values ->
   Model.zip_importance names i values f acc
   = OK (fold_left (fun d p => dict_set (fst p) (snd p) d)
           (combine names (map f (firstn (length names) (skipn i values))))
           acc)) /\
  (names <> [] -> length values < i + length names ->
   exists msg, Model.zip_importance names i values f acc
               = Raise (IndexError msg)).
Proof.
  induction names as [|name names IH]; intros i values acc;
    cbn [Model.zip_importance length].
  - split; [reflexivity | congruence].
  - destruct (nth_error values i) as [v|] eqn:Ev.
    + assert (Hi : i < length values)
        by (apply nth_error_Some; congruence).
      destruct (IH (S i) values (dict_set name (f v) acc)) as (Hok & Hbad).
      split.
      * intro Hlen. rewrite Hok by lia.
        assert (Hskip : skipn i values = v :: skipn (S i) values).
        { clear - Ev. revert values Ev.
          induction i as [|i IHi]; intros [|x values] Ev; cbn in Ev;
            try discriminate.
          - now injection Ev as ->.
          - cbn [skipn]. now apply IHi. }
        rewrite Hskip. reflexivity.
      * intros _ Hlen. apply Hbad; [|lia].
        destruct names; [cbn in Hlen; lia | discriminate].
    + apply nth_error_None in Ev. split; [lia | eauto].
Qed.

Lemma fold_set_fresh (V : Type) (items : list (string * V)) :
  NoDup (map fst items) ->
  fold_left (fun d p => dict_set (fst p) (snd p) d) items [] = items.
Proof.
  intro Hnd.
  assert (H : forall acc : dict V,
             NoDup (map fst (acc ++ items)) ->
             fold_left (fun d p => dict_set (fst p) (snd p) d) items acc
             = acc ++ items).
  { clear Hnd. induction items as [|[k v] items IH]; intros acc Hnd;
      cbn [fold_left fst snd].
    - now rewrite app_nil_r.
    - rewrite TrainerFacts.dict_set_fresh.
      + rewrite IH; rewrite <- app_assoc; [reflexivity | exact Hnd].
      + rewrite map_app in Hnd. cbn [map fst] in Hnd.
        apply NoDup_remove_2 in Hnd. unfold dict_keys. intro Hin.
        apply Hnd, in_or_app. now left. }
  now apply (H []).
Qed.

Lemma importance_table (f : Q -> Q) (names : list string) (values : list Q) :
  NoDup names -> length names <= length values ->
  Model.zip_importance names 0 values f [] = OK (combine names (map f values)).
Proof.
  intros Hnd Hlen.
  destruct (zip_importance_spec f names 0 values []) as (Hok & _).
  rewrite Hok by lia. cbn [skipn]. f_equal.
  rewrite <- firstn_map, <- combine_firstn_l. apply fold_set_fresh.
  rewrite ListFacts.map_fst_combine; [exact Hnd | now rewrite length_map].
Qed.

Lemma importance_missing (f : Q -> Q) (names : list string) (values : list Q) :
  length values < length names ->
  exists msg, Model.zip_importance names 0 values f [] = Raise (IndexError msg).
Proof.
  intro Hlen.
  destruct (zip_importance_spec f names 0 values []) as (_ & Hbad).
  apply Hbad; [|lia]. destruct names; [cbn in Hlen; lia | discriminate].
Qed.

(** X15. The feature importances of a trained model: after a training
    that succeeded on a matrix with distinct column names, the importances
    are keyed by the columns of that matrix, in order.  For the logistic
    regression the value of a column is the absolute value of its
    coefficient in the first row of coefficients, so it is not negative;
    for the two tree ensembles it is the estimator's own importance, and
    the table is empty when the estimator has none.  When the estimator
    gives fewer values than there are columns the call raises
    [IndexError]. *)
Theorem importances_follow_training_columns
        (m m' : Model.t) (X : DataFrame) (y : Series) :
  Model.train m X y = (OK tt, m') ->
  NoDup (dict_keys X) ->
  exists fitted,
    Model.model m' = Some fitted /\
    (Model.kind m = LogisticRegression ->
     forall row rest, sk_coef fitted = row :: rest ->
       (length X <= length row ->
        Model.get_feature_importance m'
        = OK (combine (dict_keys X) (map Qabs row)) /\
        Forall (fun entry => (0 <= snd entry)%Q)
               (combine (dict_keys X) (map Qabs row))) /\
       (length row < length X ->
        exists msg, Model.get_feature_importance m' = Raise (IndexError msg))) /\
    (Model.kind m <> LogisticRegression ->
     (sk_feature_importances fitted = None ->
      Model.get_feature_importance m' = OK []) /\
     forall values, sk_feature_importances fitted = Some values ->
       (length X <= length values ->
        Model.get_feature_importance m'
        = OK (combine (dict_keys X) values)) /\
       (length values < length X ->
        exists msg, Model.get_feature_importance m' = Raise (IndexError msg))).
Proof.
  intros Hrun Hnd.
  destruct (train_cases _ _ _ _ _ Hrun)
    as [(e & He & _) | [(e & He & _) | (fitted & _ & _ & _ & _ & ->)]];
    try discriminate.
  exists fitted. split; [reflexivity|].
  assert (Hkeys : length (dict_keys X) = length X)
    by (unfold dict_keys; apply length_map).
  unfold Model.get_feature_importance.
  cbn [Model.is_trained Model.model Model.kind Model.feature_names negb].
  split.
  - intros -> row rest ->. split.
    + intro Hlen. rewrite importance_table by (auto; lia).
      split; [reflexivity|].
      apply Forall_forall. intros [name v] Hin. cbn [snd].
      apply in_combine_r, in_map_iff in Hin. destruct Hin as (x & <- & _).
      apply Qabs_nonneg.
    + intro Hlen. apply importance_missing. lia.
  - intro Hkind.
    assert (Hmatch : forall A (a b : A),
              match Model.kind m with
              | LogisticRegression => a
              | _ => b
              end = b)
      by (intros; destruct (Model.kind m); congruence).
    rewrite Hmatch. split.
    + now intros ->.
    + intros values ->. split.
      * intro Hlen. rewrite importance_table by (auto; lia).
        now rewrite map_id.
      * intro Hlen. apply importance_missing. lia.
Qed.

End WithSklearn.

Lemma model_predicts_only_after_successful_training_witness :
  exists fitted,
    sk_fit (Sklearn := sample_sklearn) LogisticRegression
      (Model.model_params (Model.LogisticRegressionModel (sk := sample_sklearn) []))
      validated_sample one_label = OK fitted /\
    Model.is_trained
      (snd (Model.train (Model.LogisticRegressionModel (sk := sample_sklearn) []) validated_sample
              one_label)) = true /\
    Model.feature_names
      (snd (Model.train (Model.LogisticRegressionModel (sk := sample_sklearn) []) validated_sample
              one_label)) = dict_keys validated_sample /\
    forall X',
      Model.predict
        (snd (Model.train (Model.LogisticRegressionModel (sk := sample_sklearn) []) validated_sample
                one_label)) X' = sk_predict fitted X' /\
      Model.predict_proba
        (snd (Model.train (Model.LogisticRegressionModel (sk := sample_sklearn) []) validated_sample
                one_label)) X' = sk_predict_proba fitted X'.
Proof.
  apply (model_predicts_only_after_successful_training (sk := sample_sklearn)
           (Model.LogisticRegressionModel (sk := sample_sklearn) [])
           (snd (Model.train (Model.LogisticRegressionModel (sk := sample_sklearn) [])
                   validated_sample one_label))
           validated_sample one_label (OK tt)).
  - reflexivity.
  - vm_compute. reflexivity.
Defined.

Lemma importances_follow_training_columns_witness :
  exists fitted,
    Model.model
      (snd (Model.train (sk := sample_sklearn) (Model.RandomForestModel (sk := sample_sklearn) [])
              validated_sample one_label)) = Some fitted /\
    (Model.kind (Model.RandomForestModel (sk := sample_sklearn) []) = LogisticRegression ->
     forall row rest, sk_coef fitted = row :: rest ->
       (length validated_sample <= length row ->
        Model.get_feature_importance
          (snd (Model.train (Model.RandomForestModel (sk := sample_sklearn) []) validated_sample
                  one_label))
        = OK (combine (dict_keys validated_sample) (map Qabs row)) /\
        Forall (fun entry => (0 <= snd entry)%Q)
               (combine (dict_keys validated_sample) (map Qabs row))) /\
       (length row < length validated_sample ->
        exists msg,
          Model.get_feature_importance
            (snd (Model.train (Model.RandomForestModel (sk := sample_sklearn) []) validated_sample
                    one_label)) = Raise (IndexError msg))) /\
    (Model.kind (Model.RandomForestModel (sk := sample_sklearn) []) <> LogisticRegression ->
     (sk_feature_importances fitted = None ->
      Model.get_feature_importance
        (snd (Model.train (Model.RandomForestModel (sk := sample_sklearn) []) validated_sample
                one_label)) = OK []) /\
     forall values, sk_feature_importances fitted = Some values ->
       (length validated_sample <= length values ->
        Model.get_feature_importance
          (snd (Model.train (Model.RandomForestModel (sk := sample_sklearn) []) validated_sample
                  one_label))
        = OK (combine (dict_keys validated_sample) values)) /\
       (length values < length validated_sample ->
        exists msg,
          Model.get_feature_importance
            (snd (Model.train (Model.RandomForestModel (sk := sample_sklearn) []) validated_sample
                    one_label)) = Raise (IndexError msg))).
Proof.
  apply (importances_follow_training_columns (sk := sample_sklearn)
           (Model.RandomForestModel (sk := sample_sklearn) [])
           (snd (Model.train (Model.RandomForestModel (sk := sample_sklearn) []) validated_sample
                   one_label))
           validated_sample one_label).
  - vm_compute. reflexivity.
  - cbn. CleanerFacts.nodup_strings.
Defined.

End ModelTheorems.

(** ** Selection of the best model, evaluation of many models *)

Module SelectionFacts.
Import Evaluator.

(** What the selection loop returns, whatever the metrics are: the running
    best it started from, or an entry with an F1-Score above it; no entry
    has an F1-Score above the one it returns. *)
Lemma best_step_chooses (results : dict Metrics) :
  forall (b b' : option string) (bf bf' : Q),
  foldM best_step results (b, bf) = OK (b', bf') ->
  ((b' = b /\ bf' = bf) \/
   (exists name metrics,
      b' = Some name /\ In (name, metrics) results /\
      f1_of metrics = Some bf' /\ (bf < bf')%Q)) /\
  (bf <= bf')%Q /\
  (forall name metrics f1, In (name, metrics) results ->
     f1_of metrics = Some f1 -> (f1 <= bf')%Q).
Proof.
  induction results as [|[n m] rest IH]; intros b b' bf bf'; cbn [foldM].
  - intros [= <- <-]. split; [now left|]. split; [apply Qle_refl|].
    intros ? ? ? [].
  - unfold best_step at 1.
    destruct (dict_get "f1_score" m) as [[f1|l|mx]|] eqn:Ef; cbn [bind];
      try discriminate.
    + assert (Hf1 : f1_of m = Some f1) by (unfold f1_of; now rewrite Ef).
      cbn [snd]. destruct (Qgtb f1 bf) eqn:Ecmp; cbn [bind]; intro Hrun.
      * apply EvaluatorFacts.Qgtb_true in Ecmp.
        destruct (IH _ _ _ _ Hrun) as (Hcase & Hle & Hmax).
        split; [|split].
        -- right.
           destruct Hcase as [(-> & ->) | (name & metrics & -> & Hin & Hf & Hlt)].
           ++ exists n, m. split; [reflexivity|]. split; [now left|]. auto.
           ++ exists name, metrics. split; [reflexivity|].
              split; [now right|]. split; [exact Hf|].
              eapply Qlt_trans; eassumption.
        -- apply Qlt_le_weak. eapply Qlt_le_trans; eassumption.
        -- intros name metrics f [[= <- <-] | Hin] Hf.
           ++ rewrite Hf1 in Hf. injection Hf as <-. exact Hle.
           ++ eapply Hmax; eassumption.
      * apply EvaluatorFacts.Qgtb_false in Ecmp.
        destruct (IH _ _ _ _ Hrun) as (Hcase & Hle & Hmax).
        split; [|split].
        -- destruct Hcase as [H | (name & metrics & -> & Hin & Hf & Hlt)];
             [now left|].
           right. exists name, metrics. split; [reflexivity|].
           split; [now right|]. auto.
        -- exact Hle.
        -- intros name metrics f [[= <- <-] | Hin] Hf.
           ++ rewrite Hf1 in Hf. injection Hf as <-.
              eapply Qle_trans; eassumption.
           ++ eapply Hmax; eassumption.
    + intro Hrun. destruct (IH _ _ _ _ Hrun) as (Hcase & Hle & Hmax).
      split; [|split].
      * destruct Hcase as [H | (name & metrics & -> & Hin & Hf & Hlt)];
          [now left|].
        right. exists name, metrics. split; [reflexivity|].
        split; [now right|]. auto.
      * exact Hle.
      * intros name metrics f [[= <- <-] | Hin] Hf.
        -- unfold f1_of in Hf. rewrite Ef in Hf. discriminate.
        -- eapply Hmax; eassumption.
Qed.

(** The loop returns when every F1-Score that is there is a float. *)
Lemma best_step_total (results : dict Metrics) :
  (forall entry, In entry results ->
     forall v, dict_get "f1_score" (snd entry) = Some v -> exists f1, v = MFloat f1) ->
  forall acc, exists acc', foldM best_step results acc = OK acc'.
Proof.
  induction results as [|[n m] rest IH]; intros Hfloat acc; cbn [foldM].
  - eauto.
  - assert (Hrest : forall entry, In entry rest ->
              forall v, dict_get "f1_score" (snd entry) = Some v ->
                        exists f1, v = MFloat f1)
      by (intros; eapply Hfloat; [right|]; eassumption).
    unfold best_step at 1.
    destruct (dict_get "f1_score" m) as [v|] eqn:Ef; cbn [bind]; [|now apply IH].
    destruct (Hfloat (n, m) (or_introl eq_refl) v Ef) as (f1 & ->).
    destruct (Qgtb f1 (snd acc)); cbn [bind]; now apply IH.
Qed.

End SelectionFacts.

Module SelectionTheorems.
Import Evaluator SelectionFacts.

Section WithSklearn.
Context {sk : Sklearn}.

Lemma trainer_loop_is_evaluator_loop (results : dict Metrics)
      (acc : option string * Q) :
  foldM Trainer.best_step results acc = foldM best_step results acc.
Proof.
  revert acc. induction results as [|[n m] rest IH]; intro acc; cbn [foldM];
    [reflexivity|].
  assert (Hstep : Trainer.best_step acc (n, m) = best_step acc (n, m)).
  { unfold Trainer.best_step, best_step.
    destruct (dict_get "f1_score" m) as [[f1|l|mx]|]; reflexivity. }
  rewrite Hstep. destruct (best_step acc (n, m)); cbn [bind]; auto.
Qed.

(** X16. The trainer's [get_best_model] does not read the models it is
    given and selects as the evaluator does: on any evaluation results it
    returns what [_identify_best_model] stores as the best model, and
    raises when it raises.  The name it returns is that of an entry of the
    results whose F1-Score is above -1; on empty results it returns
    none. *)
Theorem trainer_selects_as_evaluator_does
        (models : dict Model.t) (results : dict Metrics) (self : Evaluator.t) :
  Trainer.get_best_model models results
  = (do self' <- _identify_best_model self results; OK (best_model self')) /\
  (forall name, Trainer.get_best_model models results = OK (Some name) ->
     exists metrics f1,
       In (name, metrics) results /\ f1_of metrics = Some f1 /\ (-1 < f1)%Q) /\
  Trainer.get_best_model models [] = OK None.
Proof.
  split; [|split].
  - unfold Trainer.get_best_model, _identify_best_model, select_best.
    rewrite trainer_loop_is_evaluator_loop.
    destruct (foldM best_step results (None, (-1)%Q)) as [[b bf]|];
      reflexivity.
  - unfold Trainer.get_best_model. rewrite trainer_loop_is_evaluator_loop.
    intros name Hrun.
    destruct (foldM best_step results (None, (-1)%Q)) as [[b bf]|] eqn:E;
      cbn [bind fst] in Hrun; [|discriminate].
    injection Hrun as ->.
    destruct (best_step_chooses _ _ _ _ _ E)
      as ([(Hb & _) | (n & metrics & Hb & Hin & Hf & Hlt)] & _);
      [discriminate|].
    injection Hb as <-. eauto.
  - reflexivity.
Qed.

End WithSklearn.

End SelectionTheorems.

Module EvaluationFacts.
Import Evaluator SelectionFacts.

Section WithSklearn.
Context {sk : Sklearn}.

(** The metrics that [_calculate_metrics] builds have the five scores, and
    their F1-Score is a float. *)
Lemma calculated_metrics (y_true : Series) (y_pred : list value)
      (y_pred_proba : list Q) (metrics : Metrics) :
  _calculate_metrics y_true y_pred y_pred_proba = OK metrics ->
  complete metrics /\ exists f1, dict_get "f1_score" metrics = Some (MFloat f1).
Proof.
  unfold _calculate_metrics.
  destruct (accuracy_score y_true y_pred); cbn [bind]; [|discriminate].
  destruct (precision_score y_true y_pred); cbn [bind]; [|discriminate].
  destruct (recall_score y_true y_pred); cbn [bind]; [|discriminate].
  destruct (f1_score y_true y_pred) as [f1|]; cbn [bind]; [|discriminate].
  destruct (confusion_matrix y_true y_pred); cbn [bind]; [|discriminate].
  destruct (precision_score_per_class y_true y_pred); cbn [bind]; [|discriminate].
  destruct (recall_score_per_class y_true y_pred); cbn [bind]; [|discriminate].
  destruct (f1_score_per_class y_true y_pred); cbn [bind]; [|discriminate].
  intros [= <-]. split; [|eexists; reflexivity].
  intros key Hkey. cbn [In] in Hkey.
  destruct Hkey as [<- | [<- | [<- | [<- | [<- | []]]]]]; reflexivity.
Qed.

Lemma metrics_of_calculated (m : Model.t) (X : DataFrame) (y : Series)
      (metrics : Metrics) :
  metrics_of m X y = OK metrics ->
  Model.is_trained m = true /\ complete metrics /\
  exists f1, dict_get "f1_score" metrics = Some (MFloat f1).
Proof.
  unfold metrics_of, Model.predict, Model.predict_proba.
  destruct (Model.is_trained m); cbn [negb bind]; [|discriminate].
  destruct (Model.model m) as [fitted|]; cbn [bind]; [|discriminate].
  destruct (sk_predict fitted X); cbn [bind]; [|discriminate].
  destruct (sk_predict_proba fitted X); cbn [bind]; [|discriminate].
  destruct (positive_class _); cbn [bind]; [|discriminate].
  intro H. split; [reflexivity|]. eapply calculated_metrics; eassumption.
Qed.

(** What [evaluate_model] does: its result is [metrics_of], and the
    metrics are stored under the model's own name. *)
Lemma evaluate_model_eq (self : Evaluator.t) (m : Model.t) (X : DataFrame)
      (y : Series) :
  evaluate_model self m X y
  = match metrics_of m X y with
    | OK metrics =>
        (OK metrics,
         mk (dict_set (Model.model_name m) metrics (evaluation_results self))
            (best_model self))
    | Raise e => (Raise e, self)
    end.
Proof. reflexivity. Qed.

Lemma evaluate_loop_results (items : list (string * Model.t))
      (self : Evaluator.t) (X : DataFrame) (y : Series) (acc : dict Metrics) :
  NoDup (dict_keys acc ++ dict_keys items) ->
  fst (evaluate_loop self items X y acc) = acc ++ evaluated_of items X y.
Proof.
  revert self acc. induction items as [|[k m] items IH]; intros self acc Hnd;
    cbn [evaluate_loop evaluated_of flat_map fst snd].
  - now rewrite app_nil_r.
  - rewrite evaluate_model_eq.
    destruct (metrics_of m X y) as [metrics|e]; cbv beta iota.
    + assert (Hk : ~ In k (dict_keys acc)).
      { intro Hin. apply NoDup_remove_2 in Hnd. apply Hnd.
        apply in_or_app. now left. }
      rewrite (TrainerFacts.dict_set_fresh _ k metrics acc Hk).
      rewrite IH.
      * now rewrite <- app_assoc.
      * unfold dict_keys in *. rewrite map_app. cbn [map fst].
        rewrite <- app_assoc. exact Hnd.
    + cbn [app]. apply IH.
      unfold dict_keys in *. cbn [map fst] in Hnd.
      now apply NoDup_remove_1 in Hnd.
Qed.

(** The loop keeps what it finds in the evaluator and adds metrics that
    [_calculate_metrics] has built. *)
Lemma evaluate_loop_invariant (P : Metrics -> Prop)
      (items : list (string * Model.t)) :
  (forall m X y metrics, metrics_of m X y = OK metrics -> P metrics) ->
  forall (self : Evaluator.t) (X : DataFrame) (y : Series) (acc : dict Metrics),
  (forall entry, In entry acc -> P (snd entry)) ->
  (forall entry, In entry (evaluation_results self) -> P (snd entry)) ->
  (forall entry, In entry (fst (evaluate_loop self items X y acc)) ->
                 P (snd entry)) /\
  (forall entry,
     In entry (evaluation_results (snd (evaluate_loop self items X y acc))) ->
     P (snd entry)) /\
  best_model (snd (evaluate_loop self items X y acc)) = best_model self.
Proof.
  intro HP. induction items as [|[k m] items IH]; intros self X y acc Hacc Hself;
    cbn [evaluate_loop fst snd]; [auto|].
  rewrite evaluate_model_eq.
  destruct (metrics_of m X y) as [metrics|e] eqn:E; cbv beta iota;
    [|now apply IH].
  assert (Hset : forall (key : string) (d : dict Metrics),
            (forall entry, In entry d -> P (snd entry)) ->
            forall entry, In entry (dict_set key metrics d) -> P (snd entry)).
  { intros key d Hd. induction d as [|[k' v'] d IHd]; cbn [dict_set].
    - intros entry [<- | []]. cbn [snd]. eapply HP; eassumption.
    - destruct (String.eqb key k').
      + intros entry [<- | Hin]; [cbn [snd]; eapply HP; eassumption|].
        apply Hd. now right.
      + intros entry [<- | Hin]; [apply (Hd (k', v')); now left|].
        apply IHd; [|exact Hin]. intros; apply Hd; now right. }
  destruct (IH (mk (dict_set (Model.model_name m) metrics
                      (evaluation_results self)) (best_model self))
              X y (dict_set k metrics acc)) as (H1 & H2 & H3).
  - now apply Hset.
  - cbn [evaluation_results]. now apply Hset.
  - auto.
Qed.

Lemma evaluated_of_In (models : dict Model.t) (X : DataFrame) (y : Series)
      (k : string) (metrics : Metrics) :
  In (k, metrics) (evaluated_of models X y) <->
  exists m, In (k, m) models /\ metrics_of m X y = OK metrics.
Proof.
  unfold evaluated_of. rewrite in_flat_map. split.
  - intros ([k0 m] & Hin & Hm). cbn [fst snd] in Hm.
    destruct (metrics_of m X y) as [metrics0|] eqn:E; [|contradiction].
    destruct Hm as [[= <- <-] | []]. eauto.
  - intros (m & Hin & E). exists (k, m). split; [exact Hin|].
    cbn [fst snd]. rewrite E. now left.
Qed.

(** [evaluate_multiple_models], run on models with distinct keys. *)
Lemma evaluate_many_run (self : Evaluator.t) (models : dict Model.t)
      (X : DataFrame) (y : Series) :
  NoDup (dict_keys models) ->
  exists self',
    evaluate_multiple_models self models X y
    = (OK (evaluated_of models X y), self') /\
    (best_model self' = None \/
     exists name metrics f1,
       best_model self' = Some name /\
       In (name, metrics) (evaluated_of models X y) /\
       f1_of metrics = Some f1 /\
       forall name' metrics' f1',
         In (name', metrics') (evaluated_of models X y) ->
         f1_of metrics' = Some f1' -> (f1' <= f1)%Q).
Proof.
  intro Hnd.
  pose proof (evaluate_loop_results models self X y [] Hnd) as Hloop.
  cbn [app] in Hloop.
  assert (Hfloat : forall entry, In entry (evaluated_of models X y) ->
            forall v, dict_get "f1_score" (snd entry) = Some v ->
                      exists f1, v = MFloat f1).
  { intros [k metrics] Hin v Hv. apply evaluated_of_In in Hin.
    destruct Hin as (m & _ & Hm).
    destruct (metrics_of_calculated _ _ _ _ Hm) as (_ & _ & f1 & Hf1).
    cbn [snd] in Hv. rewrite Hf1 in Hv. injection Hv as <-. eauto. }
  destruct (best_step_total _ Hfloat (None, (-1)%Q)) as ([b bf] & Hsel).
  unfold evaluate_multiple_models.
  destruct (evaluate_loop self models X y []) as [all_results self1].
  cbn [fst] in Hloop. subst all_results.
  unfold _identify_best_model, select_best. rewrite Hsel. cbn [bind fst].
  eexists. split; [reflexivity|]. cbn [best_model].
  destruct (best_step_chooses _ _ _ _ _ Hsel)
    as ([(-> & _) | (name & metrics & -> & Hin & Hf & _)] & _ & Hmax);
    [now left|].
  right. exists name, metrics, bf. auto.
Qed.

Lemma nodup_keys_unique (V : Type) (d : dict V) (k : string) (v v' : V) :
  NoDup (dict_keys d) -> In (k, v) d -> In (k, v') d -> v = v'.
Proof.
  unfold dict_keys. induction d as [|[k0 v0] d IH]; [contradiction|].
  cbn [map fst]. intro Hnd. inversion Hnd as [|? ? Hnotin Hnd']; subst.
  assert (Hkey : forall w, In (k0, w) d -> False).
  { intros w Hw. apply Hnotin. apply in_map_iff. now exists (k0, w). }
  intros [H1 | H1] [H2 | H2].
  - congruence.
  - injection H1 as -> ->. now apply Hkey in H2.
  - injection H2 as -> ->. now apply Hkey in H1.
  - now apply IH.
Qed.

Lemma nodup_keys_get (V : Type) (d : dict V) (k : string) (v : V) :
  NoDup (dict_keys d) -> In (k, v) d -> dict_get k d = Some v.
Proof.
  intros Hnd Hin.
  assert (Hk : In k (dict_keys d))
    by (unfold dict_keys; apply in_map_iff; now exists (k, v)).
  apply CleanerTheorems.dict_get_keys in Hk. destruct Hk as (v' & Hv').
  rewrite Hv'. f_equal.
  eapply nodup_keys_unique; eauto using dict_get_In.
Qed.

(** The entries that a selection by outcome keeps have the keys of the
    entries it was given, in their order. *)
Lemma flat_map_keys_nodup (A B : Type) (f : string * A -> list (string * B))
      (d : dict A) :
  (forall entry, f entry = [] \/ exists b, f entry = [(fst entry, b)]) ->
  NoDup (dict_keys d) ->
  NoDup (dict_keys (flat_map f d)) /\ incl (dict_keys (flat_map f d)) (dict_keys d).
Proof.
  intro Hf. unfold dict_keys.
  induction d as [|[k a] d IH]; cbn [flat_map map fst]; intro Hnd.
  - split; [constructor | intros ? []].
  - inversion Hnd as [|? ? Hnotin Hnd']; subst.
    destruct (IH Hnd') as (IH1 & IH2).
    destruct (Hf (k, a)) as [-> | (b & ->)]; cbn [app map fst].
    + split; [exact IH1 | intros x Hx; right; now apply IH2].
    + split.
      * constructor; [intro Hin; now apply Hnotin, IH2 | exact IH1].
      * intros x [<- | Hx]; [now left | right; now apply IH2].
Qed.

Lemma evaluated_keys (models : dict Model.t) (X : DataFrame) (y : Series) :
  NoDup (dict_keys models) ->
  NoDup (dict_keys (evaluated_of models X y)) /\
  incl (dict_keys (evaluated_of models X y)) (dict_keys models).
Proof.
  apply flat_map_keys_nodup. intros [k m]. cbn [fst snd].
  destruct (metrics_of m X y); eauto.
Qed.

Lemma trained_keys (models : dict Model.t) (X : DataFrame) (y : Series) :
  NoDup (dict_keys models) ->
  NoDup (dict_keys (Trainer.trained_of models X y)) /\
  incl (dict_keys (Trainer.trained_of models X y)) (dict_keys models).
Proof.
  apply flat_map_keys_nodup. intros [k m]. cbn [fst snd].
  destruct (Model.train m X y) as [[u|e] m']; eauto.
Qed.

Lemma trained_of_In (models : dict Model.t) (X : DataFrame) (y : Series)
      (k : string) (m' : Model.t) :
  In (k, m') (Trainer.trained_of models X y) ->
  exists m, In (k, m) models /\ Model.train m X y = (OK tt, m').
Proof.
  unfold Trainer.trained_of. rewrite in_flat_map.
  intros ([k0 m] & Hin & Hm). cbn [fst snd] in Hm.
  destruct (Model.train m X y) as [[[]|e] m1] eqn:E; [|contradiction].
  destruct Hm as [[= <- <-] | []]. eauto.
Qed.

End WithSklearn.

End EvaluationFacts.

Module EvaluationTheorems.
Import Evaluator SelectionFacts EvaluationFacts.

Section WithSklearn.
Context {sk : Sklearn}.

(** X17. Evaluating many models: [evaluate_multiple_models] returns,
    whichever evaluations fail.  For models submitted under distinct keys
    the mapping it returns holds exactly the entries whose evaluation
    succeeded, in order; a model that is not trained is left out.  The best
    model it stores is none, or the key of a returned entry whose F1-Score
    no returned entry exceeds. *)
Theorem evaluate_many_tolerates_failures (self : Evaluator.t)
        (models : dict Model.t) (X : DataFrame) (y : Series) :
  NoDup (dict_keys models) ->
  exists self',
    evaluate_multiple_models self models X y
    = (OK (evaluated_of models X y), self') /\
    (forall k metrics,
       In (k, metrics) (evaluated_of models X y) <->
       exists m, In (k, m) models /\
                 fst (evaluate_model self m X y) = OK metrics) /\
    (forall k m, In (k, m) models -> Model.is_trained m = false ->
                 ~ In k (dict_keys (evaluated_of models X y))) /\
    (best_model self' = None \/
     exists name metrics f1,
       best_model self' = Some name /\
       In (name, metrics) (evaluated_of models X y) /\
       f1_of metrics = Some f1 /\
       forall name' metrics' f1',
         In (name', metrics') (evaluated_of models X y) ->
         f1_of metrics' = Some f1' -> (f1' <= f1)%Q).
Proof.
  intro Hnd.
  assert (Hres : forall m, fst (evaluate_model self m X y) = metrics_of m X y).
  { intro m. rewrite evaluate_model_eq. now destruct (metrics_of m X y). }
  destruct (evaluate_many_run self models X y Hnd) as (self' & Hrun & Hbest).
  exists self'. split; [exact Hrun|]. split; [|split; [|exact Hbest]].
  - intros k metrics. rewrite evaluated_of_In.
    split; intros (m & Hin & Hm); exists m; (split; [exact Hin|]);
      [now rewrite Hres | now rewrite <- Hres].
  - intros k m Hin Huntrained Hk. unfold dict_keys in Hk.
    apply in_map_iff in Hk. destruct Hk as ([k' metrics] & Hk' & Hin').
    cbn [fst] in Hk'. subst k'. apply evaluated_of_In in Hin'.
    destruct Hin' as (m' & Hin' & Hm').
    assert (m' = m) by (eapply nodup_keys_unique; eassumption).
    subst m'. destruct (metrics_of_calculated _ _ _ _ Hm') as (Ht & _).
    congruence.
Qed.

(** The rows of the comparison table, from complete metrics. *)
Lemma comparison_rows (results : dict Metrics) :
  (forall entry, In entry results -> complete (snd entry)) ->
  exists rows,
    get_model_comparison (mk results None) = OK rows /\
    map row_model rows = dict_keys results /\
    forall row, In row rows ->
      exists metrics,
        In (row_model row, metrics) results /\
        dict_get "accuracy" metrics = Some (row_accuracy row) /\
        dict_get "precision" metrics = Some (row_precision row) /\
        dict_get "recall" metrics = Some (row_recall row) /\
        dict_get "f1_score" metrics = Some (row_f1 row) /\
        dict_get "roc_auc" metrics = Some (row_auc row).
Proof.
  unfold get_model_comparison. cbn [evaluation_results].
  induction results as [|[name metrics] results IH]; intro Hc; cbn [mapM].
  - exists []. split; [reflexivity|]. split; [reflexivity|]. intros ? [].
  - destruct IH as (rows & -> & Hkeys & Hrows);
      [intros; apply Hc; now right|].
    pose proof (Hc (name, metrics) (or_introl eq_refl)) as Hm.
    cbn [snd] in Hm. unfold complete, dict_mem in Hm.
    unfold metric.
    destruct (dict_get "accuracy" metrics) as [v1|] eqn:E1;
      [|specialize (Hm "accuracy"); rewrite E1 in Hm; cbn in Hm;
        discriminate Hm; tauto].
    destruct (dict_get "precision" metrics) as [v2|] eqn:E2;
      [|specialize (Hm "precision"); rewrite E2 in Hm; cbn in Hm;
        discriminate Hm; tauto].
    destruct (dict_get "recall" metrics) as [v3|] eqn:E3;
      [|specialize (Hm "recall"); rewrite E3 in Hm; cbn in Hm;
        discriminate Hm; tauto].
    destruct (dict_get "f1_score" metrics) as [v4|] eqn:E4;
      [|specialize (Hm "f1_score"); rewrite E4 in Hm; cbn in Hm;
        discriminate Hm; tauto].
    destruct (dict_get "roc_auc" metrics) as [v5|] eqn:E5;
      [|specialize (Hm "roc_auc"); rewrite E5 in Hm; cbn in Hm;
        discriminate Hm; tauto].
    cbn [bind]. eexists. split; [reflexivity|].
    split; [cbn [map row_model dict_keys fst]; unfold dict_keys in Hkeys;
            now rewrite Hkeys|].
    intros row [<- | Hin].
    + exists metrics. cbn [row_model row_accuracy row_precision row_recall
                           row_f1 row_auc]. split; [now left|]. auto.
    + destruct (Hrows row Hin) as (metrics' & Hin' & Hrest).
      exists metrics'. split; [now right | exact Hrest].
Qed.

(** X18. The comparison table after an evaluation: when the evaluator
    holds only metrics with the five scores (as a new evaluator does, and
    as it does after any evaluation), [evaluate_multiple_models] leaves it
    so, and [get_model_comparison] then returns, with no [KeyError], one
    row for each entry of the evaluator's results, in order, with that
    entry's five scores; the number of rows is the report's
    [model_count]. *)
Theorem comparison_has_a_row_per_evaluated_model (self self' : Evaluator.t)
        (models : dict Model.t) (X : DataFrame) (y : Series)
        (results : dict Metrics) :
  (forall entry, In entry (evaluation_results self) -> complete (snd entry)) ->
  evaluate_multiple_models self models X y = (OK results, self') ->
  (forall entry, In entry (evaluation_results self') -> complete (snd entry)) /\
  exists rows,
    get_model_comparison self' = OK rows /\
    map row_model rows = dict_keys (evaluation_results self') /\
    length rows = model_count (get_evaluation_report self') /\
    forall row, In row rows ->
      exists metrics,
        In (row_model row, metrics) (evaluation_results self') /\
        dict_get "accuracy" metrics = Some (row_accuracy row) /\
        dict_get "precision" metrics = Some (row_precision row) /\
        dict_get "recall" metrics = Some (row_recall row) /\
        dict_get "f1_score" metrics = Some (row_f1 row) /\
        dict_get "roc_auc" metrics = Some (row_auc row).
Proof.
  intros Hc Hrun.
  destruct (evaluate_loop_invariant complete models
              (fun m X y metrics H =>
                 proj1 (proj2 (metrics_of_calculated m X y metrics H)))
              self X y [] ltac:(intros ? []) Hc) as (_ & Hself & _).
  unfold evaluate_multiple_models in Hrun.
  destruct (evaluate_loop self models X y []) as [all_results self1].
  cbn [snd] in Hself.
  destruct (_identify_best_model self1 all_results) as [self2|] eqn:E;
    [|discriminate].
  injection Hrun as <- <-.
  unfold _identify_best_model in E.
  destruct (select_best all_results) as [b|]; cbn [bind] in E; [|discriminate].
  injection E as <-. cbn [evaluation_results].
  split; [exact Hself|].
  destruct (comparison_rows _ Hself) as (rows & Hrows & Hkeys & Hcells).
  exists rows. split; [exact Hrows|]. split; [exact Hkeys|].
  split; [|exact Hcells].
  cbn [get_evaluation_report model_count evaluation_results].
  rewrite <- (length_map row_model rows), Hkeys. unfold dict_keys.
  apply length_map.
Qed.

(** X19. The table of feature importances: a model that is not trained
    gives no row, so that the table of a set of models is the table of the
    trained ones among them; each row of the table is an importance of the
    trained model whose key it bears.  Of models none of which is trained
    the table is empty. *)
Theorem importance_table_lists_trained_models (models : dict Model.t) :
  get_feature_importance_comparison models
  = get_feature_importance_comparison
      (filter (fun entry => Model.is_trained (snd entry)) models) /\
  (forall rows row,
     get_feature_importance_comparison models = OK rows -> In row rows ->
     exists m importances,
       In (importance_model row, m) models /\
       Model.is_trained m = true /\
       Model.get_feature_importance m = OK importances /\
       In (importance_feature row, importance_value row) importances) /\
  (forallb (fun entry => negb (Model.is_trained (snd entry))) models = true ->
   get_feature_importance_comparison models = OK []).
Proof.
  split; [|split].
  - induction models as [|[k m] models IH]; [reflexivity|].
    cbn [get_feature_importance_comparison filter snd].
    destruct (Model.is_trained m) eqn:Et.
    + cbn [get_feature_importance_comparison]. rewrite Et, IH. reflexivity.
    + cbn [bind app]. rewrite <- IH.
      destruct (get_feature_importance_comparison models); reflexivity.
  - induction models as [|[k m] models IH]; intros rows row;
      cbn [get_feature_importance_comparison].
    + intros [= <-] [].
    + destruct (Model.is_trained m) eqn:Et.
      * destruct (Model.get_feature_importance m) as [fi|] eqn:Ef; cbn [bind];
          [|discriminate].
        destruct (get_feature_importance_comparison models) as [more|];
          cbn [bind]; [|discriminate].
        intros [= <-] Hin. apply in_app_or in Hin. destruct Hin as [Hin | Hin].
        -- apply in_map_iff in Hin. destruct Hin as ([f v] & <- & Hin).
           cbn [importance_model importance_feature importance_value fst snd].
           exists m, fi. split; [now left|]. auto.
        -- destruct (IH more row eq_refl Hin) as (m' & fi' & Hm' & Hrest).
           exists m', fi'. split; [now right | exact Hrest].
      * cbn [bind app].
        destruct (get_feature_importance_comparison models) as [more|];
          cbn [bind]; [|discriminate].
        intros [= <-] Hin.
        destruct (IH more row eq_refl Hin) as (m' & fi' & Hm' & Hrest).
        exists m', fi'. split; [now right | exact Hrest].
  - induction models as [|[k m] models IH]; [reflexivity|].
    cbn [forallb snd get_feature_importance_comparison].
    intro H. apply andb_true_iff in H. destruct H as [Hm Hrest].
    apply negb_true_iff in Hm. rewrite Hm. cbn [bind].
    now rewrite (IH Hrest).
Qed.

End WithSklearn.

Lemma evaluate_many_tolerates_failures_witness :
  exists self',
    evaluate_multiple_models init trained_three validated_sample one_label
    = (OK (evaluated_of trained_three validated_sample one_label), self') /\
    (forall k metrics,
       In (k, metrics) (evaluated_of trained_three validated_sample one_label) <->
       exists m, In (k, m) trained_three /\
                 fst (evaluate_model init m validated_sample one_label)
                 = OK metrics) /\
    (forall k m, In (k, m) trained_three -> Model.is_trained m = false ->
                 ~ In k (dict_keys (evaluated_of trained_three validated_sample
                                      one_label))) /\
    (best_model self' = None \/
     exists name metrics f1,
       best_model self' = Some name /\
       In (name, metrics) (evaluated_of trained_three validated_sample one_label) /\
       f1_of metrics = Some f1 /\
       forall name' metrics' f1',
         In (name', metrics')
            (evaluated_of trained_three validated_sample one_label) ->
         f1_of metrics' = Some f1' -> (f1' <= f1)%Q).
Proof.
  apply (evaluate_many_tolerates_failures (sk := sample_sklearn) init
           trained_three validated_sample one_label).
  cbn. CleanerFacts.nodup_strings.
Defined.

Lemma comparison_has_a_row_per_evaluated_model_witness :
  (forall entry, In entry (evaluation_results evaluated_evaluator) ->
                 complete (snd entry)) /\
  exists rows,
    get_model_comparison evaluated_evaluator = OK rows /\
    map row_model rows = dict_keys (evaluation_results evaluated_evaluator) /\
    length rows = model_count (get_evaluation_report evaluated_evaluator) /\
    forall row, In row rows ->
      exists metrics,
        In (row_model row, metrics) (evaluation_results evaluated_evaluator) /\
        dict_get "accuracy" metrics = Some (row_accuracy row) /\
        dict_get "precision" metrics = Some (row_precision row) /\
        dict_get "recall" metrics = Some (row_recall row) /\
        dict_get "f1_score" metrics = Some (row_f1 row) /\
        dict_get "roc_auc" metrics = Some (row_auc row).
Proof.
  apply (comparison_has_a_row_per_evaluated_model (sk := sample_sklearn) init
           evaluated_evaluator trained_three validated_sample one_label
           evaluated_results).
  - intros entry [].
  - vm_compute. reflexivity.
Defined.

End EvaluationTheorems.

(** ** The run, phase by phase *)

Module RunFacts.
Import Pipeline PipelineFacts.

Section WithLibraries.
Context {text : TextConversions} {lib : StandardScaler} {sk : Sklearn}
        {clock : Clock} {loader : DataLoader}.

Lemma load_data_ok (self s1 : t) (h h1 : heap) :
  _load_data self h = (OK s1, h1) ->
  exists data,
    load_data = OK data /\ validate_data data = true /\
    h1 = h ++ [data] /\ raw_data s1 = Some (length h) /\
    pipeline_results s1 = pipeline_results self.
Proof.
  unfold _load_data, bindH, liftH, new_frame, retH, raiseH.
  destruct load_data as [data|] eqn:El; [|discriminate].
  destruct (validate_data data) eqn:Ev; [|discriminate].
  intros [= <- <-]. exists data. auto 10.
Qed.

Lemma clean_data_phase (self s2 : t) (h h2 : heap) :
  _clean_data self h = (OK s2, h2) ->
  exists raw cleaner d' report,
    raw_data self = Some raw /\
    Cleaner.clean_steps (nth raw h []) = OK d' /\
    h2 = h ++ [d'] /\ cleaned_data s2 = Some (length h) /\
    feature_engineer s2 = feature_engineer self /\
    Cleaner.cleaning_report cleaner = Some report /\
    pipeline_results s2
    = mkResults (Some report) (feature_info (pipeline_results self))
        (training_info (pipeline_results self))
        (evaluation_report (pipeline_results self))
        (best_model (pipeline_results self))
        (best_model_metrics (pipeline_results self))
        (model_comparison (pipeline_results self))
        (feature_importance (pipeline_results self))
        (success (pipeline_results self))
        (total_execution_time (pipeline_results self)).
Proof.
  unfold _clean_data. intro H.
  apply bindH_ok in H. destruct H as (raw & h0 & Hraw & H).
  apply expect_ok in Hraw. destruct Hraw as (Hraw & ->).
  apply bindH_ok in H. destruct H as ([cleaner out] & hc & Hclean & H).
  destruct (CleanerTheorems.clean_data_ok _ _ _ _ _ _ Hclean)
    as (d' & Hsteps & -> & -> & Hrep).
  unfold retH in H. injection H as <- <-.
  exists raw, cleaner. do 2 eexists.
  split; [exact Hraw|]. split; [exact Hsteps|]. split; [reflexivity|].
  split; [reflexivity|]. split; [reflexivity|]. split; [exact Hrep|].
  cbn [pipeline_results]. now rewrite Hrep.
Qed.

Lemma engineer_features_phase (self s3 : t) (h h3 : heap) :
  _engineer_features self h = (OK s3, h3) ->
  exists info ext out,
    h3 = h ++ ext /\ cleaned_data s3 = cleaned_data self /\
    engineered_data s3 = Some out /\
    model_trainer s3 = model_trainer self /\
    pipeline_results s3
    = mkResults (cleaning_report (pipeline_results self)) (Some info)
        (training_info (pipeline_results self))
        (evaluation_report (pipeline_results self))
        (best_model (pipeline_results self))
        (best_model_metrics (pipeline_results self))
        (model_comparison (pipeline_results self))
        (feature_importance (pipeline_results self))
        (success (pipeline_results self))
        (total_execution_time (pipeline_results self)).
Proof.
  unfold _engineer_features. intro H.
  apply bindH_ok in H. destruct H as (cleaned & h0 & Hc & H).
  apply expect_ok in Hc. destruct Hc as (Hc & ->).
  apply bindH_ok in H. destruct H as ([engineer out] & he & Heng & H).
  rewrite EngineerFacts.engineer_features_unfold in Heng. cbv zeta in Heng.
  destruct (Engineer._create_derived_features (nth cleaned h [])) as [d1|];
    [|discriminate].
  destruct (Engineer._encode_categorical_features _ d1) as [[encoders d2]|];
    [|discriminate].
  destruct (Engineer._normalize_numeric_features _ d2) as [[stats d3]|];
    [|discriminate].
  injection Heng as <- <- <-. unfold retH in H. injection H as <- <-.
  do 3 eexists. split; [reflexivity|]. split; [reflexivity|].
  split; [reflexivity|]. split; reflexivity.
Qed.

Lemma prepare_data_phase (self s4 : t) (h h4 : heap) :
  _prepare_data self h = (OK s4, h4) ->
  h4 = h /\ pipeline_results s4 = pipeline_results self /\
  exists parts, split s4 = Some parts.
Proof.
  unfold _prepare_data. intro H.
  apply bindH_ok in H. destruct H as (c & hc & Hc & H).
  apply expect_ok in Hc. destruct Hc as (_ & ->).
  apply bindH_ok in H. destruct H as (cd & hcd & Hcd & H).
  unfold deref in Hcd. injection Hcd as <- <-.
  destruct (dict_get "Churn" (nth c h [])) as [churn|]; [|discriminate].
  cbv zeta in H.
  apply bindH_ok in H. destruct H as (e & he & He & H).
  apply expect_ok in He. destruct He as (_ & ->).
  apply bindH_ok in H. destruct H as (X & hX & HX & H).
  unfold deref in HX. injection HX as <- <-.
  apply bindH_ok in H. destruct H as (parts & hp & Hp & H).
  unfold liftH in Hp. destruct (Trainer.split_data _ _ _); [|discriminate].
  injection Hp as <- <-.
  unfold retH in H. injection H as <- <-. cbn [pipeline_results split]. eauto.
Qed.

(** The three models that [_create_models] makes. *)
Lemma create_models_phase (self s5 : t) (h h5 : heap) :
  _create_models self h = (OK s5, h5) ->
  h5 = h /\ pipeline_results s5 = pipeline_results self /\
  split s5 = split self /\
  dict_keys (models s5)
  = ["LogisticRegression"; "RandomForest"; "GradientBoosting"].
Proof.
  unfold _create_models, retH. intros [= <- <-]. auto 10.
Qed.

Lemma train_models_phase (self s6 : t) (h h6 : heap) :
  _train_models self h = (OK s6, h6) ->
  exists parts,
    split self = Some parts /\ split s6 = Some parts /\ h6 = h /\
    trained_models s6
    = fst (Trainer.train_loop (model_trainer self) (models self)
             (Trainer.X_train parts) (Trainer.y_train parts) []) /\
    model_evaluator s6 = model_evaluator self /\
    pipeline_results s6
    = mkResults (cleaning_report (pipeline_results self))
        (feature_info (pipeline_results self))
        (Some (Trainer.get_training_info (model_trainer s6)))
        (evaluation_report (pipeline_results self))
        (best_model (pipeline_results self))
        (best_model_metrics (pipeline_results self))
        (model_comparison (pipeline_results self))
        (feature_importance (pipeline_results self))
        (success (pipeline_results self))
        (total_execution_time (pipeline_results self)).
Proof.
  unfold _train_models. intro H.
  apply bindH_ok in H. destruct H as (parts & h0 & Hp & H).
  apply expect_ok in Hp. destruct Hp as (Hp & ->).
  unfold Trainer.train_multiple_models in H.
  destruct (Trainer.train_loop (model_trainer self) (models self)
              (Trainer.X_train parts) (Trainer.y_train parts) [])
    as [trained trainer] eqn:Eloop.
  unfold bindH, liftH, retH in H. injection H as <- <-.
  exists parts. cbn [split trained_models model_evaluator pipeline_results
                     model_trainer]. rewrite Eloop. cbn [fst]. auto 12.
Qed.

Lemma evaluate_models_phase (self s7 : t) (h h7 : heap) :
  _evaluate_models self h = (OK s7, h7) ->
  exists parts,
    split self = Some parts /\ h7 = h /\
    trained_models s7 = trained_models self /\
    model_trainer s7 = model_trainer self /\
    Evaluator.evaluate_multiple_models (model_evaluator self)
      (trained_models self) (Trainer.X_test parts) (Trainer.y_test parts)
    = (OK (evaluation_results s7), model_evaluator s7) /\
    pipeline_results s7
    = mkResults (cleaning_report (pipeline_results self))
        (feature_info (pipeline_results self))
        (training_info (pipeline_results self))
        (Some (Evaluator.get_evaluation_report (model_evaluator s7)))
        (best_model (pipeline_results self))
        (best_model_metrics (pipeline_results self))
        (model_comparison (pipeline_results self))
        (feature_importance (pipeline_results self))
        (success (pipeline_results self))
        (total_execution_time (pipeline_results self)).
Proof.
  unfold _evaluate_models. intro H.
  apply bindH_ok in H. destruct H as (parts & h0 & Hp & H).
  apply expect_ok in Hp. destruct Hp as (Hp & ->).
  destruct (Evaluator.evaluate_multiple_models (model_evaluator self)
              (trained_models self) (Trainer.X_test parts)
              (Trainer.y_test parts)) as [[res|] evaluator] eqn:Eev;
    unfold bindH, liftH, retH in H; [|discriminate].
  injection H as <- <-.
  exists parts. cbn [trained_models model_trainer evaluation_results
                     model_evaluator pipeline_results]. auto 12.
Qed.

Lemma generate_results_phase (self s8 : t) (h h8 : heap) :
  _generate_results self h = (OK s8, h8) ->
  exists rows importances,
    h8 = h /\
    trained_models s8 = trained_models self /\
    evaluation_results s8 = evaluation_results self /\
    model_trainer s8 = model_trainer self /\
    model_evaluator s8 = model_evaluator self /\
    Evaluator.get_model_comparison (model_evaluator self) = OK rows /\
    match get_model (trained_models self)
            (Evaluator.best_model (model_evaluator self)) with
    | Some m => Model.get_feature_importance m
    | None => OK []
    end = OK importances /\
    pipeline_results s8
    = mkResults (cleaning_report (pipeline_results self))
        (feature_info (pipeline_results self))
        (training_info (pipeline_results self))
        (evaluation_report (pipeline_results self))
        (Evaluator.best_model (model_evaluator self))
        match Evaluator.best_model (model_evaluator self) with
        | Some n => match dict_get n (evaluation_results self) with
                    | Some m => m
                    | None => []
                    end
        | None => []
        end
        rows importances true
        (total_execution_time (pipeline_results self)).
Proof.
  unfold _generate_results. intro H.
  apply bindH_ok in H. destruct H as (rows & h0 & Hrows & H).
  unfold liftH in Hrows.
  destruct (Evaluator.get_model_comparison (model_evaluator self))
    as [rows'|] eqn:Erows; [|discriminate].
  injection Hrows as <- <-.
  apply bindH_ok in H. destruct H as (imp & h0 & Himp & H).
  unfold liftH in Himp.
  destruct (match get_model (trained_models self)
                    (Evaluator.best_model (model_evaluator self)) with
            | Some m => Model.get_feature_importance m
            | None => OK []
            end) as [imp'|] eqn:Eimp; [|discriminate].
  injection Himp as <- <-.
  unfold retH in H. injection H as <- <-.
  exists rows', imp'. cbn [trained_models evaluation_results model_trainer
                         model_evaluator pipeline_results]. auto 15.
Qed.

(** A run that returns has gone through the eight phases. *)
Lemma run_phases (self self' : t) (h h' : heap) (results : Results) :
  run self h = (OK (results, self'), h') ->
  exists s1 s2 s3 s4 s5 s6 s7 s8 h1 h2 h3 h4 h5 h6 h7,
    _load_data self h = (OK s1, h1) /\
    _clean_data s1 h1 = (OK s2, h2) /\
    _engineer_features s2 h2 = (OK s3, h3) /\
    _prepare_data s3 h3 = (OK s4, h4) /\
    _create_models s4 h4 = (OK s5, h5) /\
    _train_models s5 h5 = (OK s6, h6) /\
    _evaluate_models s6 h6 = (OK s7, h7) /\
    _generate_results s7 h7 = (OK s8, h') /\
    results
    = mkResults (cleaning_report (pipeline_results s8))
        (feature_info (pipeline_results s8))
        (training_info (pipeline_results s8))
        (evaluation_report (pipeline_results s8))
        (best_model (pipeline_results s8))
        (best_model_metrics (pipeline_results s8))
        (model_comparison (pipeline_results s8))
        (feature_importance (pipeline_results s8))
        (success (pipeline_results s8)) (Some run_duration) /\
    pipeline_results self' = results /\
    trained_models self' = trained_models s8 /\
    evaluation_results self' = evaluation_results s8 /\
    model_trainer self' = model_trainer s8 /\
    model_evaluator self' = model_evaluator s8.
Proof.
  unfold run. intro H.
  apply bindH_ok in H. destruct H as (s1 & h1 & E1 & H).
  apply bindH_ok in H. destruct H as (s2 & h2 & E2 & H).
  apply bindH_ok in H. destruct H as (s3 & h3 & E3 & H).
  apply bindH_ok in H. destruct H as (s4 & h4 & E4 & H).
  apply bindH_ok in H. destruct H as (s5 & h5 & E5 & H).
  apply bindH_ok in H. destruct H as (s6 & h6 & E6 & H).
  apply bindH_ok in H. destruct H as (s7 & h7 & E7 & H).
  apply bindH_ok in H. destruct H as (s8 & h8 & E8 & H).
  cbv zeta in H. unfold retH in H. injection H as <- <- <-.
  exists s1, s2, s3, s4, s5, s6, s7, s8, h1, h2, h3, h4, h5, h6, h7.
  cbn [pipeline_results trained_models evaluation_results model_trainer
       model_evaluator]. auto 20.
Qed.

End WithLibraries.

End RunFacts.

(** ** What a completed run reports; inference without a model; the
    loader's validation *)

Module RunTheorems.
Import Pipeline PipelineFacts RunFacts EvaluationFacts.

Section WithLibraries.
Context {text : TextConversions} {lib : StandardScaler} {sk : Sklearn}
        {clock : Clock} {loader : DataLoader}.

(** X20. A run that returns has filled every section of its results: the
    success flag is set, the total time is recorded, the cleaning report
    and the feature information are there, the training information is
    that of the trainer and the evaluation report that of the evaluator as
    the run leaves them; [get_results] gives the same results again.  The
    run has only added objects to the store. *)
Theorem completed_run_fills_the_results (self self' : t) (h h' : heap)
        (results : Results) :
  run self h = (OK (results, self'), h') ->
  success results = true /\
  total_execution_time results = Some run_duration /\
  (exists report, cleaning_report results = Some report) /\
  (exists info, feature_info results = Some info) /\
  training_info results
  = Some (Trainer.get_training_info (model_trainer self')) /\
  evaluation_report results
  = Some (Evaluator.get_evaluation_report (model_evaluator self')) /\
  get_results self' = results /\
  exists added, h' = h ++ added.
Proof.
  intro Hrun.
  destruct (run_phases _ _ _ _ _ Hrun)
    as (s1 & s2 & s3 & s4 & s5 & s6 & s7 & s8 & h1 & h2 & h3 & h4 & h5 & h6 & h7 &
        E1 & E2 & E3 & E4 & E5 & E6 & E7 & E8 & -> & Hpr & _ & _ & Htr & Hev).
  destruct (load_data_ok _ _ _ _ E1) as (data & _ & _ & -> & _ & R1).
  destruct (clean_data_phase _ _ _ _ E2)
    as (raw & cleaner & d' & report & _ & _ & -> & _ & _ & _ & R2).
  destruct (engineer_features_phase _ _ _ _ E3)
    as (info & ext & out & -> & _ & _ & _ & R3).
  destruct (prepare_data_phase _ _ _ _ E4) as (-> & R4 & _).
  destruct (create_models_phase _ _ _ _ E5) as (-> & R5 & _).
  destruct (train_models_phase _ _ _ _ E6)
    as (parts & _ & _ & -> & _ & V6 & R6).
  destruct (evaluate_models_phase _ _ _ _ E7)
    as (parts' & _ & -> & _ & T7 & _ & R7).
  destruct (generate_results_phase _ _ _ _ E8)
    as (rows & imp & -> & _ & _ & T8 & V8 & _ & _ & R8).
  unfold get_results. rewrite Hpr, Htr, Hev, T8, V8, T7.
  rewrite R8, R7, R6, R5, R4, R3, R2.
  cbn [success total_execution_time cleaning_report feature_info
       training_info evaluation_report].
  split; [reflexivity|]. split; [reflexivity|]. split; [eauto|].
  split; [eauto|]. split; [reflexivity|]. split; [reflexivity|].
  split; [reflexivity|].
  exists (([data] ++ [d']) ++ ext). now rewrite !app_assoc.
Qed.

(** X21. The best model of a run that returns.  The trained models are
    among the three that the run creates, and each is trained.  When the
    results name no best model, they have no best-model metrics and no
    feature importance, and [get_best_model] gives none.  When they name
    one, it is one of the trained models, [get_best_model] gives it, the
    best-model metrics are its evaluation metrics, no evaluated model has
    a higher F1-Score, and the feature importance is the model's own. *)
Theorem best_model_of_a_completed_run (self self' : t) (h h' : heap)
        (results : Results) :
  run self h = (OK (results, self'), h') ->
  incl (dict_keys (trained_models self'))
       ["LogisticRegression"; "RandomForest"; "GradientBoosting"] /\
  (forall name model, In (name, model) (trained_models self') ->
                      Model.is_trained model = true) /\
  match best_model results with
  | None =>
      best_model_metrics results = [] /\ feature_importance results = [] /\
      get_best_model self' = None
  | Some name =>
      exists model metrics f1,
        dict_get name (trained_models self') = Some model /\
        get_best_model self' = Some model /\
        dict_get name (evaluation_results self') = Some metrics /\
        best_model_metrics results = metrics /\
        Evaluator.f1_of metrics = Some f1 /\
        (forall name' metrics' f1',
           In (name', metrics') (evaluation_results self') ->
           Evaluator.f1_of metrics' = Some f1' -> (f1' <= f1)%Q) /\
        Model.get_feature_importance model = OK (feature_importance results)
  end.
Proof.
  intro Hrun.
  destruct (run_phases _ _ _ _ _ Hrun)
    as (s1 & s2 & s3 & s4 & s5 & s6 & s7 & s8 & h1 & h2 & h3 & h4 & h5 & h6 & h7 &
        E1 & E2 & E3 & E4 & E5 & E6 & E7 & E8 & Hres & Hpr & Htm & Her & _ & _).
  clear Hrun E1 E2 E3 E4.
  destruct (create_models_phase _ _ _ _ E5) as (_ & _ & _ & K5).
  destruct (train_models_phase _ _ _ _ E6)
    as (parts & _ & S6 & _ & T6 & _ & _).
  destruct (evaluate_models_phase _ _ _ _ E7)
    as (parts' & S7 & _ & T7 & _ & V7 & _).
  destruct (generate_results_phase _ _ _ _ E8)
    as (rows & imp & _ & T8 & R8 & _ & V8 & _ & I8 & P8).
  clear E5 E6 E7 E8.
  assert (Hnd5 : NoDup (dict_keys (models s5)))
    by (rewrite K5; CleanerFacts.nodup_strings).
  rewrite TrainerFacts.train_loop_trained in T6 by exact Hnd5.
  cbn [app] in T6.
  destruct (trained_keys (models s5) (Trainer.X_train parts)
              (Trainer.y_train parts) Hnd5) as (Hnd6 & Hincl6).
  rewrite <- T6 in Hnd6, Hincl6. rewrite K5 in Hincl6.
  rewrite S6 in S7. injection S7 as <-.
  destruct (evaluate_many_run (model_evaluator s6) (trained_models s6)
              (Trainer.X_test parts) (Trainer.y_test parts) Hnd6)
    as (ev & Hev & Hbest).
  rewrite Hev in V7. injection V7 as V7r V7e.
  destruct (evaluated_keys (trained_models s6) (Trainer.X_test parts)
              (Trainer.y_test parts) Hnd6) as (Hnd7 & Hincl7).
  rewrite V7r in Hnd7, Hincl7, Hbest.
  assert (TM : trained_models self' = trained_models s6)
    by (now rewrite Htm, T8, T7).
  assert (ER : evaluation_results self' = evaluation_results s7)
    by (now rewrite Her, R8).
  assert (BM : best_model results = Evaluator.best_model ev)
    by (rewrite Hres, P8; cbn [best_model]; now rewrite V7e).
  assert (MT : best_model_metrics results
               = match Evaluator.best_model ev with
                 | Some n => match dict_get n (evaluation_results s7) with
                             | Some m => m
                             | None => []
                             end
                 | None => []
                 end)
    by (rewrite Hres, P8; cbn [best_model_metrics]; now rewrite V7e).
  assert (FI : feature_importance results = imp)
    by (rewrite Hres, P8; reflexivity).
  rewrite T7, <- V7e in I8.
  unfold get_best_model. rewrite Hpr, BM, MT, FI, TM, ER.
  split; [exact Hincl6|]. split.
  { intros name model Hin. rewrite T6 in Hin. apply trained_of_In in Hin.
    destruct Hin as (m & _ & Htrain).
    destruct (ModelTheorems.train_cases _ _ _ _ _ Htrain)
      as [(e & He & _) | [(e & He & _) | (fitted & _ & _ & _ & _ & ->)]];
      try discriminate. reflexivity. }
  destruct Hbest as [Hnone | (name & metrics & f1 & Hsome & Hin & Hf1 & Hmax)].
  - rewrite Hnone in I8 |- *. cbn [get_model] in I8. injection I8 as <-. auto.
  - rewrite Hsome in I8 |- *.
    assert (Hname : In name (dict_keys (trained_models s6))).
    { apply Hincl7. unfold dict_keys. apply in_map_iff. now exists (name, metrics). }
    pose proof Hname as Hget. apply CleanerTheorems.dict_get_keys in Hget.
    destruct Hget as (model & Hmodel).
    cbn [get_model] in I8. rewrite Hmodel in I8.
    rewrite (nodup_keys_get _ _ _ _ Hnd7 Hin).
    exists model, metrics, f1.
    split; [exact Hmodel|]. split.
    { assert (Hne : String.eqb name EmptyString = false).
      { apply Hincl6 in Hname. cbn [In] in Hname.
        destruct Hname as [<- | [<- | [<- | []]]]; reflexivity. }
      now rewrite Hne. }
    split; [reflexivity|]. split; [reflexivity|]. split; [exact Hf1|].
    split; [exact Hmax | exact I8].
Qed.

(** X22. Inference needs a best model: [predict] on a pipeline that has
    just been built, or that has run with no best model (every training
    or every evaluation having failed), raises [ValueError] before it
    cleans anything: the store is as it was. *)
Theorem predict_needs_a_best_model :
  (forall cleaner engineer trainer evaluator data h,
     get_best_model (init cleaner engineer trainer evaluator) = None /\
     exists msg, predict (init cleaner engineer trainer evaluator) data h
                 = (Raise (ValueError msg), h)) /\
  (forall self self' h h' results data h2,
     run self h = (OK (results, self'), h') ->
     best_model results = None ->
     get_best_model self' = None /\
     exists msg, predict self' data h2 = (Raise (ValueError msg), h2)).
Proof.
  split.
  - intros. split; [reflexivity|]. unfold predict. cbn. unfold raiseH. eauto.
  - intros self self' h h' results data h2 Hrun Hbest.
    destruct (run_phases _ _ _ _ _ Hrun)
      as (s1 & s2 & s3 & s4 & s5 & s6 & s7 & s8 & h1 & h2' & h3 & h4 & h5 & h6 & h7 &
          _ & _ & _ & _ & _ & _ & _ & _ & _ & Hpr & _).
    assert (Hnone : get_best_model self' = None)
      by (unfold get_best_model; now rewrite Hpr, Hbest).
    split; [exact Hnone|]. unfold predict. rewrite Hnone. unfold raiseH. eauto.
Qed.

End WithLibraries.

(** X23. The loader's validation in a run: with the Telco loader, a file
    that cannot be read makes the run raise what the reading raised, with
    nothing added to the store; a dataset that lacks one of the columns
    customerID, Churn, tenure and MonthlyCharges makes the run raise
    [ValueError] before anything is cleaned (the store holds the raw
    dataset and nothing more); a dataset that has the four passes the
    first phase, whatever its cells are. *)
Theorem run_stops_at_the_loaders_validation
        {text : TextConversions} {lib : StandardScaler} {sk : Sklearn}
        {clock : Clock} (csv : result DataFrame) (self : t) (h : heap) :
  (forall e, csv = Raise e ->
     run (loader := TelcoDataLoader.loader csv) self h = (Raise e, h)) /\
  (forall data c,
     csv = OK data -> In c TelcoDataLoader.required_columns ->
     dict_mem c data = false ->
     exists msg,
       run (loader := TelcoDataLoader.loader csv) self h
       = (Raise (ValueError msg), h ++ [data])) /\
  (forall data,
     csv = OK data ->
     (forall c, In c TelcoDataLoader.required_columns -> dict_mem c data = true) ->
     exists s1,
       _load_data (loader := TelcoDataLoader.loader csv) self h
       = (OK s1, h ++ [data]) /\
       raw_data s1 = Some (length h)).
Proof.
  split; [|split].
  - intros e ->. reflexivity.
  - intros data c -> Hc Hmiss.
    assert (Hval : TelcoDataLoader.validate_data data = false).
    { unfold TelcoDataLoader.validate_data, TelcoDataLoader.missing_required.
      destruct (filter _ TelcoDataLoader.required_columns) as [|x l] eqn:E;
        [|reflexivity].
      exfalso. assert (Hin : In c []); [|contradiction].
      rewrite <- E. apply filter_In. split; [exact Hc|]. now rewrite Hmiss. }
    unfold run, bindH at 1. unfold _load_data, bindH, liftH, new_frame.
    cbn [load_data validate_data TelcoDataLoader.loader]. rewrite Hval.
    unfold raiseH. eauto.
  - intros data -> Hall.
    assert (Hval : TelcoDataLoader.validate_data data = true).
    { unfold TelcoDataLoader.validate_data, TelcoDataLoader.missing_required.
      destruct (filter _ TelcoDataLoader.required_columns) as [|x l] eqn:E;
        [reflexivity|].
      exfalso. assert (Hin : In x (x :: l)) by now left.
      rewrite <- E in Hin. apply filter_In in Hin. destruct Hin as [Hx Hneg].
      rewrite (Hall x Hx) in Hneg. discriminate. }
    unfold _load_data, bindH, liftH, new_frame.
    cbn [load_data validate_data TelcoDataLoader.loader]. rewrite Hval.
    unfold retH. eexists. split; reflexivity.
Qed.

(** X24. With the Telco loader the label column is never found missing:
    when the first three phases of a run have returned, the cleaned
    dataset has the four columns that the validation requires, the churn
    column among them; an exception of the fourth phase is then the
    exception that the split raises on the feature matrix and the churn
    labels, not the phase's own [ValueError] for a missing churn column. *)
Theorem validated_columns_reach_the_split
        {text : TextConversions} {lib : StandardScaler} {sk : Sklearn}
        {clock : Clock} (csv : result DataFrame) (self s1 s2 s3 : t)
        (h h1 h2 h3 : heap) :
  _load_data (loader := TelcoDataLoader.loader csv) self h = (OK s1, h1) ->
  _clean_data s1 h1 = (OK s2, h2) ->
  _engineer_features s2 h2 = (OK s3, h3) ->
  exists cleaned,
    cleaned_data s3 = Some cleaned /\
    (forall c, In c TelcoDataLoader.required_columns ->
               dict_mem c (nth cleaned h3 []) = true) /\
    forall e h4,
      _prepare_data s3 h3 = (Raise e, h4) ->
      exists churn engineered,
        dict_get "Churn" (nth cleaned h3 []) = Some churn /\
        engineered_data s3 = Some engineered /\
        Trainer.split_data (model_trainer s3) (nth engineered h3 [])
          (Engineer.int_of_bools (Engineer.eq_text churn "Yes")) = Raise e.
Proof.
  intros E1 E2 E3.
  destruct (load_data_ok (loader := TelcoDataLoader.loader csv) _ _ _ _ E1)
    as (data & Hcsv & Hval & -> & Hraw & _).
  cbn [load_data validate_data TelcoDataLoader.loader] in Hcsv, Hval.
  destruct (clean_data_phase _ _ _ _ E2)
    as (raw & cleaner & d' & report & Hraw' & Hsteps & -> & Hcd & _).
  rewrite Hraw in Hraw'. injection Hraw' as <-.
  rewrite nth_fresh in Hsteps.
  destruct (CleanerProperties.clean_steps_shape _ _ Hsteps) as (Hkeys & _).
  destruct (engineer_features_phase _ _ _ _ E3)
    as (info & ext & out & -> & Hcd3 & Hout & _ & _).
  rewrite Hcd in Hcd3.
  assert (Hnth : nth (length (h ++ [data])) (((h ++ [data]) ++ [d']) ++ ext) []
                 = d').
  { rewrite <- app_assoc. rewrite app_nth2 by lia.
    now rewrite Nat.sub_diag. }
  assert (Hreq : forall c, In c TelcoDataLoader.required_columns ->
                           dict_mem c d' = true).
  { intros c Hc. unfold dict_mem.
    assert (Hin : In c (dict_keys d')).
    { rewrite Hkeys. apply CleanerTheorems.dict_get_keys.
      unfold TelcoDataLoader.validate_data, TelcoDataLoader.missing_required
        in Hval.
      destruct (dict_get c data) as [s|] eqn:Eg; [eauto|]. exfalso.
      assert (Hmiss : In c (filter (fun col => negb (dict_mem col data))
                              TelcoDataLoader.required_columns)).
      { apply filter_In. split; [exact Hc|]. unfold dict_mem. now rewrite Eg. }
      destruct (filter _ TelcoDataLoader.required_columns);
        [contradiction | discriminate]. }
    apply CleanerTheorems.dict_get_keys in Hin. destruct Hin as (s & ->).
    reflexivity. }
  exists (length (h ++ [data])). split; [exact Hcd3|].
  rewrite Hnth. split; [exact Hreq|].
  intros e h4. unfold _prepare_data, bindH. rewrite Hcd3.
  cbn [expect retH deref]. rewrite Hnth.
  pose proof (Hreq "Churn" ltac:(cbn; tauto)) as Hchurn.
  unfold dict_mem in Hchurn.
  destruct (dict_get "Churn" d') as [churn|]; [|discriminate].
  rewrite Hout. cbn [expect retH liftH deref].
  destruct (Trainer.split_data _ _ _) as [parts|e'] eqn:Es; [discriminate|].
  intros [= <- <-]. exists churn, out.
  split; [reflexivity|]. split; [reflexivity|]. exact Es.
Qed.


Lemma completed_run_fills_the_results_witness :
  success completed_results = true /\
  total_execution_time completed_results
  = Some (run_duration (Clock := sample_clock)) /\
  (exists report, cleaning_report completed_results = Some report) /\
  (exists info, feature_info completed_results = Some info) /\
  training_info completed_results
  = Some (Trainer.get_training_info (model_trainer completed_pipeline)) /\
  evaluation_report completed_results
  = Some (Evaluator.get_evaluation_report (model_evaluator completed_pipeline)) /\
  get_results completed_pipeline = completed_results /\
  exists added, completed_heap = [] ++ added.
Proof.
  apply (completed_run_fills_the_results (text := whole_number_text)
           (clock := sample_clock) (loader := sample_loader)
           new_pipeline completed_pipeline [] completed_heap completed_results).
  vm_compute. reflexivity.
Defined.

Lemma best_model_of_a_completed_run_witness :
  incl (dict_keys (trained_models completed_pipeline))
       ["LogisticRegression"; "RandomForest"; "GradientBoosting"] /\
  (forall name model, In (name, model) (trained_models completed_pipeline) ->
                      Model.is_trained model = true) /\
  exists model metrics f1,
    dict_get "LogisticRegression" (trained_models completed_pipeline)
    = Some model /\
    get_best_model completed_pipeline = Some model /\
    dict_get "LogisticRegression" (evaluation_results completed_pipeline)
    = Some metrics /\
    best_model_metrics completed_results = metrics /\
    Evaluator.f1_of metrics = Some f1 /\
    (forall name' metrics' f1',
       In (name', metrics') (evaluation_results completed_pipeline) ->
       Evaluator.f1_of metrics' = Some f1' -> (f1' <= f1)%Q) /\
    Model.get_feature_importance model
    = OK (feature_importance completed_results).
Proof.
  apply (best_model_of_a_completed_run (text := whole_number_text)
           (clock := sample_clock) (loader := sample_loader)
           new_pipeline completed_pipeline [] completed_heap completed_results).
  vm_compute. reflexivity.
Defined.

Lemma validated_columns_reach_the_split_witness :
  exists cleaned,
    cleaned_data featured_pipeline = Some cleaned /\
    (forall c, In c TelcoDataLoader.required_columns ->
               dict_mem c (nth cleaned (snd featured_run) []) = true) /\
    forall e h4,
      _prepare_data featured_pipeline (snd featured_run) = (Raise e, h4) ->
      exists churn engineered,
        dict_get "Churn" (nth cleaned (snd featured_run) []) = Some churn /\
        engineered_data featured_pipeline = Some engineered /\
        Trainer.split_data (sk := sample_sklearn)
          (model_trainer featured_pipeline)
          (nth engineered (snd featured_run) [])
          (Engineer.int_of_bools (Engineer.eq_text churn "Yes")) = Raise e.
Proof.
  apply (validated_columns_reach_the_split (text := whole_number_text)
           (clock := sample_clock) (OK training_sample) new_pipeline
           loaded_pipeline cleaned_pipeline featured_pipeline
           [] (snd loaded_run) (snd cleaned_run) (snd featured_run)).
  - vm_compute. reflexivity.
  - vm_compute. reflexivity.
  - vm_compute. reflexivity.
Defined.

End RunTheorems.

(** ** Scaling, the columns for importance analysis, the scores *)

Module ScalingTheorems.
Import Engineer EngineerFacts DerivationFacts EncodingFacts.

Lemma assign_columns_other (names : list string) :
  forall (d : DataFrame) (matrix : list (list value)) (c : string),
  ~ In c names -> dict_get c (assign_columns d names matrix) = dict_get c d.
Proof.
  induction names as [|col names IH]; intros d matrix c Hc;
    cbn [assign_columns]; [reflexivity|].
  destruct matrix as [|cs matrix]; [reflexivity|].
  rewrite IH by (intro; apply Hc; now right).
  apply dict_get_set_other. intros ->. apply Hc. now left.
Qed.

Lemma assign_columns_keys (names : list string) :
  forall (d : DataFrame) (matrix : list (list value)),
  (forall c, In c names -> present c d) ->
  dict_keys (assign_columns d names matrix) = dict_keys d.
Proof.
  induction names as [|col names IH]; intros d matrix Hp;
    cbn [assign_columns]; [reflexivity|].
  destruct matrix as [|cs matrix]; [reflexivity|].
  destruct (Hp col (or_introl eq_refl)) as (s & Hs).
  rewrite IH.
  - eapply dict_set_keys; eassumption.
  - intros c Hc. destruct (String.eqb c col) eqn:E.
    + apply String.eqb_eq in E. subst c. eexists. apply dict_get_set_same.
    + apply String.eqb_neq in E. unfold present.
      rewrite dict_get_set_other by assumption. apply Hp. now right.
Qed.

Lemma assign_columns_float (names : list string) :
  forall (d : DataFrame) (matrix : list (list value)) (c : string),
  length matrix = length names -> In c names ->
  exists s, dict_get c (assign_columns d names matrix) = Some s /\
            dtype_of s = Float64.
Proof.
  induction names as [|col names IH]; intros d matrix c Hlen Hc;
    [contradiction|].
  destruct matrix as [|cs matrix]; [discriminate|].
  cbn [assign_columns]. cbn [length] in Hlen.
  destruct (in_dec string_dec c names) as [Hin | Hout].
  - apply IH; [lia | exact Hin].
  - destruct Hc as [<- | Hc]; [|contradiction].
    rewrite assign_columns_other by exact Hout.
    rewrite dict_get_set_same. eauto.
Qed.

Section WithScaler.
Context {lib : StandardScaler}.

(** X25. Scaling: when [_normalize_numeric_features] returns, the frame
    has the same columns in the same order; the columns that are scaled
    (tenure, MonthlyCharges and TotalCharges when they are there, and the
    [feature_] columns of a number type) are now of type float64; every
    other column is as it was.  When there is nothing to scale the frame
    and the scaler are left as they are. *)
Theorem scaling_touches_only_the_scaled_columns
        (stats stats' : scaler_stats) (d d' : DataFrame) :
  _normalize_numeric_features stats d = OK (stats', d') ->
  dict_keys d' = dict_keys d /\
  (forall c, In c numeric_columns -> dict_mem c d = true ->
             In c (columns_to_scale d)) /\
  (forall c, In c (columns_to_scale d) ->
             exists s, dict_get c d' = Some s /\ dtype_of s = Float64) /\
  (forall c, ~ In c (columns_to_scale d) -> dict_get c d' = dict_get c d) /\
  (columns_to_scale d = [] -> stats' = stats /\ d' = d).
Proof.
  unfold _normalize_numeric_features. intro Hrun.
  assert (Hnum : forall c, In c numeric_columns -> dict_mem c d = true ->
                           In c (columns_to_scale d)).
  { intros c Hc Hm. unfold columns_to_scale. apply in_or_app. left.
    apply filter_In. auto. }
  destruct (columns_to_scale d) as [|c0 names] eqn:En.
  - injection Hrun as <- <-. split; [reflexivity|]. split; [exact Hnum|].
    split; [intros c []|]. split; [reflexivity | auto].
  - destruct (select_cells d (c0 :: names)) as [matrix|]; cbn [bind] in Hrun;
      [|discriminate].
    destruct (fit_transform matrix) as [[fitted m]|]; cbn [bind fst snd] in Hrun;
      [|discriminate].
    destruct (length m =? length (c0 :: names)) eqn:El; [|discriminate].
    apply Nat.eqb_eq in El.
    assert (Hd' : d' = assign_columns d (c0 :: names) m) by congruence.
    rewrite Hd'. clear Hrun Hd'.
    split; [|split; [exact Hnum|split; [|split]]].
    + apply assign_columns_keys. intros c Hc.
      apply columns_to_scale_present. now rewrite En.
    + intros c Hc. now apply assign_columns_float.
    + intros c Hc. now apply assign_columns_other.
    + discriminate.
Qed.

Lemma encoded_suffix (col : string) :
  In col categorical_columns ->
  endswith (col ++ "_encoded") "_encoded" = true.
Proof.
  assert (H : forallb (fun col => endswith (col ++ "_encoded") "_encoded")
                categorical_columns = true) by (vm_compute; reflexivity).
  rewrite forallb_forall in H. apply H.
Qed.

(** X26. The columns for importance analysis: before any matrix has been
    built the engineer lists none; after [engineer_features] has returned
    it lists the columns of the matrix whose name does not end in
    [_encoded], in order, so that no label-encoded column of the fifteen
    text columns is among them. *)
Theorem importance_columns_leave_out_the_encoded
        (self self' : t) (data out : ref) (h h' : heap) :
  get_feature_importance_columns init = [] /\
  (engineer_features self data h = (OK (self', out), h') ->
   get_feature_importance_columns self'
   = filter (fun col => negb (endswith col "_encoded"))
            (dict_keys (nth out h' [])) /\
   forall col, In col categorical_columns ->
               ~ In (col ++ "_encoded")%string
                    (get_feature_importance_columns self')).
Proof.
  split; [reflexivity|].
  rewrite engineer_features_unfold. cbv zeta.
  destruct (_create_derived_features (nth data h [])) as [d1|];
    [|discriminate].
  destruct (_encode_categorical_features (label_encoders self) d1)
    as [[encoders d2]|]; [|discriminate].
  destruct (_normalize_numeric_features (scaler self) d2)
    as [[stats d3]|]; [|discriminate].
  intros [= <- <- <-].
  replace (nth (length h + 2)
             (h ++ [d3; drop_columns (columns_to_drop d3) d3;
                    keep_numeric (drop_columns (columns_to_drop d3) d3)]) [])
    with (keep_numeric (drop_columns (columns_to_drop d3) d3)).
  2:{ rewrite app_nth2 by lia.
      replace (length h + 2 - length h) with 2 by lia. reflexivity. }
  unfold get_feature_importance_columns, describe.
  cbn [feature_info feature_names].
  split; [reflexivity|].
  intros col Hcol Hin. apply filter_In in Hin. destruct Hin as [_ Hin].
  now rewrite (encoded_suffix col Hcol) in Hin.
Qed.

End WithScaler.

Lemma scaling_touches_only_the_scaled_columns_witness :
  dict_keys (snd scaled_sample) = dict_keys (snd encoded_sample) /\
  (forall c, In c numeric_columns -> dict_mem c (snd encoded_sample) = true ->
             In c (columns_to_scale (snd encoded_sample))) /\
  (forall c, In c (columns_to_scale (snd encoded_sample)) ->
             exists s, dict_get c (snd scaled_sample) = Some s /\
                       dtype_of s = Float64) /\
  (forall c, ~ In c (columns_to_scale (snd encoded_sample)) ->
             dict_get c (snd scaled_sample) = dict_get c (snd encoded_sample)) /\
  (columns_to_scale (snd encoded_sample) = [] ->
   fst scaled_sample = [] /\ snd scaled_sample = snd encoded_sample).
Proof.
  apply (scaling_touches_only_the_scaled_columns (lib := centring_scaler)
           [] (fst scaled_sample) (snd encoded_sample) (snd scaled_sample)).
  vm_compute. reflexivity.
Defined.

End ScalingTheorems.

Module ScoreTheorems.
Import Evaluator.

(** X27. The scores of a model: a failure of the AUC does not fail the
    evaluation.  Whether [_calculate_metrics] returns does not depend on
    the probabilities it is given; when it returns, the metrics have the
    five scores of the comparison table, the F1-Score among them as a
    float, and the AUC is the one computed, or 0 when its computation
    raised. *)
Theorem auc_failure_gives_zero {sk : Sklearn} (y_true : Series)
        (y_pred : list value) (y_pred_proba : list Q) :
  (forall other,
     is_ok (_calculate_metrics y_true y_pred y_pred_proba)
     = is_ok (_calculate_metrics y_true y_pred other)) /\
  (forall metrics,
     _calculate_metrics y_true y_pred y_pred_proba = OK metrics ->
     complete metrics /\
     (exists f1, dict_get "f1_score" metrics = Some (MFloat f1)) /\
     dict_get "roc_auc" metrics
     = Some (MFloat match roc_auc_score y_true y_pred_proba with
                    | OK auc => auc
                    | Raise _ => 0%Q
                    end)).
Proof.
  split.
  - intro other. unfold _calculate_metrics.
    destruct (accuracy_score y_true y_pred); cbn [bind]; [|reflexivity].
    destruct (precision_score y_true y_pred); cbn [bind]; [|reflexivity].
    destruct (recall_score y_true y_pred); cbn [bind]; [|reflexivity].
    destruct (f1_score y_true y_pred); cbn [bind]; [|reflexivity].
    destruct (confusion_matrix y_true y_pred); cbn [bind]; [|reflexivity].
    destruct (precision_score_per_class y_true y_pred); cbn [bind];
      [|reflexivity].
    destruct (recall_score_per_class y_true y_pred); cbn [bind]; [|reflexivity].
    destruct (f1_score_per_class y_true y_pred); reflexivity.
  - intros metrics Hrun.
    destruct (EvaluationFacts.calculated_metrics _ _ _ _ Hrun) as (Hc & Hf).
    split; [exact Hc|]. split; [exact Hf|].
    unfold _calculate_metrics in Hrun.
    destruct (accuracy_score y_true y_pred); cbn [bind] in Hrun; [|discriminate].
    destruct (precision_score y_true y_pred); cbn [bind] in Hrun; [|discriminate].
    destruct (recall_score y_true y_pred); cbn [bind] in Hrun; [|discriminate].
    destruct (f1_score y_true y_pred); cbn [bind] in Hrun; [|discriminate].
    destruct (confusion_matrix y_true y_pred); cbn [bind] in Hrun; [|discriminate].
    destruct (precision_score_per_class y_true y_pred); cbn [bind] in Hrun;
      [|discriminate].
    destruct (recall_score_per_class y_true y_pred); cbn [bind] in Hrun;
      [|discriminate].
    destruct (f1_score_per_class y_true y_pred); cbn [bind] in Hrun;
      [|discriminate].
    injection Hrun as <-. reflexivity.
Qed.

End ScoreTheorems.
